(** * Hashview backend: geofenced review verification and reward issuance

    A shallow embedding of the review-submission flow of the Hashview
    backend and of the coupon utilities it relies on:

    - [utils/geolocation.js]   : [calculateDistance], [isWithinGeofence]
    - [utils/coupon.js]        : [calculateCouponExpiry], [isCouponValid],
                                 [calculateDiscount]
    - [models/Coupon.model.js] : the coupon document and [isValid]
    - [controllers/review.controller.js] : [logSuspiciousBehavior],
                                 [createReview]
    - [controllers/businessCoupon.controller.js] : [scanAndRedeemCoupon],
                                 [updateCoupon]
    - the coupon controller    : [redeemCoupon]
    - the cron jobs            : [expireCoupons]

    Conventions.  Mongo collections are lists of documents in insertion
    order; [findOne] is the first match, [countDocuments] the number of
    matches.  Every handler runs to completion before the next one starts
    (interleavings of concurrent requests are outside this development).
    JavaScript numbers that go through [Math] functions or are summed
    and divided (coordinates, distances, radii, ratings and their
    average) are binary64 floats.  Money amounts and GPS readings are
    rationals: the statements made about them are comparisons and bounds
    that do not depend on how a product or quotient is rounded.
    Counters are integers.  A [Date] is its time value, an integer
    number of milliseconds since the epoch.

    A handler whose [try] block throws hands the error to [next]; it is
    modelled as a response of its own, with the store as the statements
    before the throw left it.  [Model.create] and [document.save()] throw
    when a schema validator or an index of the collection refuses the
    document; the validators modelled are those of the fields a handler
    writes (a stored document was created through its model and
    satisfies the others). *)

From Stdlib Require Import List ZArith QArith Qminmax Bool String Lia Floats.
Import ListNotations.

Set Implicit Arguments.
Set Warnings "-inexact-float".

(* ================================================================== *)
(** * 1. The JavaScript runtime pieces the handlers use                *)
(* ================================================================== *)

(** ** 1.1 [Date]: local time, [getHours], [setHours] (ECMA-262, 21.4.1) *)

Module JsDate.
Local Open Scope Z_scope.

Definition msPerSecond : Z := 1000.
Definition msPerMinute : Z := 60000.
Definition msPerHour   : Z := 3600000.
Definition msPerDay    : Z := 86400000.

(** The host time zone.  [offsetAtUTC t] is the zone's offset from UTC,
    in milliseconds, in force at the instant [t]; [offsetAtLocal w] is the
    offset used to read the wall-clock value [w] back as an instant (at a
    wall-clock time skipped by a forward transition, the offset in force
    before the transition). *)
Record TimeZone : Type := mkZone {
  offsetAtUTC   : Z -> Z;
  offsetAtLocal : Z -> Z
}.

Definition LocalTime (tz : TimeZone) (t : Z) : Z := t + offsetAtUTC tz t.
Definition UTC (tz : TimeZone) (w : Z) : Z := w - offsetAtLocal tz w.

Definition Day (t : Z) : Z := t / msPerDay.
Definition HourFromTime (t : Z) : Z := (t / msPerHour) mod 24.
Definition MinFromTime (t : Z) : Z := (t / msPerMinute) mod 60.
Definition SecFromTime (t : Z) : Z := (t / msPerSecond) mod 60.
Definition msFromTime (t : Z) : Z := t mod msPerSecond.

Definition MakeTime (hour min sec ms : Z) : Z :=
  hour * msPerHour + min * msPerMinute + sec * msPerSecond + ms.
Definition MakeDate (day time : Z) : Z := day * msPerDay + time.

(** [d.getHours()] *)
Definition getHours (tz : TimeZone) (t : Z) : Z :=
  HourFromTime (LocalTime tz t).

(** [d.setHours(hour)]: minutes, seconds and milliseconds are kept. *)
Definition setHours (tz : TimeZone) (t hour : Z) : Z :=
  let w := LocalTime tz t in
  UTC tz (MakeDate (Day w)
            (MakeTime hour (MinFromTime w) (SecFromTime w) (msFromTime w))).

(** [d.setHours(hour, min, sec, ms)] *)
Definition setHours4 (tz : TimeZone) (t hour min sec ms : Z) : Z :=
  UTC tz (MakeDate (Day (LocalTime tz t)) (MakeTime hour min sec ms)).

(** A zone whose offset never changes (UTC, Asia/Kolkata, ...). *)
Definition fixedZone (offset : Z) : TimeZone :=
  mkZone (fun _ => offset) (fun _ => offset).

Definition utcZone : TimeZone := fixedZone 0.
(** Asia/Kolkata, UTC+05:30, the zone the cron jobs are scheduled in. *)
Definition kolkataZone : TimeZone := fixedZone 19800000.

(** A zone that moves its clocks forward at the instant [switch], from
    offset [before] to offset [after] (with [before < after]). *)
Definition forwardZone (switch before after : Z) : TimeZone :=
  mkZone (fun t => if t <? switch then before else after)
         (fun w => if w <? switch + after then before else after).

(** America/New_York around 8 March 2026: at 07:00:00 UTC the clocks go
    from 02:00 EST (UTC-5) to 03:00 EDT (UTC-4). *)
Definition newYorkSpring2026_switch : Z := 1772953200000.
Definition newYorkSpring2026 : TimeZone :=
  forwardZone newYorkSpring2026_switch (-5 * msPerHour) (-4 * msPerHour).
End JsDate.

(** ** 1.2 [Math] and binary64 arithmetic *)

Module JsMath.
Local Open Scope float_scope.

(** [Math.sin], [Math.cos] and [Math.atan2] are implementation-approximated
    in ECMA-262; the handlers are parametric in the engine that provides
    them.  [Math.sqrt] and the arithmetic operators are the IEEE ones. *)
Record MathEngine : Type := mkMath {
  Math_sin   : float -> float;
  Math_cos   : float -> float;
  Math_atan2 : float -> float -> float
}.

(** What ECMA-262 (21.3.2) requires of every engine on NaN arguments. *)
Definition NaNPropagating (M : MathEngine) : Prop :=
  Math_sin M nan = nan /\
  Math_cos M nan = nan /\
  (forall x, Math_atan2 M nan x = nan) /\
  (forall y, Math_atan2 M y nan = nan).

Definition Math_PI : float := 0x1.921fb54442d18p+1.

(** A reference engine, used to run the handlers on concrete requests:
    alternating power series in Horner form, accurate on the arguments
    the geofence produces from validated coordinates (|x| <= pi). *)
Fixpoint altSeries (fuel : nat) (i x2 : float) : float :=
  match fuel with
  | O => 1
  | S fuel' => 1 - x2 / (i * (i + 1)) * altSeries fuel' (i + 2) x2
  end.

Definition ref_sin (x : float) : float := x * altSeries 16 2 (x * x).
Definition ref_cos (x : float) : float := altSeries 16 1 (x * x).

Fixpoint atanSeries (fuel : nat) (k u2 : float) : float :=
  match fuel with
  | O => 1 / k
  | S fuel' => 1 / k - u2 * atanSeries fuel' (k + 2) u2
  end.

(** Argument halving: atan t = 2 atan (t / (1 + sqrt (1 + t^2))). *)
Definition halveArg (t : float) : float := t / (1 + sqrt (1 + t * t)).

Definition ref_atan_small (t : float) : float :=
  let u := halveArg (halveArg t) in
  4 * (u * atanSeries 24 1 (u * u)).

Definition ref_atan (t : float) : float :=
  if abs t <=? 1 then ref_atan_small t
  else if 0 <? t then Math_PI / 2 - ref_atan_small (1 / t)
  else - (Math_PI / 2) - ref_atan_small (1 / t).

Definition ref_atan2 (y x : float) : float :=
  if is_nan y || is_nan x then nan
  else if 0 <? x then ref_atan (y / x)
  else if x <? 0 then
    (if y <? 0 then ref_atan (y / x) - Math_PI else ref_atan (y / x) + Math_PI)
  else if 0 <? y then Math_PI / 2
  else if y <? 0 then - (Math_PI / 2)
  else 0.

Definition refMath : MathEngine := mkMath ref_sin ref_cos ref_atan2.
End JsMath.

(* ================================================================== *)
(** * 2. [utils/geolocation.js]                                        *)
(* ================================================================== *)

Module Geolocation.
Import JsMath.
Local Open Scope float_scope.

Section WithEngine.
Variable M : MathEngine.

(** [calculateDistance]: haversine distance, in metres. *)
Definition calculateDistance (lat1 lon1 lat2 lon2 : float) : float :=
  let R := 6371e3 in
  let phi1 := lat1 * Math_PI / 180 in
  let phi2 := lat2 * Math_PI / 180 in
  let dphi := (lat2 - lat1) * Math_PI / 180 in
  let dlambda := (lon2 - lon1) * Math_PI / 180 in
  let a := Math_sin M (dphi / 2) * Math_sin M (dphi / 2) +
           Math_cos M phi1 * Math_cos M phi2 *
           Math_sin M (dlambda / 2) * Math_sin M (dlambda / 2) in
  let c := 2 * Math_atan2 M (sqrt a) (sqrt (1 - a)) in
  let distance := R * c in
  distance.

(** [isWithinGeofence]; the two [console.log] calls only format
    numbers and are not modelled. *)
Definition isWithinGeofence
    (userLat userLon businessLat businessLon radius : float) : bool :=
  let distance := calculateDistance userLat userLon businessLat businessLon in
  let isWithin := distance <=? radius in
  isWithin.
End WithEngine.
End Geolocation.

(* ================================================================== *)
(** * 3. Documents                                                     *)
(* ================================================================== *)

Definition ObjectId : Type := nat.

(** A [Date]-typed field that a document may lack ([undefined]), hold as
    [null], or hold as a date. *)
Inductive DateField : Type :=
| undefined
| null
| date (t : Z).

(** Comparisons on rationals, as booleans. *)
Definition Qltb (x y : Q) : bool := negb (Qle_bool y x).
Definition Qgtb (x y : Q) : bool := Qltb y x.
(** JavaScript truthiness of a number that is not NaN. *)
Definition truthyQ (x : Q) : bool := negb (Qeq_bool x 0).
Definition truthyZ (x : Z) : bool := negb (x =? 0)%Z.
(** JavaScript truthiness of a number: neither zero nor NaN. *)
Definition truthyFloat (x : float) : bool :=
  negb (x =? 0)%float && negb (PrimFloat.is_nan x).

(** ** 3.1 [models/Coupon.model.js] *)

Module Coupon.
Inductive Type_ : Type := business_ | review_reward.
Inductive RewardType : Type :=
  percentage | fixed | buy1get1 | free_drink | free_item.
Inductive Status : Type := active | redeemed | expired | cancelled | inactive.

Definition Type_eq_dec (a b : Type_) : {a = b} + {a <> b}.
Proof. decide equality. Defined.
Definition Status_eq_dec (a b : Status) : {a = b} + {a <> b}.
Proof. decide equality. Defined.
Definition RewardType_eq_dec (a b : RewardType) : {a = b} + {a <> b}.
Proof. decide equality. Defined.

Definition type_is (a b : Type_) : bool :=
  if Type_eq_dec a b then true else false.
Definition status_is (a b : Status) : bool :=
  if Status_eq_dec a b then true else false.

(** The QR payload stored (JSON-stringified) in [qrCodeData]; its
    [timestamp] member is not modelled. *)
Record QrData : Type := mkQr {
  qr_type     : string;
  qr_couponId : ObjectId;
  qr_code     : string;
  qr_businessId : ObjectId;
  qr_userId   : ObjectId;
  qr_reviewId : ObjectId
}.

Record t : Type := mk {
  _id      : ObjectId;
  business : ObjectId;
  type     : Type_;
  user     : option ObjectId;
  review   : option ObjectId;
  code     : string;
  description : string;
  rewardType  : RewardType;
  rewardValue : Q;
  minPurchaseAmount : Q;
  maxDiscountAmount : option Q;          (* null = no cap *)
  validFrom  : option Z;
  validUntil : DateField;
  usageLimit : option Z;                 (* null = unlimited *)
  usageCount : Z;
  redemptionLimit : option Z;            (* null = unlimited *)
  redemptionCount : Z;
  status   : Status;
  isActive : bool;
  redeemedAt : option Z;
  redeemedBy : option ObjectId;
  qrCodeData : option QrData
}.

Definition set_status (s : Status) (c : t) : t :=
  mk (_id c) (business c) (type c) (user c) (review c) (code c)
     (description c) (rewardType c) (rewardValue c) (minPurchaseAmount c)
     (maxDiscountAmount c) (validFrom c) (validUntil c) (usageLimit c)
     (usageCount c) (redemptionLimit c) (redemptionCount c) s (isActive c)
     (redeemedAt c) (redeemedBy c) (qrCodeData c).

Definition set_redeemed (at_ : Z) (by_ : ObjectId) (c : t) : t :=
  mk (_id c) (business c) (type c) (user c) (review c) (code c)
     (description c) (rewardType c) (rewardValue c) (minPurchaseAmount c)
     (maxDiscountAmount c) (validFrom c) (validUntil c) (usageLimit c)
     (usageCount c) (redemptionLimit c) (redemptionCount c) redeemed
     (isActive c) (Some at_) (Some by_) (qrCodeData c).

Definition set_qrCodeData (q : QrData) (c : t) : t :=
  mk (_id c) (business c) (type c) (user c) (review c) (code c)
     (description c) (rewardType c) (rewardValue c) (minPurchaseAmount c)
     (maxDiscountAmount c) (validFrom c) (validUntil c) (usageLimit c)
     (usageCount c) (redemptionLimit c) (redemptionCount c) (status c)
     (isActive c) (redeemedAt c) (redeemedBy c) (Some q).

(** [$inc: { usageCount: 1 }] and [$inc: { redemptionCount: 1 }] *)
Definition inc_usageCount (c : t) : t :=
  mk (_id c) (business c) (type c) (user c) (review c) (code c)
     (description c) (rewardType c) (rewardValue c) (minPurchaseAmount c)
     (maxDiscountAmount c) (validFrom c) (validUntil c) (usageLimit c)
     (usageCount c + 1)%Z (redemptionLimit c) (redemptionCount c) (status c)
     (isActive c) (redeemedAt c) (redeemedBy c) (qrCodeData c).

Definition inc_redemptionCount (c : t) : t :=
  mk (_id c) (business c) (type c) (user c) (review c) (code c)
     (description c) (rewardType c) (rewardValue c) (minPurchaseAmount c)
     (maxDiscountAmount c) (validFrom c) (validUntil c) (usageLimit c)
     (usageCount c) (redemptionLimit c) (redemptionCount c + 1)%Z (status c)
     (isActive c) (redeemedAt c) (redeemedBy c) (qrCodeData c).

(** [couponSchema.methods.isValid], with [now] the value of the
    [new Date()] it reads. *)
Definition isValid (c : t) (now : Z) : bool :=
  (* Check if active *)
  if negb (isActive c) || status_is (status c) inactive then false
  (* Check date validity *)
  else if match validFrom c with
          | Some from => (now <? from)%Z
          | None => false
          end then false
  else if match validUntil c with
          | date until => (now >? until)%Z
          | _ => false
          end then false
  (* For business type, check usage limit *)
  else if type_is (type c) business_ &&
          match usageLimit c with
          | Some limit => truthyZ limit && (usageCount c >=? limit)%Z
          | None => false
          end then false
  (* For review_reward type, check if already redeemed *)
  else if type_is (type c) review_reward && status_is (status c) redeemed
       then false
  else true.
End Coupon.

(** ** 3.2 [utils/coupon.js] *)

Module CouponUtils.
Import Coupon.

(** [calculateCouponExpiry(hours = 2)], with [now] its clock reading. *)
Definition calculateCouponExpiry (now : Z) (hours : Z) : Z :=
  (now + hours * 60 * 60 * 1000)%Z.

(** [new Date(coupon.validUntil)] as a time value; [None] is the
    invalid date, whose time value is NaN. *)
Definition newDate (d : DateField) : option Z :=
  match d with
  | undefined => None
  | null => Some 0%Z
  | date t => Some t
  end.

(** [isCouponValid]; a comparison with the invalid date is false. *)
Definition isCouponValid (c : Coupon.t) (now : Z) : bool :=
  if negb (status_is (status c) active) then false
  else if match newDate (validUntil c) with
          | Some until => (now >? until)%Z
          | None => false
          end then false
  else true.

(** [calculateDiscount]; the [default] case of the switch is not
    reachable for a reward type of the schema's enumeration. *)
Definition calculateDiscount (c : Coupon.t) (purchaseAmount : Q) : Q :=
  match rewardType c with
  | percentage =>
      let discount := (purchaseAmount * rewardValue c) / 100 in
      match maxDiscountAmount c with
      | Some cap => if truthyQ cap && Qgtb discount cap then cap else discount
      | None => discount
      end
  | fixed => Qmin (rewardValue c) purchaseAmount
  | buy1get1 => (purchaseAmount * rewardValue c) / 100
  | free_drink | free_item => Qmin (rewardValue c) purchaseAmount
  end.
End CouponUtils.

(** ** 3.3 [models/Business.model.js] (the fields the review flow uses) *)

Module Business.
Inductive Status : Type := pending | active | inactive | suspended | rejected.

Definition Status_eq_dec (a b : Status) : {a = b} + {a <> b}.
Proof. decide equality. Defined.
Definition status_is (a b : Status) : bool :=
  if Status_eq_dec a b then true else false.

Record t : Type := mk {
  _id    : ObjectId;
  owner  : ObjectId;
  status : Status;
  longitude : float;                     (* location.coordinates[0] *)
  latitude  : float;                     (* location.coordinates[1] *)
  radius : float;
  rating_average : float;                (* rating.average: min 0, max 5 *)
  rating_count   : nat;
  reviewCount    : nat
}.

Definition set_rating (average : float) (count : nat) (b : t) : t :=
  mk (_id b) (owner b) (status b) (longitude b) (latitude b) (radius b)
     average count count.

(** The validators of [rating.average] ([min: 0], [max: 5]); a NaN fails
    the cast to [Number].  Of the paths [business.save()] validates this
    is the one [createReview] has written. *)
Definition validAverage (average : float) : bool :=
  (0 <=? average)%float && (average <=? 5)%float.
End Business.

(** ** 3.4 [models/Review.model.js] *)

Module Review.
Inductive Status : Type := pending | approved | rejected | flagged.

Definition Status_eq_dec (a b : Status) : {a = b} + {a <> b}.
Proof. decide equality. Defined.
Definition status_is (a b : Status) : bool :=
  if Status_eq_dec a b then true else false.

Record DeviceFingerprint : Type := mkDevice {
  deviceId : string
}.

Record SecurityMetadata : Type := mkSecurity {
  locationAccuracy : option Q;
  verificationTime : option Q;
  motionDetected   : option bool;
  isMockLocation   : option bool;
  locationHistoryCount : option Q;
  suspiciousActivitiesCount : nat;
  deviceFingerprint : option DeviceFingerprint;
  devicePlatform    : option string;
  actualDistance : float;
  businessRadius : float;
  submittedAt    : Z
}.

(** [images], [videos], [likes], [dislikes] and [helpful] play no part
    in the flow and are left out. *)
Record t : Type := mk {
  _id      : ObjectId;
  user     : ObjectId;
  business : ObjectId;
  rating   : float;
  comment  : string;
  emotion  : option string;              (* null when absent *)
  geolocation : float * float;           (* [longitude, latitude] *)
  verified : bool;
  status   : Status;
  couponAwarded : bool;
  coupon   : option ObjectId;
  securityMetadata : SecurityMetadata;
  createdAt : Z
}.

Definition set_coupon (couponId : ObjectId) (r : t) : t :=
  mk (_id r) (user r) (business r) (rating r) (comment r) (emotion r)
     (geolocation r) (verified r) (status r) true (Some couponId)
     (securityMetadata r) (createdAt r).

Definition set_status (s : Status) (r : t) : t :=
  mk (_id r) (user r) (business r) (rating r) (comment r) (emotion r)
     (geolocation r) (verified r) s (couponAwarded r) (coupon r)
     (securityMetadata r) (createdAt r).

(** The schema's validators.  [rating]: [min: 1], [max: 5] (a NaN fails
    the cast to [Number]); [comment]: [required], [minlength: 10],
    [maxlength: 500], lengths counted on ASCII text; [emotion]: one of
    the six values of the [enum], or [null]. *)
Definition validRating (x : float) : bool :=
  (1 <=? x)%float && (x <=? 5)%float.
Definition validComment (x : string) : bool :=
  (10 <=? String.length x)%nat && (String.length x <=? 500)%nat.

Definition emotions : list string :=
  ["loved"; "happy"; "okay"; "disappointed"; "frustrated"; "amazing"]%string.
Definition validEmotion (x : option string) : bool :=
  match x with
  | Some e => existsb (String.eqb e) emotions
  | None => true
  end.

(** The 2dsphere index on [geolocation] takes a point whose longitude
    is within [-180, 180] and whose latitude is within [-90, 90]. *)
Definition validPoint (p : float * float) : bool :=
  ((-180 <=? fst p) && (fst p <=? 180) &&
   (-90 <=? snd p) && (snd p <=? 90))%float.
End Review.

(* ================================================================== *)
(** * 4. The store and the request handlers                            *)
(* ================================================================== *)

(** ** 4.1 The suspicious-activity log of [review.controller.js] *)

Inductive EventType : Type :=
| RATE_LIMIT_EXCEEDED
| GEOFENCE_VIOLATION
| POOR_GPS_ACCURACY
| VERIFICATION_TIME_MISMATCH
| MOCK_LOCATION_DETECTED
| INSUFFICIENT_LOCATION_HISTORY
| FRONTEND_ (type : string)                (* `FRONTEND_${activity.type}` *)
| MULTIPLE_DEVICE_REVIEWS.

Inductive Metadata : Type :=
| RateLimitMeta (reviewCount : nat) (businessId : ObjectId)
| GeofenceMeta (businessId : ObjectId) (distance allowedRadius : float)
| AccuracyMeta (businessId : ObjectId) (accuracy : Q)
| VerificationTimeMeta (businessId : ObjectId) (verificationTime : Q)
| MockLocationMeta (businessId : ObjectId) (devicePlatform : option string)
| LocationHistoryMeta (businessId : ObjectId) (locationHistoryCount : Q)
| FrontendMeta (businessId : ObjectId) (timestamp : Z)
| DeviceMeta (businessId : ObjectId) (deviceId : string) (reviewCount : nat).

(** The [timestamp] and [ipAddress] members of an entry are not modelled. *)
Record LogEntry : Type := mkEntry {
  userId    : ObjectId;
  eventType : EventType;
  metadata  : Metadata
}.

(** A push notification handed to [sendPushNotification]. *)
Record Notification : Type := mkNotification {
  recipient : ObjectId;
  title     : string
}.

(** ** 4.2 The store *)

Record State : Type := mkState {
  reviews    : list Review.t;
  businesses : list Business.t;
  coupons    : list Coupon.t;
  suspiciousActivityLog : list LogEntry;
  pushed     : list Notification;
  nextId     : ObjectId                    (* the next fresh [_id] *)
}.

Definition set_reviews (f : list Review.t -> list Review.t) (s : State) :=
  mkState (f (reviews s)) (businesses s) (coupons s)
          (suspiciousActivityLog s) (pushed s) (nextId s).
Definition set_businesses (f : list Business.t -> list Business.t) (s : State) :=
  mkState (reviews s) (f (businesses s)) (coupons s)
          (suspiciousActivityLog s) (pushed s) (nextId s).
Definition set_coupons (f : list Coupon.t -> list Coupon.t) (s : State) :=
  mkState (reviews s) (businesses s) (f (coupons s))
          (suspiciousActivityLog s) (pushed s) (nextId s).
Definition set_log (f : list LogEntry -> list LogEntry) (s : State) :=
  mkState (reviews s) (businesses s) (coupons s)
          (f (suspiciousActivityLog s)) (pushed s) (nextId s).
Definition set_pushed (f : list Notification -> list Notification) (s : State) :=
  mkState (reviews s) (businesses s) (coupons s)
          (suspiciousActivityLog s) (f (pushed s)) (nextId s).
Definition set_nextId (n : ObjectId) (s : State) :=
  mkState (reviews s) (businesses s) (coupons s)
          (suspiciousActivityLog s) (pushed s) n.

(** [Model.countDocuments(query)] *)
Definition countDocuments {A : Type} (query : A -> bool) (docs : list A) : nat :=
  List.length (filter query docs).

(** Writing back the document whose [_id] is [id] (ids are unique in a
    collection; the document is the one [find] by id returns). *)
Fixpoint updateById {A : Type} (idOf : A -> ObjectId) (id : ObjectId)
    (f : A -> A) (docs : list A) : list A :=
  match docs with
  | [] => []
  | d :: docs' =>
      if Nat.eqb (idOf d) id then f d :: docs'
      else d :: updateById idOf id f docs'
  end.

(** ** 4.3 Handlers: a state-and-early-response monad *)

Section Handlers.
Variable Response : Type.

(** A handler step either continues with a value or has sent the
    response ([return res.status(..).json(..)]). *)
Definition Handler (A : Type) : Type := State -> State * (A + Response).

Definition ret {A} (a : A) : Handler A := fun s => (s, inl a).
Definition bind {A B} (m : Handler A) (k : A -> Handler B) : Handler B :=
  fun s => match m s with
           | (s', inl a) => k a s'
           | (s', inr r) => (s', inr r)
           end.
Definition respond {A} (r : Response) : Handler A := fun s => (s, inr r).
Definition gets {A} (f : State -> A) : Handler A := fun s => (s, inl (f s)).
Definition modify (f : State -> State) : Handler unit :=
  fun s => (f s, inl tt).
Definition fresh : Handler ObjectId :=
  fun s => (set_nextId (S (nextId s)) s, inl (nextId s)).

(** [for (const x of xs) { await body(x) }] *)
Fixpoint forEach {A} (xs : list A) (body : A -> Handler unit) : Handler unit :=
  match xs with
  | [] => ret tt
  | x :: xs' => bind (body x) (fun _ => forEach xs' body)
  end.

(** The response a handler ends with. *)
Definition run (h : Handler Response) (s : State) : State * Response :=
  match h s with
  | (s', inl r) => (s', r)
  | (s', inr r) => (s', r)
  end.
End Handlers.

Arguments ret {Response A} a.
Arguments bind {Response A B} m k.
Arguments respond {Response A} r.
Arguments gets {Response A} f.
Arguments modify {Response} f.
Arguments fresh {Response}.
Arguments forEach {Response A} xs body.
Arguments run {Response} h s.

Declare Scope handler_scope.
Delimit Scope handler_scope with handler.
Notation "x <- m ;; k" := (bind m (fun x => k))
  (at level 61, m at next level, right associativity) : handler_scope.
Notation "m ;;; k" := (bind m (fun _ => k))
  (at level 61, right associativity) : handler_scope.

(** [logSuspiciousBehavior]: push the entry, keep only the last 1000. *)
Definition pushEntry (entry : LogEntry) (log : list LogEntry) : list LogEntry :=
  let log' := log ++ [entry] in
  if Nat.ltb 1000 (List.length log') then tl log' else log'.

Definition logSuspiciousBehavior {Response : Type}
    (user : ObjectId) (event : EventType) (meta : Metadata)
  : Handler Response unit :=
  modify (set_log (pushEntry (mkEntry user event meta))).

(** ** 4.4 [controllers/review.controller.js]: [createReview] *)

(** [req.user] and the [req.body] of [POST /api/reviews].  The route's
    Joi schema lets through ratings from 1 to 5, comments of 10 to 500
    characters and twenty emotions, of which the model's [enum] has two
    ("happy" and "loved"); the handler itself reads the body as it
    comes. *)
Module Request.
Record Activity : Type := mkActivity {
  activity_type      : string;
  activity_timestamp : Z
}.

Record t : Type := mk {
  user_id  : ObjectId;                   (* req.user.id *)
  business : ObjectId;
  rating   : float;
  comment  : string;
  emotion  : option string;
  latitude  : float;
  longitude : float;
  (* security metadata from the client, all optional *)
  locationAccuracy : option Q;
  verificationTime : option Q;
  motionDetected   : option bool;
  isMockLocation   : option bool;
  locationHistoryCount : option Q;
  suspiciousActivities : option (list Activity);
  deviceFingerprint : option Review.DeviceFingerprint;
  devicePlatform    : option string
}.
End Request.

(** The readings of the system clock ([new Date()]) that [createReview]
    takes, in program order. *)
Record Clock : Type := mkClock {
  at_today     : Z;                        (* const today = new Date() *)
  at_create    : Z;                        (* Review.create: createdAt *)
  at_expiry    : Z;                        (* const couponExpiry = new Date() *)
  at_validFrom : Z                         (* validFrom: new Date() *)
}.

(** The errors [createReview]'s [catch] hands to [next]. *)
Inductive Failure : Type :=
| ReviewValidationError          (* Review.create: a validator fails *)
| ReviewGeoKeysError             (* Review.create: the 2dsphere index *)
| BusinessValidationError        (* business.save(): rating.average *)
| CouponValidationError          (* Coupon.create: a validator fails *)
| CouponDuplicateKeyError.       (* Coupon.create: the unique code index *)

Inductive Response : Type :=
| BusinessNotFound                                        (* 404 *)
| BusinessNotActive                                       (* 400 *)
| ReviewLimitReached                                      (* 429 *)
| AlreadyReviewedToday                                    (* 400 *)
| OutsideGeofence (radius distance : float)               (* 403 *)
| GpsAccuracyTooLow (accuracy : Q)                        (* 400 *)
| MockLocationDetected                                    (* 403 *)
| MultipleSecurityConcerns                                (* 403 *)
| ReviewPostedLimitReached (review : Review.t)            (* 201, no coupon *)
| ReviewPosted (review : Review.t) (coupon : Coupon.t)    (* 201 *)
| Failed (error : Failure).                               (* next(error) *)

(** A count or a length as a number: exact below 2^53, which no
    collection reaches. *)
Definition ofNat (n : nat) : float :=
  PrimFloat.of_uint63 (Uint63.of_Z (Z.of_nat n)).

(** [template?.field || fallback] on numbers. *)
Definition orElseQ (v : option Q) (fallback : Q) : Q :=
  match v with
  | Some x => if truthyQ x then x else fallback
  | None => fallback
  end.

(** [template?.description || fallback] on strings. *)
Definition orElseString (v : option string) (fallback : string) : string :=
  match v with
  | Some EmptyString => fallback
  | Some x => x
  | None => fallback
  end.

Module ReviewController.
Import JsDate JsMath Geolocation.
Local Open Scope handler_scope.
Local Open Scope nat_scope.

Section CreateReview.
Variable M : MathEngine.
Variable tz : TimeZone.
Variable clock : Clock.
(** The code that [generateCouponCode()] draws: "HASH-" and six
    upper-case letters or digits, which the schema's [uppercase] setter
    leaves as it is. *)
Variable couponCode : string.
Variable req : Request.t.

Let user := Request.user_id req.
Let businessId := Request.business req.

(** [today.setHours(0, 0, 0, 0)] *)
Definition today : Z := setHours4 tz (at_today clock) 0 0 0 0.

(** Lines 137-152: the business must exist and be active. *)
Definition loadBusiness : Handler Response Business.t :=
  business <- gets (fun s =>
    find (fun b => Business._id b =? businessId) (businesses s)) ;;
  match business with
  | None => respond BusinessNotFound
  | Some business =>
      if negb (Business.status_is (Business.status business) Business.active)
      then respond BusinessNotActive
      else ret business
  end.

(** Lines 154-173: at most 5 reviews per day. *)
Definition rateLimitCheck : Handler Response unit :=
  todayReviewCount <- gets (fun s =>
    countDocuments (fun r => (Review.user r =? user) &&
                             (Review.createdAt r >=? today)%Z)
                   (reviews s)) ;;
  if 5 <=? todayReviewCount then
    logSuspiciousBehavior user RATE_LIMIT_EXCEEDED
      (RateLimitMeta todayReviewCount businessId) ;;;
    respond ReviewLimitReached
  else ret tt.

(** Lines 175-187: one review per business per day. *)
Definition duplicateCheck : Handler Response unit :=
  existingReview <- gets (fun s =>
    find (fun r => (Review.user r =? user) &&
                   (Review.business r =? businessId) &&
                   (Review.createdAt r >=? today)%Z)
         (reviews s)) ;;
  match existingReview with
  | Some _ => respond AlreadyReviewedToday
  | None => ret tt
  end.

(** Lines 191-218: the geofence; continues with [actualDistance]. *)
Definition geofenceCheck (business : Business.t) : Handler Response float :=
  let businessLat := Business.latitude business in
  let businessLon := Business.longitude business in
  let withinGeofence :=
    isWithinGeofence M (Request.latitude req) (Request.longitude req)
                     businessLat businessLon (Business.radius business) in
  let actualDistance :=
    calculateDistance M (Request.latitude req) (Request.longitude req)
                      businessLat businessLon in
  if negb withinGeofence then
    logSuspiciousBehavior user GEOFENCE_VIOLATION
      (GeofenceMeta businessId actualDistance (Business.radius business)) ;;;
    respond (OutsideGeofence (Business.radius business) actualDistance)
  else ret actualDistance.

(** Lines 220-297: the security validation, check by check. *)
Definition gpsAccuracyCheck : Handler Response unit :=
  match Request.locationAccuracy req with
  | Some locationAccuracy =>
      if truthyQ locationAccuracy && Qgtb locationAccuracy 50 then
        logSuspiciousBehavior user POOR_GPS_ACCURACY
          (AccuracyMeta businessId locationAccuracy) ;;;
        respond (GpsAccuracyTooLow locationAccuracy)
      else ret tt
  | None => ret tt
  end.

Definition verificationTimeCheck : Handler Response unit :=
  match Request.verificationTime req with
  | Some verificationTime =>
      if negb (Qeq_bool verificationTime 30) then
        logSuspiciousBehavior user VERIFICATION_TIME_MISMATCH
          (VerificationTimeMeta businessId verificationTime)
      else ret tt
  | None => ret tt
  end.

Definition mockLocationCheck : Handler Response unit :=
  match Request.isMockLocation req with
  | Some true =>
      logSuspiciousBehavior user MOCK_LOCATION_DETECTED
        (MockLocationMeta businessId (Request.devicePlatform req)) ;;;
      respond MockLocationDetected
  | _ => ret tt
  end.

Definition locationHistoryCheck : Handler Response unit :=
  match Request.locationHistoryCount req with
  | Some locationHistoryCount =>
      if Qltb locationHistoryCount 5 then
        logSuspiciousBehavior user INSUFFICIENT_LOCATION_HISTORY
          (LocationHistoryMeta businessId locationHistoryCount)
      else ret tt
  | None => ret tt
  end.

Definition suspiciousActivitiesCheck : Handler Response unit :=
  match Request.suspiciousActivities req with
  | Some suspiciousActivities =>
      if 0 <? List.length suspiciousActivities then
        forEach suspiciousActivities (fun activity =>
          logSuspiciousBehavior user
            (FRONTEND_ (Request.activity_type activity))
            (FrontendMeta businessId (Request.activity_timestamp activity))) ;;;
        if 3 <=? List.length suspiciousActivities
        then respond MultipleSecurityConcerns
        else ret tt
      else ret tt
  | None => ret tt
  end.

Definition deviceFingerprintCheck : Handler Response unit :=
  match Request.deviceFingerprint req with
  | Some deviceFingerprint =>
      sameDeviceReviews <- gets (fun s =>
        countDocuments
          (fun r =>
             (Review.user r =? user) &&
             match Review.deviceFingerprint (Review.securityMetadata r) with
             | Some d => String.eqb (Review.deviceId d)
                                    (Review.deviceId deviceFingerprint)
             | None => false
             end &&
             (Review.createdAt r >=? today)%Z)
          (reviews s)) ;;
      if 3 <=? sameDeviceReviews then
        logSuspiciousBehavior user MULTIPLE_DEVICE_REVIEWS
          (DeviceMeta businessId (Review.deviceId deviceFingerprint)
                      sameDeviceReviews)
      else ret tt
  | None => ret tt
  end.

Definition securityValidation : Handler Response unit :=
  gpsAccuracyCheck ;;;
  verificationTimeCheck ;;;
  mockLocationCheck ;;;
  locationHistoryCheck ;;;
  suspiciousActivitiesCheck ;;;
  deviceFingerprintCheck.

(** Lines 299-327: [Review.create]; [emotion: emotion || null]. *)
Definition storedEmotion : option string :=
  match Request.emotion req with
  | Some EmptyString => None
  | e => e
  end.

Definition newReview (id : ObjectId) (business : Business.t)
    (actualDistance : float) : Review.t :=
  Review.mk id user businessId (Request.rating req) (Request.comment req)
    storedEmotion
    (Request.longitude req, Request.latitude req)
    true                               (* verified: true *)
    Review.approved                    (* schema default *)
    false None
    (Review.mkSecurity
       (Request.locationAccuracy req)
       (Request.verificationTime req)
       (Request.motionDetected req)
       (Request.isMockLocation req)
       (Request.locationHistoryCount req)
       (match Request.suspiciousActivities req with
        | Some l => List.length l
        | None => 0
        end)
       (Request.deviceFingerprint req)
       (Request.devicePlatform req)
       actualDistance
       (Business.radius business)
       (at_create clock))
    (at_create clock).

(** The document passes the schema's validators. *)
Definition reviewValidates : bool :=
  Review.validRating (Request.rating req) &&
  Review.validComment (Request.comment req) &&
  Review.validEmotion storedEmotion.

(** [Review.create] validates the document, then inserts it; a throw
    leaves the collection as it was. *)
Definition persistReview (business : Business.t) (actualDistance : float)
  : Handler Response Review.t :=
  if negb reviewValidates then respond (Failed ReviewValidationError)
  else if negb (Review.validPoint (Request.longitude req, Request.latitude req))
  then respond (Failed ReviewGeoKeysError)
  else
    id <- fresh ;;
    let review := newReview id business actualDistance in
    modify (set_reviews (fun rs => rs ++ [review])) ;;;
    ret review.

(** Lines 338-345: the rating is recomputed from the business's reviews
    and the business saved. *)
Definition averageRating (rs : list Review.t) : float :=
  (fold_left (fun sum r => sum + Review.rating r) rs 0
   / ofNat (List.length rs))%float.

Definition updateBusinessRating : Handler Response unit :=
  reviews <- gets (fun s =>
    filter (fun r => Review.business r =? businessId) (reviews s)) ;;
  let avgRating := averageRating reviews in
  if negb (Business.validAverage avgRating)
  then respond (Failed BusinessValidationError)
  else
    modify (set_businesses
              (updateById Business._id businessId
                 (Business.set_rating avgRating (List.length reviews)))).

(** Lines 376-404: the coupon that is created. *)
Definition couponExpiry : Z :=
  setHours tz (at_expiry clock) (getHours tz (at_expiry clock) + 2)%Z.

Definition newCoupon (id : ObjectId) (review : Review.t)
    (couponTemplate : option Coupon.t) : Coupon.t :=
  let rewardType :=
    match couponTemplate with
    | Some template => Coupon.rewardType template
    | None => Coupon.percentage
    end in
  let rewardValue :=
    orElseQ (option_map Coupon.rewardValue couponTemplate) 10 in
  let description :=
    orElseString (option_map Coupon.description couponTemplate)
      "Thank you for your review! Enjoy your reward. Valid for 2 hours." in
  let minPurchaseAmount :=
    orElseQ (option_map Coupon.minPurchaseAmount couponTemplate) 0 in
  let maxDiscountAmount :=
    match couponTemplate with
    | Some template =>
        match Coupon.maxDiscountAmount template with
        | Some cap => if truthyQ cap then Some cap else None
        | None => None
        end
    | None => None
    end in
  Coupon.mk id businessId Coupon.review_reward (Some user)
    (Some (Review._id review)) couponCode description
    rewardType rewardValue minPurchaseAmount maxDiscountAmount
    (Some (at_validFrom clock)) (date couponExpiry)
    None 0%Z None 0%Z Coupon.active true None None None.

(** [Coupon.create] validates the document ([code] is required,
    [description] has [maxlength: 500]), then inserts it under the
    unique index on [code]. *)
Definition couponValidates (coupon : Coupon.t) : bool :=
  negb (String.eqb (Coupon.code coupon) "") &&
  (String.length (Coupon.description coupon) <=? 500).

Definition codeTaken (code : string) (cs : list Coupon.t) : bool :=
  existsb (fun c => String.eqb (Coupon.code c) code) cs.

(** Lines 347-461: template lookup, redemption limit, coupon, pushes. *)
Definition rewardReview (business : Business.t) (review : Review.t)
  : Handler Response Response :=
  couponTemplate <- gets (fun s =>
    find (fun c => (Coupon.business c =? businessId) &&
                   Coupon.type_is (Coupon.type c) Coupon.business_ &&
                   Coupon.isActive c)
         (coupons s)) ;;
  limitReached <-
    match couponTemplate with
    | Some template =>
        match Coupon.redemptionLimit template with
        | Some limit =>
            redeemedCount <- gets (fun s =>
              countDocuments
                (fun c => (Coupon.business c =? businessId) &&
                          Coupon.type_is (Coupon.type c) Coupon.review_reward &&
                          Coupon.status_is (Coupon.status c) Coupon.redeemed)
                (coupons s)) ;;
            ret (Z.of_nat redeemedCount >=? limit)%Z
        | None => ret false
        end
    | None => ret false
    end ;;
  if limitReached then respond (ReviewPostedLimitReached review)
  else
    id <- fresh ;;
    let coupon := newCoupon id review couponTemplate in
    taken <- gets (fun s => codeTaken couponCode (coupons s)) ;;
    if negb (couponValidates coupon)
    then respond (Failed CouponValidationError)
    else if taken then respond (Failed CouponDuplicateKeyError)
    else
    let qrCodeData :=
      Coupon.mkQr "coupon" id couponCode businessId user (Review._id review) in
    let coupon := Coupon.set_qrCodeData qrCodeData coupon in
    modify (set_coupons (fun cs => cs ++ [coupon])) ;;;
    match couponTemplate with
    | Some template =>
        modify (set_coupons
                  (updateById Coupon._id (Coupon._id template)
                              Coupon.inc_usageCount))
    | None => ret tt
    end ;;;
    let review := Review.set_coupon id review in
    modify (set_reviews
              (updateById Review._id (Review._id review)
                          (Review.set_coupon id))) ;;;
    modify (set_pushed (fun ps =>
              ps ++ [mkNotification user "Coupon Earned! 🎉";
                     mkNotification (Business.owner business) "New Review"])) ;;;
    ret (ReviewPosted review coupon).

(** Everything that is checked before the security validation. *)
Definition guardChecks : Handler Response (Business.t * float) :=
  business <- loadBusiness ;;
  rateLimitCheck ;;;
  duplicateCheck ;;;
  actualDistance <- geofenceCheck business ;;
  ret (business, actualDistance).

(** Lines 299-461: the review is created, the rating recomputed and the
    reward issued. *)
Definition acceptReview (business : Business.t) (actualDistance : float)
  : Handler Response Response :=
  review <- persistReview business actualDistance ;;
  updateBusinessRating ;;;
  rewardReview business review.

Definition createReviewHandler : Handler Response Response :=
  checked <- guardChecks ;;
  let business := fst checked in
  let actualDistance := snd checked in
  securityValidation ;;;
  acceptReview business actualDistance.

Definition createReview (s : State) : State * Response :=
  run createReviewHandler s.
End CreateReview.
End ReviewController.

(** ** 4.5 Coupon redemption and expiry *)

Module CouponLifecycle.
Local Open Scope handler_scope.
Local Open Scope nat_scope.

Inductive Role : Type := role_customer | role_business | role_admin.

(** [req.user.role === 'admin'] *)
Definition is_admin (r : Role) : bool :=
  match r with role_admin => true | _ => false end.

(** [req.user] *)
Record Requester : Type := mkRequester {
  id   : ObjectId;
  role : Role
}.

(** [req.body.qrCodeData] after [JSON.parse]. *)
Inductive QrInput : Type :=
| QrMissing
| QrMalformed
| QrParsed (type : string) (couponId : option ObjectId).

Inductive ScanResponse : Type :=
| QrRequired                              (* 400 *)
| QrInvalidFormat                         (* 400 *)
| QrInvalidCoupon                         (* 400 *)
| ScanCouponNotFound                      (* 404 *)
| ScanNotAuthorized                       (* 403 *)
| AlreadyRedeemed (coupon : Coupon.t)     (* 400 *)
| CouponExpired (coupon : Coupon.t)       (* 400 *)
| CouponNotValid (coupon : Coupon.t)      (* 400 *)
| ScanRedeemed (coupon : Coupon.t)        (* 200 *)
| ScanError.                              (* next(error) *)

(** The clock readings of [scanAndRedeemCoupon], in program order. *)
Record ScanClock : Type := mkScanClock {
  at_expiryCheck : Z;                     (* new Date() > coupon.validUntil *)
  at_isValid     : Z;                     (* inside coupon.isValid() *)
  at_redeemedAt  : Z                      (* coupon.redeemedAt = new Date() *)
}.

Definition findCoupon {R : Type} (couponId : ObjectId)
  : Handler R (option Coupon.t) :=
  gets (fun s => find (fun c => Coupon._id c =? couponId) (coupons s)).

Definition findBusiness {R : Type} (businessId : ObjectId)
  : Handler R (option Business.t) :=
  gets (fun s => find (fun b => Business._id b =? businessId) (businesses s)).

(** [coupon.save()] after the in-memory document was changed by [f]. *)
Definition saveCoupon {R : Type} (coupon : Coupon.t)
    (f : Coupon.t -> Coupon.t) : Handler R unit :=
  modify (set_coupons (updateById Coupon._id (Coupon._id coupon) f)).

(** [scanAndRedeemCoupon] of [businessCoupon.controller.js]. *)
Definition scanAndRedeemHandler (clock : ScanClock) (requester : Requester)
    (qrCodeData : QrInput) : Handler ScanResponse ScanResponse :=
  match qrCodeData with
  | QrMissing => respond QrRequired
  | QrMalformed => respond QrInvalidFormat
  | QrParsed type None => respond QrInvalidCoupon
  | QrParsed type (Some couponId) =>
    if negb (String.eqb type "coupon") then respond QrInvalidCoupon else
    coupon <- findCoupon couponId ;;
    match coupon with
    | None => respond ScanCouponNotFound
    | Some coupon =>
      business <- findBusiness (Coupon.business coupon) ;;
      match business with
      | None => respond ScanError          (* coupon.business is null *)
      | Some business =>
        (* Check authorization *)
        if negb (Business.owner business =? id requester) &&
           negb (is_admin (role requester))
        then respond ScanNotAuthorized
        (* Check if coupon is already redeemed *)
        else if Coupon.status_is (Coupon.status coupon) Coupon.redeemed
        then respond (AlreadyRedeemed coupon)
        (* Check if coupon is expired *)
        else if Coupon.status_is (Coupon.status coupon) Coupon.expired ||
                match Coupon.validUntil coupon with
                | date until => (at_expiryCheck clock >? until)%Z
                | _ => false
                end
        then
          if negb (Coupon.status_is (Coupon.status coupon) Coupon.expired)
          then
            saveCoupon coupon (Coupon.set_status Coupon.expired) ;;;
            respond (CouponExpired (Coupon.set_status Coupon.expired coupon))
          else respond (CouponExpired coupon)
        (* Check if coupon is valid *)
        else if negb (Coupon.isValid coupon (at_isValid clock))
        then respond (CouponNotValid coupon)
        else
          (* Redeem the coupon *)
          let redeem :=
            Coupon.set_redeemed (at_redeemedAt clock) (id requester) in
          saveCoupon coupon redeem ;;;
          (* Update template redemption count *)
          (if Coupon.type_is (Coupon.type coupon) Coupon.review_reward then
             couponTemplate <- gets (fun s =>
               find (fun c => (Coupon.business c =? Business._id business) &&
                              Coupon.type_is (Coupon.type c) Coupon.business_ &&
                              Coupon.isActive c)
                    (coupons s)) ;;
             match couponTemplate with
             | Some template =>
                 modify (set_coupons
                           (updateById Coupon._id (Coupon._id template)
                                       Coupon.inc_redemptionCount))
             | None => ret tt
             end
           else ret tt) ;;;
          (* Send notification to user *)
          match Coupon.user coupon with
          | Some couponUser =>
              modify (set_pushed (fun ps =>
                ps ++ [mkNotification couponUser "Coupon Redeemed! ✅"]))
          | None => ret tt
          end ;;;
          ret (ScanRedeemed (redeem coupon))
      end
    end
  end.

Definition scanAndRedeemCoupon (clock : ScanClock) (requester : Requester)
    (qrCodeData : QrInput) (s : State) : State * ScanResponse :=
  run (scanAndRedeemHandler clock requester qrCodeData) s.

(** [redeemCoupon] of the coupon controller
    ([POST /api/coupons/:id/redeem]). *)
Inductive RedeemResponse : Type :=
| RedeemCouponNotFound                    (* 404 *)
| RedeemNotAuthorized                     (* 403 *)
| ExpiredOrAlreadyRedeemed                (* 400 *)
| RedeemRedeemed (coupon : Coupon.t)      (* 200 *)
| RedeemError.                            (* next(error) *)

Record RedeemClock : Type := mkRedeemClock {
  at_isCouponValid : Z;                   (* inside isCouponValid *)
  at_redeemed      : Z                    (* coupon.redeemedAt = new Date() *)
}.

Definition redeemHandler (clock : RedeemClock) (requester : Requester)
    (couponId : ObjectId) : Handler RedeemResponse RedeemResponse :=
  coupon <- findCoupon couponId ;;
  match coupon with
  | None => respond RedeemCouponNotFound
  | Some coupon =>
    business <- findBusiness (Coupon.business coupon) ;;
    match business with
    | None => respond RedeemError
    | Some business =>
      (* Check business ownership *)
      if negb (Business.owner business =? id requester) &&
         negb (is_admin (role requester))
      then respond RedeemNotAuthorized
      (* Validate coupon *)
      else if negb (CouponUtils.isCouponValid coupon (at_isCouponValid clock))
      then respond ExpiredOrAlreadyRedeemed
      else
        (* Redeem coupon *)
        let redeem := Coupon.set_redeemed (at_redeemed clock) (id requester) in
        saveCoupon coupon redeem ;;;
        ret (RedeemRedeemed (redeem coupon))
    end
  end.

Definition redeemCoupon (clock : RedeemClock) (requester : Requester)
    (couponId : ObjectId) (s : State) : State * RedeemResponse :=
  run (redeemHandler clock requester couponId) s.

(** [expireCoupons], the sweep scheduled every five minutes. *)
Definition expiredQuery (now : Z) (c : Coupon.t) : bool :=
  Coupon.type_is (Coupon.type c) Coupon.review_reward &&
  Coupon.status_is (Coupon.status c) Coupon.active &&
  match Coupon.validUntil c with
  | date until => (until <? now)%Z
  | _ => false
  end.

Definition expireCoupons (now : Z) (s : State) : State :=
  let expiredCoupons := filter (expiredQuery now) (coupons s) in
  if List.length expiredCoupons =? 0 then s
  else
    set_coupons
      (map (fun c => if expiredQuery now c
                     then Coupon.set_status Coupon.expired c else c))
      s.

(** [updateCoupon] of [businessCoupon.controller.js]
    ([PUT /api/business-coupons/:id]): the body is written into the
    coupon as it comes. *)

(** The members of [req.body] that are fields of the coupon record or
    carry a validator of the schema; [None] is a member the body does
    not have, [Some None] a member that is [null]. *)
Record UpdateBody : Type := mkUpdateBody {
  upd_code : option string;
  upd_title : option string;
  upd_description : option string;
  upd_rewardType : option Coupon.RewardType;
  upd_rewardValue : option Q;
  upd_itemName : option string;
  upd_minPurchaseAmount : option Q;
  upd_maxDiscountAmount : option (option Q);
  upd_validFrom : option (option Z);
  upd_validUntil : option (option Z);
  upd_usageLimit : option (option Z);
  upd_redemptionLimit : option (option Z);
  upd_status : option Coupon.Status;
  upd_isActive : option bool;
  upd_redeemedAt : option (option Z);
  upd_redeemedBy : option (option ObjectId);
  upd_terms : option string
}.

Inductive UpdateCouponResponse : Type :=
| UpdateCouponNotFound                    (* 404 *)
| UpdateCouponNotAuthorized               (* 403 *)
| UpdateCodeAlreadyExists                 (* 400 *)
| CouponUpdated (coupon : Coupon.t)       (* 200 *)
| UpdateCouponError.                      (* next(error) *)

(** The member of the body if it has one, the stored value otherwise. *)
Definition orKeep {A : Type} (v : option A) (stored : A) : A :=
  match v with
  | Some x => x
  | None => stored
  end.

(** The [maxlength] validator of a text member. *)
Definition withinLength (limit : nat) (v : option string) : bool :=
  match v with
  | Some x => String.length x <=? limit
  | None => true
  end.

Section WithCase.
(** [String.prototype.toUpperCase] *)
Variable toUpperCase : string -> string.

(** The document after [findByIdAndUpdate(id, req.body)]; the schema's
    [uppercase] setter runs on the code. *)
Definition applyUpdate (body : UpdateBody) (c : Coupon.t) : Coupon.t :=
  Coupon.mk (Coupon._id c) (Coupon.business c) (Coupon.type c) (Coupon.user c)
    (Coupon.review c)
    (orKeep (option_map toUpperCase (upd_code body)) (Coupon.code c))
    (orKeep (upd_description body) (Coupon.description c))
    (orKeep (upd_rewardType body) (Coupon.rewardType c))
    (orKeep (upd_rewardValue body) (Coupon.rewardValue c))
    (orKeep (upd_minPurchaseAmount body) (Coupon.minPurchaseAmount c))
    (orKeep (upd_maxDiscountAmount body) (Coupon.maxDiscountAmount c))
    (orKeep (upd_validFrom body) (Coupon.validFrom c))
    (match upd_validUntil body with
     | Some (Some until) => date until
     | Some None => null
     | None => Coupon.validUntil c
     end)
    (orKeep (upd_usageLimit body) (Coupon.usageLimit c))
    (Coupon.usageCount c)
    (orKeep (upd_redemptionLimit body) (Coupon.redemptionLimit c))
    (Coupon.redemptionCount c)
    (orKeep (upd_status body) (Coupon.status c))
    (orKeep (upd_isActive body) (Coupon.isActive c))
    (orKeep (upd_redeemedAt body) (Coupon.redeemedAt c))
    (orKeep (upd_redeemedBy body) (Coupon.redeemedBy c))
    (Coupon.qrCodeData c).

(** [runValidators: true]: [code] is required, the text members have a
    [maxlength]. *)
Definition updateValidates (body : UpdateBody) : bool :=
  match upd_code body with
  | Some code => negb (String.eqb (toUpperCase code) "")
  | None => true
  end &&
  withinLength 100 (upd_title body) &&
  withinLength 500 (upd_description body) &&
  withinLength 100 (upd_itemName body) &&
  withinLength 1000 (upd_terms body).

Definition updateCouponHandler (requester : Requester) (couponId : ObjectId)
    (body : UpdateBody) : Handler UpdateCouponResponse UpdateCouponResponse :=
  coupon <- findCoupon couponId ;;
  match coupon with
  | None => respond UpdateCouponNotFound
  | Some coupon =>
    business <- findBusiness (Coupon.business coupon) ;;
    match business with
    | None => respond UpdateCouponError   (* coupon.business is null *)
    | Some business =>
      (* Check authorization *)
      if negb (Business.owner business =? id requester) &&
         negb (is_admin (role requester))
      then respond UpdateCouponNotAuthorized
      else
        (* If updating code, check if new code already exists *)
        existingCoupon <- gets (fun s =>
          match upd_code body with
          | Some code =>
              if negb (String.eqb code "") &&
                 negb (String.eqb (toUpperCase code) (Coupon.code coupon))
              then find (fun c => String.eqb (Coupon.code c) (toUpperCase code) &&
                                  negb (Coupon._id c =? Coupon._id coupon))
                        (coupons s)
              else None
          | None => None
          end) ;;
        match existingCoupon with
        | Some _ => respond UpdateCodeAlreadyExists
        | None =>
          if negb (updateValidates body)
          then respond UpdateCouponError  (* ValidationError *)
          else
            modify (set_coupons
                      (updateById Coupon._id couponId (applyUpdate body))) ;;;
            ret (CouponUpdated (applyUpdate body coupon))
        end
    end
  end.

Definition updateCoupon (requester : Requester) (couponId : ObjectId)
    (body : UpdateBody) (s : State) : State * UpdateCouponResponse :=
  run (updateCouponHandler requester couponId body) s.

(** One call of a lifecycle operation, with its arguments. *)
Inductive Operation : Type :=
| Scan (clock : ScanClock) (requester : Requester) (qrCodeData : QrInput)
| Redeem (clock : RedeemClock) (requester : Requester) (couponId : ObjectId)
| Sweep (now : Z)
| Update (requester : Requester) (couponId : ObjectId) (body : UpdateBody).

Definition step (op : Operation) (s : State) : State :=
  match op with
  | Scan clock requester qr => fst (scanAndRedeemCoupon clock requester qr s)
  | Redeem clock requester couponId =>
      fst (redeemCoupon clock requester couponId s)
  | Sweep now => expireCoupons now s
  | Update requester couponId body =>
      fst (updateCoupon requester couponId body s)
  end.

(** The store after running the operations in order. *)
Definition runAll (ops : list Operation) (s : State) : State :=
  fold_left (fun s op => step op s) ops s.
End WithCase.
End CouponLifecycle.

(** ** 4.6 Moderation: [updateReviewStatus] of the admin controller *)

Definition updateReviewStatus (reviewId : ObjectId) (status : Review.Status)
    (s : State) : State :=
  set_reviews (updateById Review._id reviewId (Review.set_status status)) s.

(* ================================================================== *)
(** * 5. The specification's statements, as definitions                *)
(* ================================================================== *)

Module Spec.
Import ReviewController.
Local Open Scope handler_scope.

(** Recording a batch of entries, in order, through the recorder. *)
Definition record (entries : list LogEntry) (s : State) : State :=
  set_log (fun log => fold_left (fun l e => pushEntry e l) entries log) s.

(** ** Fraud rules in the order the specification lists them
    (1 accuracy, 2 mock location, 3/4 anomalies, 5 location history,
    6 same-device count). *)
Definition securityValidation_listedOrder (tz : JsDate.TimeZone)
    (clock : Clock) (req : Request.t) : Handler Response unit :=
  gpsAccuracyCheck req ;;;
  mockLocationCheck req ;;;
  suspiciousActivitiesCheck req ;;;
  locationHistoryCheck req ;;;
  deviceFingerprintCheck tz clock req.

(** ** The entries each advisory check contributes *)
Section Entries.
Variable tz : JsDate.TimeZone.
Variable clock : Clock.
Variable req : Request.t.
Variable s : State.

Let user := Request.user_id req.
Let businessId := Request.business req.

Definition verificationTimeEntries : list LogEntry :=
  match Request.verificationTime req with
  | Some v => if Qeq_bool v 30 then []
              else [mkEntry user VERIFICATION_TIME_MISMATCH
                            (VerificationTimeMeta businessId v)]
  | None => []
  end.

Definition locationHistoryEntries : list LogEntry :=
  match Request.locationHistoryCount req with
  | Some n => if Qltb n 5
              then [mkEntry user INSUFFICIENT_LOCATION_HISTORY
                            (LocationHistoryMeta businessId n)]
              else []
  | None => []
  end.

Definition anomalies : list Request.Activity :=
  match Request.suspiciousActivities req with
  | Some l => l
  | None => []
  end.

Definition anomalyEntries : list LogEntry :=
  map (fun a => mkEntry user (FRONTEND_ (Request.activity_type a))
                        (FrontendMeta businessId (Request.activity_timestamp a)))
      anomalies.

(** Reviews of the actor from the same device since the day began. *)
Definition sameDeviceToday (d : Review.DeviceFingerprint) : nat :=
  countDocuments
    (fun r =>
       (Review.user r =? user)%nat &&
       match Review.deviceFingerprint (Review.securityMetadata r) with
       | Some d' => String.eqb (Review.deviceId d') (Review.deviceId d)
       | None => false
       end &&
       (Review.createdAt r >=? today tz clock)%Z)
    (reviews s).

Definition deviceEntries : list LogEntry :=
  match Request.deviceFingerprint req with
  | Some d => if (3 <=? sameDeviceToday d)%nat
              then [mkEntry user MULTIPLE_DEVICE_REVIEWS
                            (DeviceMeta businessId (Review.deviceId d)
                                        (sameDeviceToday d))]
              else []
  | None => []
  end.

(** The three hard signals. *)
Definition poorAccuracy : option Q :=
  match Request.locationAccuracy req with
  | Some a => if Qgtb a 50 then Some a else None
  | None => None
  end.
Definition mockLocation : bool :=
  match Request.isMockLocation req with Some true => true | _ => false end.
Definition manyAnomalies : bool := (3 <=? List.length anomalies)%nat.
End Entries.

(** ** The great-circle distance as the specification words it: the
    haversine formula on a sphere of radius 6,371,000 m,
      a = sin^2(dphi/2) + cos phi1 cos phi2 sin^2(dlambda/2),
      d = R 2 atan2(sqrt a, sqrt (1 - a)),
    with the angles in radians and the operations those of binary64,
    taken from left to right. *)
Section Distance.
Import JsMath.
Local Open Scope float_scope.
Variable M : MathEngine.

Definition earthRadius : float := 6371000.
Definition radians (degrees : float) : float := degrees * Math_PI / 180.
Definition sinHalf (angle : float) : float := Math_sin M (angle / 2).

Definition distanceMeters (lat1 lon1 lat2 lon2 : float) : float :=
  let a :=
    sinHalf (radians (lat2 - lat1)) * sinHalf (radians (lat2 - lat1)) +
    Math_cos M (radians lat1) * Math_cos M (radians lat2) *
    sinHalf (radians (lon2 - lon1)) * sinHalf (radians (lon2 - lon1)) in
  earthRadius * (2 * Math_atan2 M (sqrt a) (sqrt (1 - a))).
End Distance.

(** ** The host zones in which every calendar day begins at its local
    midnight: the instant [UTC tz (d * msPerDay)] is the first one whose
    local day is [d] or later. *)
Definition DaysStartAtMidnight (tz : JsDate.TimeZone) : Prop :=
  forall d t : Z,
    (JsDate.UTC tz (d * JsDate.msPerDay) <= t <->
     d <= JsDate.Day (JsDate.LocalTime tz t))%Z.

(** ** Rating aggregate: the arithmetic mean, the sum taken in list
    order and divided by the number of terms, in binary64. *)
Definition mean (xs : list float) : float :=
  (fold_left PrimFloat.add xs 0 / ofNat (List.length xs))%float.

Definition ratingsOfBusiness (keep : Review.t -> bool)
    (businessId : ObjectId) (rs : list Review.t) : list float :=
  map Review.rating
      (filter (fun r => (Review.business r =? businessId)%nat && keep r) rs).

Definition isApproved (r : Review.t) : bool :=
  Review.status_is (Review.status r) Review.approved.

(** ** Submissions that reach the security validation, and those
    that pass it *)
Section Submission.
Variable M : JsMath.MathEngine.
Variable tz : JsDate.TimeZone.
Variable clock : Clock.
Variable req : Request.t.
Variable s : State.

Definition reviewsToday : nat :=
  countDocuments
    (fun r => (Review.user r =? Request.user_id req)%nat &&
              (Review.createdAt r >=? today tz clock)%Z)
    (reviews s).

Definition reviewedToday (r : Review.t) : bool :=
  (Review.user r =? Request.user_id req)%nat &&
  (Review.business r =? Request.business req)%nat &&
  (Review.createdAt r >=? today tz clock)%Z.

Definition distanceTo (b : Business.t) : float :=
  Geolocation.calculateDistance M
    (Request.latitude req) (Request.longitude req)
    (Business.latitude b) (Business.longitude b).

(** The business is active, the actor is under the daily limit, has
    no review of the business today, and stands inside the geofence. *)
Definition PassesGuards (b : Business.t) : Prop :=
  find (fun b => (Business._id b =? Request.business req)%nat)
       (businesses s) = Some b /\
  Business.status b = Business.active /\
  (reviewsToday < 5)%nat /\
  find reviewedToday (reviews s) = None /\
  Geolocation.isWithinGeofence M
    (Request.latitude req) (Request.longitude req)
    (Business.latitude b) (Business.longitude b) (Business.radius b)
  = true.

(** ... and none of the three hard signals is raised. *)
Definition Accepted (b : Business.t) : Prop :=
  PassesGuards b /\
  poorAccuracy req = None /\
  mockLocation req = false /\
  manyAnomalies req = false.

(** The five metadata fields the specification lists are absent. *)
Definition listedMetadataAbsent : Prop :=
  Request.locationAccuracy req = None /\
  Request.isMockLocation req = None /\
  Request.locationHistoryCount req = None /\
  Request.suspiciousActivities req = None /\
  Request.deviceFingerprint req = None.

(** None of the metadata the security validation consults is present:
    the five listed fields and the verification time. *)
Definition noSecurityMetadata : Prop :=
  listedMetadataAbsent /\ Request.verificationTime req = None.

(** Everything the security validation records for the request. *)
Definition advisoryEntries : list LogEntry :=
  verificationTimeEntries req ++ locationHistoryEntries req ++
  anomalyEntries req ++ deviceEntries tz clock req s.

(** The business's active coupon template and the redemption limit. *)
Definition templateOf : option Coupon.t :=
  find (fun c => (Coupon.business c =? Request.business req)%nat &&
                 Coupon.type_is (Coupon.type c) Coupon.business_ &&
                 Coupon.isActive c)
       (coupons s).

Definition redeemedRewards : nat :=
  countDocuments
    (fun c => (Coupon.business c =? Request.business req)%nat &&
              Coupon.type_is (Coupon.type c) Coupon.review_reward &&
              Coupon.status_is (Coupon.status c) Coupon.redeemed)
    (coupons s).

Definition limitReached : bool :=
  match templateOf with
  | Some template =>
      match Coupon.redemptionLimit template with
      | Some limit => (Z.of_nat redeemedRewards >=? limit)%Z
      | None => false
      end
  | None => false
  end.

(** ** What the collections take *)

(** [Review.create] stores the review: the schema's validators pass and
    the point is one the geo index takes. *)
Definition Persists : Prop :=
  Review.validRating (Request.rating req) = true /\
  Review.validComment (Request.comment req) = true /\
  Review.validEmotion (storedEmotion req) = true /\
  Review.validPoint (Request.longitude req, Request.latitude req) = true.

(** The ratings of the business once the review is stored, and
    [business.save()] storing their mean: it is within the schema's
    bounds. *)
Definition ratingsWithReview : list float :=
  ratingsOfBusiness (fun _ => true) (Request.business req) (reviews s) ++
  [Request.rating req].

Definition Aggregates : Prop :=
  Business.validAverage (mean ratingsWithReview) = true.

(** The description a reward takes from the template, and
    [Coupon.create] storing a coupon with the code [couponCode]: the
    code is not empty, the description is within its length, and no
    stored coupon has the code. *)
Definition rewardDescription : string :=
  orElseString (option_map Coupon.description templateOf)
    "Thank you for your review! Enjoy your reward. Valid for 2 hours.".

Definition Mints (couponCode : string) : Prop :=
  couponCode <> EmptyString /\
  (String.length rewardDescription <= 500)%nat /\
  (forall c, In c (coupons s) -> Coupon.code c <> couponCode).
End Submission.

(** The responses sent once the review is stored: the two 201 ones and
    the errors of the steps after [Review.create]. *)
Definition stored (r : Response) : bool :=
  match r with
  | ReviewPostedLimitReached _ | ReviewPosted _ _
  | Failed BusinessValidationError
  | Failed CouponValidationError | Failed CouponDuplicateKeyError => true
  | _ => false
  end.

(** The responses sent once the business is saved with its new rating. *)
Definition aggregated (r : Response) : bool :=
  match r with
  | ReviewPostedLimitReached _ | ReviewPosted _ _
  | Failed CouponValidationError | Failed CouponDuplicateKeyError => true
  | _ => false
  end.

(** The review a 201 response carries. *)
Definition posted (r : Response) : option Review.t :=
  match r with
  | ReviewPostedLimitReached review => Some review
  | ReviewPosted review _ => Some review
  | _ => None
  end.

(** The coupon a 201 response carries. *)
Definition minted (r : Response) : option Coupon.t :=
  match r with
  | ReviewPosted _ coupon => Some coupon
  | _ => None
  end.

(** [a] leaves [b] when [a] is active and [b] is not. *)
Definition leaves (a b : option Coupon.Status) : nat :=
  match a, b with
  | Some Coupon.active, Some Coupon.active => 0
  | Some Coupon.active, _ => 1
  | _, _ => 0
  end.

(** A stored review that records the request: same actor, business,
    rating and comment, verified and approved. *)
Definition persistedFor (req : Request.t) (r : Review.t) : Prop :=
  Review.user r = Request.user_id req /\
  Review.business r = Request.business req /\
  Review.rating r = Request.rating req /\
  Review.comment r = Request.comment req /\
  Review.verified r = true /\
  Review.status r = Review.approved.

(** The values a minted coupon takes from a template: a zero or missing
    value gives way to the default. *)
Definition rewardValueFrom (template : Coupon.t) : Q :=
  if truthyQ (Coupon.rewardValue template)
  then Coupon.rewardValue template else 10.

Definition maxDiscountFrom (template : Coupon.t) : option Q :=
  match Coupon.maxDiscountAmount template with
  | Some cap => if truthyQ cap then Some cap else None
  | None => None
  end.

(** ** [isValid] as the specification words it: active, inside the
    validity window, usage limit not reached for business coupons, and
    not already redeemed.  "Active" is read either as the activation
    flag (with status not [inactive]) or as status [active]. *)
Section IsValid.
Import Coupon.
Variable c : Coupon.t.
Variable now : Z.

Definition activeByFlag : bool :=
  isActive c && negb (status_is (status c) inactive).
Definition activeByStatus : bool := status_is (status c) active.

Definition withinWindow : bool :=
  match validFrom c with Some from => (from <=? now)%Z | None => true end &&
  match validUntil c with date until => (now <=? until)%Z | _ => true end.

Definition usageLimitReached : bool :=
  match usageLimit c with
  | Some limit => truthyZ limit && (limit <=? usageCount c)%Z
  | None => false
  end.

Definition isValid_asWorded (active : bool) : bool :=
  active && withinWindow &&
  (negb (type_is (type c) business_) || negb usageLimitReached) &&
  negb (status_is (status c) redeemed).
End IsValid.

(** ** The calendar day a review belongs to, and the key of the
    one-review-per-day invariant. *)
Definition reviewDay (tz : JsDate.TimeZone) (r : Review.t) : Z :=
  JsDate.Day (JsDate.LocalTime tz (Review.createdAt r)).

Definition dayKey (tz : JsDate.TimeZone) (r : Review.t)
  : ObjectId * ObjectId * Z :=
  (Review.user r, Review.business r, reviewDay tz r).

Definition OneReviewPerDay (tz : JsDate.TimeZone) (rs : list Review.t) : Prop :=
  NoDup (map (dayKey tz) rs).

(** ** Coupon status histories *)
Definition statusAt (i : nat) (s : State) : option Coupon.Status :=
  option_map Coupon.status (nth_error (coupons s) i).

(** The statuses coupon [i] goes through while [ops] run from [s]. *)
Fixpoint statusHistory (toUpperCase : string -> string) (i : nat)
    (ops : list CouponLifecycle.Operation) (s : State)
  : list (option Coupon.Status) :=
  match ops with
  | [] => [statusAt i s]
  | op :: ops' =>
      statusAt i s ::
      statusHistory toUpperCase i ops' (CouponLifecycle.step toUpperCase op s)
  end.

(** The operations that leave it to redemption and expiry to move a
    coupon: scans, redemptions, sweeps, and the edits whose body has no
    [status], [redeemedAt] or [redeemedBy]. *)
Definition keepsRedemption (op : CouponLifecycle.Operation) : Prop :=
  match op with
  | CouponLifecycle.Update _ _ body =>
      CouponLifecycle.upd_status body = None /\
      CouponLifecycle.upd_redeemedAt body = None /\
      CouponLifecycle.upd_redeemedBy body = None
  | _ => True
  end.

(** How many times a history steps from [active] to something else. *)
Fixpoint leavesActive (h : list (option Coupon.Status)) : nat :=
  match h with
  | Some Coupon.active :: ((next :: _) as rest) =>
      match next with
      | Some Coupon.active => leavesActive rest
      | _ => S (leavesActive rest)
      end
  | _ :: rest => leavesActive rest
  | [] => 0
  end.

(** ** Coupon lifecycle *)

(** What may happen to a coupon document over time: a redeemed or
    expired coupon keeps its status and its redemption record, no
    coupon becomes active, and an active coupon stays active or becomes
    redeemed or expired. *)
Definition sameRedemption (c c' : Coupon.t) : Prop :=
  Coupon.status c' = Coupon.status c /\
  Coupon.redeemedAt c' = Coupon.redeemedAt c /\
  Coupon.redeemedBy c' = Coupon.redeemedBy c.

Definition Evolves (c c' : Coupon.t) : Prop :=
  (Coupon.status c = Coupon.redeemed -> sameRedemption c c') /\
  (Coupon.status c = Coupon.expired -> sameRedemption c c') /\
  (Coupon.status c' = Coupon.active -> Coupon.status c = Coupon.active) /\
  (Coupon.status c = Coupon.active ->
   Coupon.status c' = Coupon.active \/
   Coupon.status c' = Coupon.redeemed \/
   Coupon.status c' = Coupon.expired).

Definition CouponsEvolve (s s' : State) : Prop :=
  Forall2 Evolves (coupons s) (coupons s').

(** What the sweep may do to a coupon. *)
Definition Swept (now : Z) (c c' : Coupon.t) : Prop :=
  c' = c \/
  (Coupon.type c = Coupon.review_reward /\
   Coupon.status c = Coupon.active /\
   (exists until, Coupon.validUntil c = date until /\ (until < now)%Z) /\
   c' = Coupon.set_status Coupon.expired c).

(** The requester may redeem coupons of the business. *)
Definition authorized (requester : CouponLifecycle.Requester)
    (b : Business.t) : Prop :=
  Business.owner b = CouponLifecycle.id requester \/
  CouponLifecycle.role requester = CouponLifecycle.role_admin.

Definition couponById (couponId : ObjectId) (s : State) : option Coupon.t :=
  find (fun c => (Coupon._id c =? couponId)%nat) (coupons s).
Definition businessById (businessId : ObjectId) (s : State)
  : option Business.t :=
  find (fun b => (Business._id b =? businessId)%nat) (businesses s).
End Spec.

(* ================================================================== *)
(** * 6. Concrete stores and requests                                  *)
(* ================================================================== *)

Module Examples.
Import JsDate JsMath ReviewController.
Local Open Scope string_scope.

(** A business at (40.7128, -74.0060) with the default 50 m radius. *)
Definition cafe : Business.t :=
  Business.mk 1%nat 100%nat Business.active (-74.0060)%float 40.7128%float 50%float
              0%float 0%nat 0%nat.

Definition emptyStore : State := mkState [] [cafe] [] [] [] 1000%nat.

(** A five-star review sent from the business's own coordinates,
    without any security metadata. *)
Definition bareVisit (user : ObjectId) (rating : float) : Request.t :=
  Request.mk user 1%nat rating "Great coffee and friendly staff" None
             40.7128%float (-74.0060)%float
             None None None None None None None None.

(** The same visit with clean security metadata. *)
Definition cleanVisit (user : ObjectId) (rating : float) : Request.t :=
  Request.mk user 1%nat rating "Great coffee and friendly staff" None
             40.7128%float (-74.0060)%float
             (Some 10%Q) (Some 30%Q) (Some true) (Some false) (Some 10%Q)
             (Some []) (Some (Review.mkDevice "device-1")) (Some "ios"%string).

(** The bare visit with the emotion "sad", which the route's validation
    admits and the model's [enum] does not have. *)
Definition sadVisit : Request.t :=
  Request.mk 7%nat 1%nat 5%float "Great coffee and friendly staff"
             (Some "sad")
             40.7128%float (-74.0060)%float
             None None None None None None None None.

(** A handler that reads the clock at one instant throughout. *)
Definition instant (t : Z) : Clock := mkClock t t t t.

(** 2 November 2026, 12:00:00 UTC, and the same time the next day. *)
Definition noon : Z := 1793620800000.
Definition nextNoon : Z := (noon + msPerDay)%Z.

(** A percentage coupon worth 10 % with the discount capped at 5. *)
Definition tenPercentCapFive : Coupon.t :=
  Coupon.mk 2001%nat 1%nat Coupon.review_reward (Some 7%nat) (Some 1000%nat)
    "HASH-ABC123" "" Coupon.percentage 10 0 (Some 5)
    (Some noon) (date (noon + 2 * msPerHour)%Z)
    None 0%Z None 0%Z Coupon.active true None None None.

(** A coupon the owner of the cafe created by hand ([type: 'business']),
    and the same coupon after the owner scanned and redeemed it. *)
Definition houseCoupon : Coupon.t :=
  Coupon.mk 500%nat 1%nat Coupon.business_ None None
    "WELCOME10" "Welcome offer" Coupon.percentage 10 0 None
    (Some 0%Z) null None 0%Z None 0%Z Coupon.active true None None None.

Definition houseCouponRedeemed : Coupon.t :=
  Coupon.set_redeemed noon 100%nat houseCoupon.

(** The owner's coupon with status [cancelled], its flag still set. *)
Definition houseCouponCancelled : Coupon.t :=
  Coupon.set_status Coupon.cancelled houseCoupon.

(** The owner of the cafe, and stores holding the owner's coupon before
    and after its redemption. *)
Definition cafeOwner : CouponLifecycle.Requester :=
  CouponLifecycle.mkRequester 100%nat CouponLifecycle.role_business.

Definition storeWithHouseCoupon : State :=
  mkState [] [cafe] [houseCoupon] [] [] 1000%nat.
Definition storeWithRedeemedCoupon : State :=
  mkState [] [cafe] [houseCouponRedeemed] [] [] 1000%nat.

(** Bodies of [PUT /api/business-coupons/:id]: a new description, and
    the status set to active. *)
Definition newDescription : CouponLifecycle.UpdateBody :=
  CouponLifecycle.mkUpdateBody None None (Some "Ten percent off, all week")
    None None None None None None None None None None None None None None.

Definition backToActive : CouponLifecycle.UpdateBody :=
  CouponLifecycle.mkUpdateBody None None None None None None None None None
    None None None (Some Coupon.active) None None None None.

(** The owner scans the house coupon at [noon], edits it, and scans it
    again the next day; and the sweep runs. *)
Definition scanHouseCoupon (t : Z) : CouponLifecycle.Operation :=
  CouponLifecycle.Scan (CouponLifecycle.mkScanClock t t t) cafeOwner
    (CouponLifecycle.QrParsed "coupon" (Some 500%nat)).

Definition editThenScan : list CouponLifecycle.Operation :=
  [CouponLifecycle.Update cafeOwner 500%nat newDescription;
   scanHouseCoupon noon;
   CouponLifecycle.Sweep nextNoon;
   scanHouseCoupon nextNoon].

Definition scanReactivateScan : list CouponLifecycle.Operation :=
  [scanHouseCoupon noon;
   CouponLifecycle.Update cafeOwner 500%nat backToActive;
   scanHouseCoupon nextNoon].

(** A review-reward coupon whose two hours ended at [noon]. *)
Definition staleReward : Coupon.t :=
  Coupon.mk 2002%nat 1%nat Coupon.review_reward (Some 7%nat) (Some 1000%nat)
    "HASH-XYZ789" "" Coupon.percentage 10 0 None
    (Some (noon - 2 * msPerHour)%Z) (date noon)
    None 0%Z None 0%Z Coupon.active true None None None.
Definition storeWithStaleReward : State :=
  mkState [] [cafe] [staleReward] [] [] 1000%nat.

(** A visit with a short location history and three anomalies reported
    by the client. *)
Definition anomaly (kind : string) : Request.Activity :=
  Request.mkActivity kind noon.

Definition flaggedVisit : Request.t :=
  Request.mk 7%nat 1%nat 5%float "Great coffee and friendly staff" None
             40.7128%float (-74.0060)%float
             None None None None (Some 2%Q)
             (Some [anomaly "RAPID_MOVEMENT"; anomaly "APP_BACKGROUNDED";
                    anomaly "GPS_JUMP"])
             None None.

(** A visit without the five listed metadata fields, completed in 20
    seconds. *)
Definition quickVisit : Request.t :=
  Request.mk 7%nat 1%nat 5%float "Great coffee and friendly staff" None
             40.7128%float (-74.0060)%float
             None (Some 20%Q) None None None None None None.

(** The store after actor 7 reviewed the cafe at noon, and a second
    submission by the same actor with another rating and comment. *)
Definition storeAfterFirstReview : State :=
  fst (createReview refMath utcZone (instant noon) "HASH-ABC123"
                    (bareVisit 7%nat 5) emptyStore).

Definition secondThoughts : Request.t :=
  Request.mk 7%nat 1%nat 1%float "On reflection the service was slow" None
             40.7128%float (-74.0060)%float
             None None None None None None None None.

(** A food court: the cafe and four stalls at the same coordinates.
    Actor 7 reviews all five at noon; the store then holds five reviews
    of the actor for the day, one of them for the cafe. *)
Definition stall (id : ObjectId) : Business.t :=
  Business.mk id 100%nat Business.active (-74.0060)%float 40.7128%float 50%float
              0%float 0%nat 0%nat.

Definition foodCourt : State :=
  mkState [] [cafe; stall 2; stall 3; stall 4; stall 5]%nat [] [] [] 1000%nat.

Definition visitTo (business : ObjectId) : Request.t :=
  Request.mk 7%nat business 5%float "Great coffee and friendly staff" None
             40.7128%float (-74.0060)%float
             None None None None None None None None.

Definition storeAfterFiveReviews : State :=
  fold_left
    (fun s visit =>
       fst (createReview refMath utcZone (instant noon) (snd visit)
                         (visitTo (fst visit)) s))
    [(1%nat, "HASH-AAA111"); (2%nat, "HASH-BBB222"); (3%nat, "HASH-CCC333");
     (4%nat, "HASH-DDD444"); (5%nat, "HASH-EEE555")]
    foodCourt.

(** A one-star review that an administrator rejected, and a second
    actor's five-star visit the next day. *)
Definition storeWithRejectedReview : State :=
  updateReviewStatus 1000%nat Review.rejected
    (fst (createReview refMath utcZone (instant noon) "HASH-ABC123"
                       (bareVisit 7%nat 1) emptyStore)).

(** Coupon templates of the cafe: buy one get one with reward value 0,
    and a 20 % template limited to two redemptions. *)
Definition buyOneGetOne : Coupon.t :=
  Coupon.mk 600%nat 1%nat Coupon.business_ None None
    "BOGO" "Buy one, get one" Coupon.buy1get1 0 0 None
    (Some 0%Z) null None 0%Z None 0%Z Coupon.active true None None None.

Definition twentyPercentTwice : Coupon.t :=
  Coupon.mk 601%nat 1%nat Coupon.business_ None None
    "TWENTY" "Twenty percent off" Coupon.percentage 20 100 (Some 50)
    (Some 0%Z) null None 0%Z (Some 2%Z) 2%Z Coupon.active true None None None.

Definition redeemedReward (id : ObjectId) : Coupon.t :=
  Coupon.mk id 1%nat Coupon.review_reward (Some 9%nat) (Some 900%nat)
    "HASH-OLD000" "" Coupon.percentage 20 100 (Some 50)
    (Some 0%Z) (date 7200000%Z) None 0%Z None 0%Z
    Coupon.redeemed true (Some 3600000%Z) (Some 100%nat) None.

Definition storeWithBuyOneGetOne : State :=
  mkState [] [cafe] [buyOneGetOne] [] [] 1000%nat.

Definition storeAtRedemptionLimit : State :=
  mkState [] [cafe]
          [twentyPercentTwice; redeemedReward 701; redeemedReward 702]%nat
          [] [] 1000%nat.

(** 8 March 2026, 06:30:00 UTC: 01:30 in New York, half an hour before
    the clocks there go forward. *)
Definition beforeSwitch : Z := (newYorkSpring2026_switch - 30 * msPerMinute)%Z.
End Examples.

(* ================================================================== *)
(** * Further handlers of the controllers and utilities                *)
(* ================================================================== *)

(** ** [clearSuspiciousActivities] of [review.controller.js]: the number
    of entries held is reported and the log is emptied. *)
Definition clearSuspiciousActivities (s : State) : State * nat :=
  let clearedCount := List.length (suspiciousActivityLog s) in
  (set_log (fun _ => []) s, clearedCount).

(** ** [generateCouponCode] of [utils/coupon.js] *)
Module CouponCode.
Local Open Scope string_scope.
Local Open Scope nat_scope.

Definition characters : string := "ABCDEFGHIJKLMNOPQRSTUVWXYZ0123456789".

(** [s.charAt(i)]: the empty string when [i] is out of range. *)
Definition charAt (s : string) (i : nat) : string :=
  match String.get i s with
  | Some c => String c EmptyString
  | None => EmptyString
  end.

(** The loop [for (let i = 0; i < length; i++) code += characters.charAt(..)];
    [draw i] is the value of
    [Math.floor(Math.random() * characters.length)] in iteration [i]. *)
Fixpoint appendDraws (draw : nat -> nat) (i count : nat) (code : string)
  : string :=
  match count with
  | O => code
  | S count' =>
      appendDraws draw (S i) count' (code ++ charAt characters (draw i))
  end.

Definition generateCouponCode (draw : nat -> nat) (length : nat) : string :=
  "HASH-" ++ appendDraws draw 0 length "".
End CouponCode.

(** ** Deleting the document whose [_id] is [id] ([doc.deleteOne()]) *)
Fixpoint deleteById {A : Type} (idOf : A -> ObjectId) (id : ObjectId)
    (docs : list A) : list A :=
  match docs with
  | [] => []
  | d :: docs' =>
      if Nat.eqb (idOf d) id then docs'
      else d :: deleteById idOf id docs'
  end.

(** ** [controllers/businessCoupon.controller.js]: the owner's coupons *)
Module BusinessCouponController.
Import CouponLifecycle.
Local Open Scope handler_scope.
Local Open Scope nat_scope.

(** [req.body] of [POST /api/business-coupons]. *)
Record CreateBody : Type := mkCreateBody {
  body_businessId : ObjectId;
  body_code : string;
  body_title : option string;
  body_description : option string;
  body_discountType : Coupon.RewardType;
  body_discountValue : Q;
  body_itemName : option string;
  body_minPurchaseAmount : option Q;
  body_maxDiscountAmount : option Q;
  body_validFrom : option Z;
  body_validUntil : option Z;
  body_usageLimit : option Z;
  body_redemptionLimit : option Z;
  body_terms : option string
}.

Inductive CreateResponse : Type :=
| CreateBusinessNotFound                  (* 404 *)
| CreateNotAuthorized                     (* 403 *)
| CodeAlreadyExists                       (* 400 *)
| CouponCreated (coupon : Coupon.t)       (* 201 *)
| CreateError.                            (* next(error) *)

(** [value || null] on numbers. *)
Definition orNullQ (v : option Q) : option Q :=
  match v with
  | Some x => if truthyQ x then Some x else None
  | None => None
  end.
Definition orNullZ (v : option Z) : option Z :=
  match v with
  | Some x => if truthyZ x then Some x else None
  | None => None
  end.

(** The [maxlength] validators of the schema on the text fields. *)
Definition maxlength (limit : nat) (v : option string) : bool :=
  match v with
  | Some x => String.length x <=? limit
  | None => true
  end.

Definition set_isActive (b : bool) (c : Coupon.t) : Coupon.t :=
  Coupon.mk (Coupon._id c) (Coupon.business c) (Coupon.type c) (Coupon.user c)
    (Coupon.review c) (Coupon.code c) (Coupon.description c)
    (Coupon.rewardType c) (Coupon.rewardValue c) (Coupon.minPurchaseAmount c)
    (Coupon.maxDiscountAmount c) (Coupon.validFrom c) (Coupon.validUntil c)
    (Coupon.usageLimit c) (Coupon.usageCount c) (Coupon.redemptionLimit c)
    (Coupon.redemptionCount c) (Coupon.status c) b
    (Coupon.redeemedAt c) (Coupon.redeemedBy c) (Coupon.qrCodeData c).

Section WithCase.
(** [String.prototype.toUpperCase] *)
Variable toUpperCase : string -> string.

(** The document [Coupon.create] stores; [title], [itemName] and [terms]
    are not fields of the coupon record.  The schema's [uppercase]
    setter finds the code upper-cased already. *)
Definition newCoupon (id : ObjectId) (now : Z) (body : CreateBody)
  : Coupon.t :=
  Coupon.mk id (body_businessId body) Coupon.business_ None None
    (toUpperCase (body_code body))
    (match body_description body with Some d => d | None => EmptyString end)
    (body_discountType body) (body_discountValue body)
    (orElseQ (body_minPurchaseAmount body) 0)
    (orNullQ (body_maxDiscountAmount body))
    (Some (match body_validFrom body with
           | Some from => from
           | None => now                   (* Date.now() *)
           end))
    (match body_validUntil body with
     | Some until => date until
     | None => null
     end)
    (orNullZ (body_usageLimit body)) 0%Z
    (orNullZ (body_redemptionLimit body)) 0%Z
    Coupon.active true None None None.

(** [createCoupon]; only the owner may create, an administrator may not. *)
Definition createCouponHandler (now : Z) (requester : Requester)
    (body : CreateBody) : Handler CreateResponse CreateResponse :=
  business <- findBusiness (body_businessId body) ;;
  match business with
  | None => respond CreateBusinessNotFound
  | Some business =>
    if negb (Business.owner business =? id requester)
    then respond CreateNotAuthorized
    else
      (* Check if code already exists *)
      existingCoupon <- gets (fun s =>
        find (fun c => String.eqb (Coupon.code c)
                                  (toUpperCase (body_code body)))
             (coupons s)) ;;
      match existingCoupon with
      | Some _ => respond CodeAlreadyExists
      | None =>
        if negb (maxlength 100 (body_title body) &&
                 maxlength 500 (body_description body) &&
                 maxlength 100 (body_itemName body) &&
                 maxlength 1000 (body_terms body))
        then respond CreateError          (* ValidationError *)
        else
          id <- fresh ;;
          let coupon := newCoupon id now body in
          modify (set_coupons (fun cs => cs ++ [coupon])) ;;;
          ret (CouponCreated coupon)
      end
  end.

Definition createCoupon (now : Z) (requester : Requester)
    (body : CreateBody) (s : State) : State * CreateResponse :=
  run (createCouponHandler now requester body) s.

(** [verifyCouponCode], open to everyone. *)
Inductive VerifyResponse : Type :=
| InvalidCouponCode                       (* 404 *)
| NotValidOrExpired                       (* 400 *)
| CouponIsValid (coupon : Coupon.t).      (* 200 *)

Definition verifyCouponCode (now : Z) (code : string) (businessId : ObjectId)
    (s : State) : VerifyResponse :=
  match find (fun c => String.eqb (Coupon.code c) (toUpperCase code) &&
                       (Coupon.business c =? businessId) &&
                       Coupon.type_is (Coupon.type c) Coupon.business_)
             (coupons s) with
  | None => InvalidCouponCode
  | Some coupon =>
      if negb (Coupon.isValid coupon now) then NotValidOrExpired
      else CouponIsValid coupon
  end.
End WithCase.

(** [toggleCouponStatus] *)
Inductive ToggleResponse : Type :=
| ToggleCouponNotFound                    (* 404 *)
| ToggleNotAuthorized                     (* 403 *)
| Toggled (coupon : Coupon.t)             (* 200 *)
| ToggleError.                            (* next(error) *)

Definition toggleCouponStatusHandler (requester : Requester)
    (couponId : ObjectId) : Handler ToggleResponse ToggleResponse :=
  coupon <- findCoupon couponId ;;
  match coupon with
  | None => respond ToggleCouponNotFound
  | Some coupon =>
    business <- findBusiness (Coupon.business coupon) ;;
    match business with
    | None => respond ToggleError        (* business is null *)
    | Some business =>
      if negb (Business.owner business =? id requester) &&
         negb (is_admin (role requester))
      then respond ToggleNotAuthorized
      else
        let toggle := set_isActive (negb (Coupon.isActive coupon)) in
        saveCoupon coupon toggle ;;;
        ret (Toggled (toggle coupon))
    end
  end.

Definition toggleCouponStatus (requester : Requester) (couponId : ObjectId)
    (s : State) : State * ToggleResponse :=
  run (toggleCouponStatusHandler requester couponId) s.

(** [deleteCoupon] *)
Inductive DeleteResponse : Type :=
| DeleteCouponNotFound                    (* 404 *)
| DeleteNotAuthorized                     (* 403 *)
| CouponDeleted                           (* 200 *)
| DeleteError.                            (* next(error) *)

Definition deleteCouponHandler (requester : Requester)
    (couponId : ObjectId) : Handler DeleteResponse DeleteResponse :=
  coupon <- findCoupon couponId ;;
  match coupon with
  | None => respond DeleteCouponNotFound
  | Some coupon =>
    business <- findBusiness (Coupon.business coupon) ;;
    match business with
    | None => respond DeleteError
    | Some business =>
      if negb (Business.owner business =? id requester) &&
         negb (is_admin (role requester))
      then respond DeleteNotAuthorized
      else
        modify (set_coupons (deleteById Coupon._id (Coupon._id coupon))) ;;;
        ret CouponDeleted
    end
  end.

Definition deleteCoupon (requester : Requester) (couponId : ObjectId)
    (s : State) : State * DeleteResponse :=
  run (deleteCouponHandler requester couponId) s.

(** [getRedemptionStats]; the [recentlyRedeemed] list of the response is
    not modelled. *)
Record TemplateStats : Type := mkTemplateStats {
  stats_redemptionLimit : option Z;
  stats_redemptionCount : Z
}.

Record RedemptionStats : Type := mkStats {
  template    : option TemplateStats;
  totalIssued : nat;
  redeemed    : nat;
  expired     : nat;
  active      : nat
}.

Inductive StatsResponse : Type :=
| StatsBusinessNotFound                   (* 404 *)
| StatsNotAuthorized                      (* 403 *)
| StatsOk (stats : RedemptionStats).      (* 200 *)

Definition getRedemptionStats (now : Z) (requester : Requester)
    (businessId : ObjectId) (s : State) : StatsResponse :=
  match find (fun b => Business._id b =? businessId) (businesses s) with
  | None => StatsBusinessNotFound
  | Some business =>
    if negb (Business.owner business =? id requester) &&
       negb (is_admin (role requester))
    then StatsNotAuthorized
    else
      (* Get coupon template *)
      let couponTemplate :=
        find (fun c => (Coupon.business c =? businessId) &&
                       Coupon.type_is (Coupon.type c) Coupon.business_ &&
                       Coupon.isActive c)
             (coupons s) in
      (* Count coupons by status *)
      let issued (c : Coupon.t) :=
        (Coupon.business c =? businessId) &&
        Coupon.type_is (Coupon.type c) Coupon.review_reward in
      let totalIssued := countDocuments issued (coupons s) in
      let redeemedCount :=
        countDocuments
          (fun c => issued c &&
                    Coupon.status_is (Coupon.status c) Coupon.redeemed)
          (coupons s) in
      let expiredCount :=
        countDocuments
          (fun c => issued c &&
                    Coupon.status_is (Coupon.status c) Coupon.expired)
          (coupons s) in
      let activeCount :=
        countDocuments
          (fun c => issued c &&
                    Coupon.status_is (Coupon.status c) Coupon.active &&
                    match Coupon.validUntil c with
                    | date until => (until >? now)%Z
                    | _ => false
                    end)
          (coupons s) in
      StatsOk
        (mkStats
           (option_map
              (fun t => mkTemplateStats (Coupon.redemptionLimit t)
                                        (Coupon.redemptionCount t))
              couponTemplate)
           totalIssued redeemedCount expiredCount activeCount)
  end.
End BusinessCouponController.

(** ** The coupon controller: [calculateCouponDiscount] *)
Module CouponController.
Local Open Scope nat_scope.

Inductive DiscountResponse : Type :=
| DiscountCouponNotFound                              (* 404 *)
| NotYourCoupon                                       (* 403 *)
| ExpiredOrInvalid                                    (* 400 *)
| BelowMinimumPurchase (minPurchaseAmount : Q)        (* 400 *)
| Discount (discount finalAmount : Q) (coupon : Coupon.t)   (* 200 *)
| DiscountError.                                      (* next(error) *)

Definition calculateCouponDiscount (now : Z) (user : ObjectId)
    (couponId : ObjectId) (purchaseAmount : Q) (s : State)
  : DiscountResponse :=
  match find (fun c => Coupon._id c =? couponId) (coupons s) with
  | None => DiscountCouponNotFound
  | Some coupon =>
    match Coupon.user coupon with
    | None => DiscountError               (* coupon.user is undefined *)
    | Some couponUser =>
      if negb (couponUser =? user) then NotYourCoupon
      else if negb (CouponUtils.isCouponValid coupon now)
      then ExpiredOrInvalid
      else if Qltb purchaseAmount (Coupon.minPurchaseAmount coupon)
      then BelowMinimumPurchase (Coupon.minPurchaseAmount coupon)
      else
        let discount := CouponUtils.calculateDiscount coupon purchaseAmount in
        let finalAmount := (purchaseAmount - discount)%Q in
        Discount discount finalAmount coupon
    end
  end.
End CouponController.

(** ** [updateReview] and [deleteReview] of [review.controller.js] *)
Module ReviewEdits.
Import CouponLifecycle.
Local Open Scope handler_scope.
Local Open Scope nat_scope.

Definition set_rating (rating : float) (r : Review.t) : Review.t :=
  Review.mk (Review._id r) (Review.user r) (Review.business r) rating
    (Review.comment r) (Review.emotion r) (Review.geolocation r)
    (Review.verified r) (Review.status r) (Review.couponAwarded r)
    (Review.coupon r) (Review.securityMetadata r) (Review.createdAt r).

Definition set_comment (comment : string) (r : Review.t) : Review.t :=
  Review.mk (Review._id r) (Review.user r) (Review.business r)
    (Review.rating r) comment (Review.emotion r) (Review.geolocation r)
    (Review.verified r) (Review.status r) (Review.couponAwarded r)
    (Review.coupon r) (Review.securityMetadata r) (Review.createdAt r).

Inductive UpdateResponse : Type :=
| UpdateReviewNotFound                    (* 404 *)
| UpdateNotAuthorized                     (* 403 *)
| ReviewUpdated (review : Review.t)       (* 200 *)
| UpdateError.                            (* next(error) *)

(** The values [if (rating) review.rating = rating] and
    [if (comment) review.comment = comment] assign. *)
Definition assignedRating (rating : option float) : option float :=
  match rating with
  | Some x => if truthyFloat x then Some x else None
  | None => None
  end.
Definition assignedComment (comment : option string) : option string :=
  match comment with
  | Some EmptyString => None
  | Some x => Some x
  | None => None
  end.

Definition edit (rating : option float) (comment : option string) (r : Review.t)
  : Review.t :=
  let r :=
    match assignedRating rating with
    | Some x => set_rating x r
    | None => r
    end in
  match assignedComment comment with
  | Some x => set_comment x r
  | None => r
  end.

(** [review.save()] runs the schema's validators on the two fields
    where their value changed. *)
Definition validates (rating : option float) (comment : option string)
    (r : Review.t) : bool :=
  match assignedRating rating with
  | Some x => (x =? Review.rating r)%float || Review.validRating x
  | None => true
  end &&
  match assignedComment comment with
  | Some x => String.eqb x (Review.comment r) || Review.validComment x
  | None => true
  end.

Definition updateReviewHandler (requester : Requester) (reviewId : ObjectId)
    (rating : option float) (comment : option string)
  : Handler UpdateResponse UpdateResponse :=
  review <- gets (fun s =>
    find (fun r => Review._id r =? reviewId) (reviews s)) ;;
  match review with
  | None => respond UpdateReviewNotFound
  | Some review =>
    if negb (Review.user review =? id requester)
    then respond UpdateNotAuthorized
    else if negb (validates rating comment review)
    then respond UpdateError              (* ValidationError *)
    else
      modify (set_reviews
                (updateById Review._id (Review._id review)
                            (edit rating comment))) ;;;
      ret (ReviewUpdated (edit rating comment review))
  end.

Definition updateReview (requester : Requester) (reviewId : ObjectId)
    (rating : option float) (comment : option string) (s : State)
  : State * UpdateResponse :=
  run (updateReviewHandler requester reviewId rating comment) s.

Inductive DeleteResponse : Type :=
| DeleteReviewNotFound                    (* 404 *)
| DeleteNotAuthorized                     (* 403 *)
| ReviewDeleted.                          (* 200 *)

Definition deleteReviewHandler (requester : Requester) (reviewId : ObjectId)
  : Handler DeleteResponse DeleteResponse :=
  review <- gets (fun s =>
    find (fun r => Review._id r =? reviewId) (reviews s)) ;;
  match review with
  | None => respond DeleteReviewNotFound
  | Some review =>
    if negb (Review.user review =? id requester) &&
       negb (is_admin (role requester))
    then respond DeleteNotAuthorized
    else
      modify (set_reviews (deleteById Review._id (Review._id review))) ;;;
      ret ReviewDeleted
  end.

Definition deleteReview (requester : Requester) (reviewId : ObjectId)
    (s : State) : State * DeleteResponse :=
  run (deleteReviewHandler requester reviewId) s.
End ReviewEdits.

(** ** [markHelpful] of [review.controller.js] *)
Module Helpful.
Local Open Scope nat_scope.

(** A review document together with its [helpful] array, which the
    review record above leaves out. *)
Record Doc : Type := mkDoc {
  review  : Review.t;
  helpful : list ObjectId
}.

Definition docId (d : Doc) : ObjectId := Review._id (review d).

Inductive HelpfulResponse : Type :=
| HelpfulReviewNotFound                   (* 404 *)
| HelpfulCount (helpful : nat).           (* 200 *)

(** [review.helpful.includes(req.user.id)] *)
Definition includes (user : ObjectId) (helpful : list ObjectId) : bool :=
  existsb (fun userId => userId =? user) helpful.

(** The array after the request: the user is removed when present and
    pushed when absent. *)
Definition toggled (user : ObjectId) (helpful : list ObjectId)
  : list ObjectId :=
  if includes user helpful
  then filter (fun userId => negb (userId =? user)) helpful
  else helpful ++ [user].

Definition markHelpful (user reviewId : ObjectId) (docs : list Doc)
  : list Doc * HelpfulResponse :=
  match find (fun d => docId d =? reviewId) docs with
  | None => (docs, HelpfulReviewNotFound)
  | Some d =>
      let helpful' := toggled user (helpful d) in
      (updateById docId (docId d) (fun d => mkDoc (review d) helpful') docs,
       HelpfulCount (List.length helpful'))
  end.
End Helpful.

(** ** [getSuspiciousActivities] of [review.controller.js] (the second,
    effective definition): the count and the summary statistics of the
    response.  The [activities] list itself is ordered by the entries'
    timestamps, which the log entries here do not carry; its length
    does not depend on the order. *)
Module ActivityReport.
Local Open Scope nat_scope.

Definition EventType_eq_dec (a b : EventType) : {a = b} + {a <> b}.
Proof. decide equality; apply string_dec. Defined.

Definition sameType (a b : EventType) : bool :=
  if EventType_eq_dec a b then true else false.

(** [byType[t] = (byType[t] || 0) + 1] on an object, whose keys are kept
    in the order of their insertion. *)
Fixpoint increment (t : EventType) (byType : list (EventType * nat))
  : list (EventType * nat) :=
  match byType with
  | [] => [(t, 0 + 1)]
  | (t', n) :: rest =>
      if sameType t' t then (t', n + 1) :: rest
      else (t', n) :: increment t rest
  end.

(** [byType[t] || 0] *)
Definition lookup (t : EventType) (byType : list (EventType * nat)) : nat :=
  match find (fun entry => sameType (fst entry) t) byType with
  | Some entry => snd entry
  | None => 0
  end.

(** [activities.slice(0, end)], with [None] for an [end] that is NaN. *)
Definition slice0 {A : Type} (end_ : option Z) (l : list A) : list A :=
  match end_ with
  | None => []
  | Some n =>
      if (n <? 0)%Z then firstn (List.length l - Z.to_nat (- n)) l
      else firstn (Z.to_nat n) l
  end.

Record Stats : Type := mkStats {
  total  : nat;
  byType : list (EventType * nat)
}.

Record Report : Type := mkReport {
  count : nat;
  stats : Stats
}.

(** [limit] is the value of [parseInt(limit)] (100 when the query names
    no limit); [wanted] is the [eventType] of the query, when it names
    one of the event types. *)
Definition getSuspiciousActivities (limit : option Z)
    (wanted : option EventType) (s : State) : Report :=
  let activities := suspiciousActivityLog s in
  (* Filter by event type if specified *)
  let activities :=
    match wanted with
    | Some t => filter (fun a => sameType (eventType a) t) activities
    | None => activities
    end in
  (* Limit results *)
  let activities := slice0 limit activities in
  (* Get summary statistics *)
  let stats :=
    mkStats (List.length (suspiciousActivityLog s))
            (fold_left (fun byType activity =>
                          increment (eventType activity) byType)
                       (suspiciousActivityLog s) []) in
  mkReport (List.length activities) stats.
End ActivityReport.

(* ================================================================== *)
(** * Further statements about the handlers, as definitions            *)
(* ================================================================== *)

Module Laws.
Import Stdlib.Strings.Ascii.
Import CouponLifecycle.
Local Open Scope nat_scope.

(** The last [n] elements of a list. *)
Definition lastN {A : Type} (n : nat) (l : list A) : list A :=
  skipn (List.length l - n) l.

(** The two handlers that write the suspicious-activity log. *)
Inductive LogOperation : Type :=
| Submit (M : JsMath.MathEngine) (tz : JsDate.TimeZone) (clock : Clock)
         (couponCode : string) (req : Request.t)
| Clear.

Definition logStep (op : LogOperation) (s : State) : State :=
  match op with
  | Submit M tz clock couponCode req =>
      fst (ReviewController.createReview M tz clock couponCode req s)
  | Clear => fst (clearSuspiciousActivities s)
  end.

(** ** Coupon codes *)

(** [[A-Z0-9]] *)
Definition isCodeChar (c : Ascii.ascii) : bool :=
  let n := Ascii.nat_of_ascii c in
  ((65 <=? n) && (n <=? 90)) || ((48 <=? n) && (n <=? 57)).

(** [/^HASH-[A-Z0-9]{n}$/] *)
Definition matchesFormat (n : nat) (code : string) : bool :=
  match code with
  | String "H"%char
      (String "A"%char
         (String "S"%char (String "H"%char (String "-"%char body)))) =>
      (String.length body =? n) &&
      forallb isCodeChar (list_ascii_of_string body)
  | _ => false
  end.

(** The position of a character in a string. *)
Fixpoint indexIn (c : Ascii.ascii) (s : string) : option nat :=
  match s with
  | EmptyString => None
  | String d rest =>
      if Ascii.eqb c d then Some 0 else option_map S (indexIn c rest)
  end.

(** The characters appended from iteration [i] on. *)
Fixpoint drawn (draw : nat -> nat) (i count : nat) : string :=
  match count with
  | O => EmptyString
  | S count' =>
      (CouponCode.charAt CouponCode.characters (draw i)
       ++ drawn draw (S i) count')%string
  end.

(** ** Redemption *)

(** The store a successful scan leaves behind: the coupon is redeemed,
    the business's active template (for a review reward) counts one
    more redemption, and the coupon's user is notified. *)
Definition afterScan (clock : ScanClock) (requester : Requester)
    (c : Coupon.t) (s : State) : State :=
  let s1 :=
    set_coupons
      (updateById Coupon._id (Coupon._id c)
         (Coupon.set_redeemed (at_redeemedAt clock) (id requester))) s in
  let s2 :=
    if Coupon.type_is (Coupon.type c) Coupon.review_reward then
      match find (fun t => (Coupon.business t =? Coupon.business c) &&
                           Coupon.type_is (Coupon.type t) Coupon.business_ &&
                           Coupon.isActive t)
                 (coupons s1) with
      | Some template =>
          set_coupons (updateById Coupon._id (Coupon._id template)
                                  Coupon.inc_redemptionCount) s1
      | None => s1
      end
    else s1 in
  match Coupon.user c with
  | Some couponUser =>
      set_pushed (fun ps =>
        ps ++ [mkNotification couponUser "Coupon Redeemed! ✅"]) s2
  | None => s2
  end.

(** What a scan asks of the coupon itself. *)
Definition Redeemable (clock : ScanClock) (c : Coupon.t) : Prop :=
  Coupon.status c <> Coupon.redeemed /\
  Coupon.status c <> Coupon.expired /\
  (forall until, Coupon.validUntil c = date until ->
                 (at_expiryCheck clock <= until)%Z) /\
  Coupon.isValid c (at_isValid clock) = true.


(** What a scanner reads from a coupon's QR code: [JSON.parse] of the
    stored [qrCodeData]. *)
Definition presented (c : Coupon.t) : QrInput :=
  match Coupon.qrCodeData c with
  | Some q => QrParsed (Coupon.qr_type q) (Some (Coupon.qr_couponId q))
  | None => QrMissing
  end.

(** ** Stored reviews *)

(** A stored review carries none of the signals that refuse a
    submission: it is verified, its recorded GPS accuracy is at most
    50 m, it is not flagged as a mock location, it reports fewer than
    three anomalies, and its recorded distance is within the recorded
    radius. *)
Definition NoHardSignal (r : Review.t) : Prop :=
  let m := Review.securityMetadata r in
  Review.verified r = true /\
  (forall a, Review.locationAccuracy m = Some a -> (a <= 50)%Q) /\
  Review.isMockLocation m <> Some true /\
  Review.suspiciousActivitiesCount m < 3 /\
  PrimFloat.leb (Review.actualDistance m) (Review.businessRadius m) = true.
End Laws.

(** Further stores and requests. *)
Module MoreExamples.
Import JsDate JsMath ReviewController Examples.
Local Open Scope string_scope.

(** A store whose log is full: a thousand entries of actor 7. *)
Definition rateLimitEntry (user : ObjectId) : LogEntry :=
  mkEntry user RATE_LIMIT_EXCEEDED (RateLimitMeta 5%nat 1%nat).

Definition storeWithFullLog : State :=
  mkState [] [cafe] [] (repeat (rateLimitEntry 7%nat) 1000) [] 1000%nat.

(** A store that holds the capped ten-percent reward of actor 7. *)
Definition storeWithReward : State :=
  mkState [] [cafe] [tenPercentCapFive] [] [] 3000%nat.

(** [toUpperCase] on ASCII text. *)
Definition upperChar (c : Ascii.ascii) : Ascii.ascii :=
  let n := Ascii.nat_of_ascii c in
  if ((97 <=? n) && (n <=? 122))%nat then Ascii.ascii_of_nat (n - 32) else c.

Fixpoint asciiUpper (s : string) : string :=
  match s with
  | EmptyString => EmptyString
  | String c rest => String (upperChar c) (asciiUpper rest)
  end.

(** The owner of the cafe creates a ten-percent coupon, typing the code
    in lower case and giving 0 for both limits. *)
Definition welcomeBody : BusinessCouponController.CreateBody :=
  BusinessCouponController.mkCreateBody 1%nat "welcome10"
    (Some "Welcome") (Some "Welcome offer") Coupon.percentage 10
    None None None None None (Some 0%Z) (Some 0%Z) None.

(** The documents of the review collection after the first review, each
    marked helpful by actors 8 and 9. *)
Definition helpfulDocs : list Helpful.Doc :=
  map (fun r => Helpful.mkDoc r [8; 9]%nat) (reviews storeAfterFirstReview).
End MoreExamples.

Import JsDate JsMath Geolocation ReviewController Examples.
Close Scope Q_scope.
Open Scope string_scope.
Open Scope list_scope.
Open Scope nat_scope.

(** Case analysis on the second operand of a float operation whose other
    operand is NaN. *)
Ltac by_cases_on x :=
  rewrite <- SF2Prim_Prim2SF at 1;
  first [rewrite add_spec | rewrite sub_spec | rewrite mul_spec
        | rewrite div_spec];
  destruct (Prim2SF x); reflexivity.

(* ================================================================== *)
(** * 7. Dates                                                         *)
(* ================================================================== *)

Section DateFacts.
Local Open Scope Z_scope.

(** Splitting a time value into day, hour, minute, second and
    millisecond and putting it together again. *)
Lemma MakeDate_decomposition (w : Z) :
  MakeDate (Day w)
    (MakeTime (HourFromTime w) (MinFromTime w) (SecFromTime w) (msFromTime w))
  = w.
Proof.
  unfold MakeDate, MakeTime, Day, HourFromTime, MinFromTime, SecFromTime,
    msFromTime, msPerDay, msPerHour, msPerMinute, msPerSecond.
  Z.to_euclidean_division_equations. lia.
Qed.

(** [d.setHours(d.getHours() + k)] moves the wall clock by [k] hours. *)
Lemma setHours_getHours_plus (tz : TimeZone) (t k : Z) :
  setHours tz t (getHours tz t + k) = UTC tz (LocalTime tz t + k * msPerHour).
Proof.
  unfold setHours, getHours. f_equal.
  rewrite <- (MakeDate_decomposition (LocalTime tz t)) at 6.
  unfold MakeDate, MakeTime. ring.
Qed.

(** In a zone whose offset is constant this is [k] hours of elapsed time. *)
Lemma setHours_getHours_plus_fixed (offset t k : Z) :
  setHours (fixedZone offset) t (getHours (fixedZone offset) t + k)
  = t + k * msPerHour.
Proof.
  rewrite setHours_getHours_plus. unfold UTC, LocalTime; simpl. ring.
Qed.

Lemma couponExpiry_fixedZone (offset : Z) (clock : Clock) :
  couponExpiry (fixedZone offset) clock = at_expiry clock + 2 * msPerHour.
Proof. unfold couponExpiry. apply setHours_getHours_plus_fixed. Qed.

(** The sibling helper of [utils/coupon.js] adds elapsed time directly. *)
Lemma calculateCouponExpiry_two_hours (now : Z) :
  CouponUtils.calculateCouponExpiry now 2 - now = 2 * msPerHour.
Proof. unfold CouponUtils.calculateCouponExpiry, msPerHour. lia. Qed.

(** Local midnight in a fixed zone, and the reviews it selects. *)
Lemma today_fixedZone (offset : Z) (clock : Clock) :
  today (fixedZone offset) clock
  = Day (at_today clock + offset) * msPerDay - offset.
Proof.
  unfold today, setHours4, UTC, LocalTime, MakeDate, MakeTime; simpl. ring.
Qed.

Lemma since_today_same_day (offset : Z) (clock : Clock) (t : Z) :
  t <= at_today clock ->
  (today (fixedZone offset) clock <= t
   <-> Day (LocalTime (fixedZone offset) t)
       = Day (LocalTime (fixedZone offset) (at_today clock))).
Proof.
  intros Hle. rewrite today_fixedZone.
  unfold LocalTime, Day, msPerDay; simpl.
  Z.to_euclidean_division_equations. lia.
Qed.

(** Zones in which the days start at local midnight: those of constant
    offset, and New York around its spring transition (the hour it
    skips, from 02:00 to 03:00, holds no midnight). *)
Lemma fixedZone_DaysStartAtMidnight (offset : Z) :
  Spec.DaysStartAtMidnight (fixedZone offset).
Proof.
  intros d t. unfold UTC, LocalTime, Day, msPerDay; simpl.
  Z.to_euclidean_division_equations. lia.
Qed.

Lemma newYorkSpring2026_DaysStartAtMidnight :
  Spec.DaysStartAtMidnight newYorkSpring2026.
Proof.
  intros d t.
  unfold newYorkSpring2026, forwardZone, newYorkSpring2026_switch, UTC,
    LocalTime, Day, msPerDay, msPerHour; simpl.
  destruct (Z.ltb_spec (d * 86400000) 1772938800000);
    destruct (Z.ltb_spec t 1772953200000);
    Z.to_euclidean_division_equations; lia.
Qed.

Lemma today_local_midnight (tz : TimeZone) (clock : Clock) :
  today tz clock = UTC tz (Day (LocalTime tz (at_today clock)) * msPerDay).
Proof.
  unfold today, setHours4, MakeDate, MakeTime. f_equal.
  unfold msPerHour, msPerMinute, msPerSecond. lia.
Qed.

Lemma Day_LocalTime_monotone (tz : TimeZone) (t1 t2 : Z) :
  Spec.DaysStartAtMidnight tz -> t1 <= t2 ->
  Day (LocalTime tz t1) <= Day (LocalTime tz t2).
Proof.
  intros Hz Hle. apply (Hz (Day (LocalTime tz t1)) t2).
  pose proof (proj2 (Hz (Day (LocalTime tz t1)) t1) (Z.le_refl _)). lia.
Qed.

Lemma since_today_local_day (tz : TimeZone) (clock : Clock) (t : Z) :
  Spec.DaysStartAtMidnight tz ->
  t <= at_today clock ->
  (today tz clock <= t
   <-> Day (LocalTime tz t) = Day (LocalTime tz (at_today clock))).
Proof.
  intros Hz Hle. rewrite today_local_midnight.
  pose proof (Hz (Day (LocalTime tz (at_today clock))) t) as H.
  pose proof (Day_LocalTime_monotone Hz Hle). lia.
Qed.
End DateFacts.

(* ================================================================== *)
(** * 8. Geofence                                                      *)
(* ================================================================== *)

Section FloatFacts.
Local Open Scope float_scope.

Lemma nan_add_l x : nan + x = nan.  Proof. by_cases_on x. Qed.
Lemma nan_add_r x : x + nan = nan.  Proof. by_cases_on x. Qed.
Lemma nan_sub_l x : nan - x = nan.  Proof. by_cases_on x. Qed.
Lemma nan_sub_r x : x - nan = nan.  Proof. by_cases_on x. Qed.
Lemma nan_mul_l x : nan * x = nan.  Proof. by_cases_on x. Qed.
Lemma nan_mul_r x : x * nan = nan.  Proof. by_cases_on x. Qed.
Lemma nan_div_l x : nan / x = nan.  Proof. by_cases_on x. Qed.
Lemma nan_sqrt : sqrt nan = nan.    Proof. reflexivity. Qed.

Lemma nan_leb_l x : (nan <=? x) = false.
Proof. rewrite leb_spec. destruct (Prim2SF x); reflexivity. Qed.
Lemma nan_leb_r x : (x <=? nan) = false.
Proof. rewrite leb_spec. destruct (Prim2SF x); reflexivity. Qed.

(** [<=] is [<] or [==], also on floats. *)
Lemma leb_ltb_eqb x y :
  (x <=? y) = true <-> (x <? y) = true \/ (x =? y) = true.
Proof.
  rewrite leb_spec, ltb_spec, eqb_spec.
  unfold SFleb, SFltb, SFeqb.
  destruct (SFcompare (Prim2SF x) (Prim2SF y)) as [[ | | ]|];
    intuition discriminate.
Qed.
End FloatFacts.

Create Rewrite HintDb nan_db.
#[local] Hint Rewrite nan_add_l nan_add_r nan_sub_l nan_sub_r nan_mul_l
  nan_mul_r nan_div_l nan_sqrt : nan_db.

Section GeofenceFacts.
Local Open Scope float_scope.
Variable M : MathEngine.
Hypothesis M_nan : NaNPropagating M.

Lemma calculateDistance_nan (lat1 lon1 lat2 lon2 : float) :
  lat1 = nan \/ lon1 = nan \/ lat2 = nan \/ lon2 = nan ->
  calculateDistance M lat1 lon1 lat2 lon2 = nan.
Proof.
  destruct M_nan as (Hsin & _ & Hatan & _).
  unfold calculateDistance.
  intros [-> | [-> | [-> | ->]]];
    autorewrite with nan_db; rewrite Hsin;
    autorewrite with nan_db; rewrite Hatan;
    autorewrite with nan_db; reflexivity.
Qed.

(** C2.  The distance [calculateDistance] computes is the haversine
    great-circle distance of the specification, on a sphere of radius
    6,371,000 m; [isWithinGeofence] answers [true] exactly when that
    distance is below the radius or equal to it (the boundary is
    inside), and whenever one of its five arguments is NaN it answers
    [false]; being a total function it never throws. *)
Theorem isWithinGeofence_spec
    (userLat userLon businessLat businessLon radius : float) :
  let distance :=
    Spec.distanceMeters M userLat userLon businessLat businessLon in
  calculateDistance M userLat userLon businessLat businessLon = distance /\
  (isWithinGeofence M userLat userLon businessLat businessLon radius = true
   <-> (distance <? radius) = true \/ (distance =? radius) = true) /\
  (userLat = nan \/ userLon = nan \/ businessLat = nan \/
   businessLon = nan \/ radius = nan ->
   isWithinGeofence M userLat userLon businessLat businessLon radius = false).
Proof.
  intros distance.
  assert (Hdistance :
            calculateDistance M userLat userLon businessLat businessLon
            = distance) by reflexivity.
  split; [exact Hdistance|]. split.
  - unfold isWithinGeofence. rewrite Hdistance. apply leb_ltb_eqb.
  - unfold isWithinGeofence.
    intros H.
    assert (Hcases :
      (userLat = nan \/ userLon = nan \/ businessLat = nan \/ businessLon = nan)
      \/ radius = nan) by tauto.
    destruct Hcases as [Hcoord | ->].
    + rewrite calculateDistance_nan by exact Hcoord. apply nan_leb_l.
    + apply nan_leb_r.
Qed.
End GeofenceFacts.

Lemma refMath_NaNPropagating : NaNPropagating refMath.
Proof.
  unfold NaNPropagating.
  split; [reflexivity | split; [reflexivity | split]].
  - intros x. reflexivity.
  - intros y. unfold refMath, Math_atan2, ref_atan2.
    destruct (is_nan y); reflexivity.
Qed.

(** On the reference engine: a user 0.0002 degrees of latitude (some
    22 m) north of the business is inside its 50 m geofence, the
    specification's distance being below the radius; a user 0.0022
    degrees (some 245 m) north is outside; and a NaN latitude or radius
    is outside. *)
Lemma isWithinGeofence_spec_witness :
  (Spec.distanceMeters refMath 40.7130 (-74.0060) 40.7128 (-74.0060) <? 50)%float
  = true /\
  isWithinGeofence refMath 40.7130%float (-74.0060)%float 40.7128%float
    (-74.0060)%float 50%float = true /\
  (200 <? Spec.distanceMeters refMath 40.7150 (-74.0060) 40.7128 (-74.0060))%float
  = true /\
  isWithinGeofence refMath 40.7150%float (-74.0060)%float 40.7128%float
    (-74.0060)%float 50%float = false /\
  isWithinGeofence refMath nan (-74.0060)%float 40.7128%float (-74.0060)%float 50%float
  = false /\
  isWithinGeofence refMath 40.7128%float (-74.0060)%float 40.7128%float
    (-74.0060)%float nan = false.
Proof.
  assert (Hnear : (Spec.distanceMeters refMath 40.7130 (-74.0060) 40.7128
                     (-74.0060) <? 50)%float = true)
    by (vm_compute; reflexivity).
  split; [exact Hnear|]. split; [|split; [vm_compute; reflexivity|split]].
  - apply (isWithinGeofence_spec refMath_NaNPropagating). left. exact Hnear.
  - apply not_true_is_false. intros Hin.
    apply (isWithinGeofence_spec refMath_NaNPropagating) in Hin.
    destruct Hin as [H | H]; vm_compute in H; discriminate H.
  - split.
    + apply (isWithinGeofence_spec refMath_NaNPropagating). left. reflexivity.
    + apply (isWithinGeofence_spec refMath_NaNPropagating). do 4 right.
      reflexivity.
Defined.

(** The fixtures of the unit tests, on the reference engine. *)
Example distance_same_point :
  calculateDistance refMath 40.7128%float (-74.0060)%float
                    40.7128%float (-74.0060)%float = 0%float.
Proof. vm_compute. reflexivity. Qed.

Example distance_new_york_los_angeles :
  let d := calculateDistance refMath 40.7128%float (-74.0060)%float
                             34.0522%float (-118.2437)%float in
  (3900000 <? d)%float = true /\ (d <? 4000000)%float = true.
Proof. vm_compute. split; reflexivity. Qed.

Example geofence_tests :
  isWithinGeofence refMath 40.7128%float (-74.0060)%float
                   40.7130%float (-74.0060)%float 50%float = true /\
  isWithinGeofence refMath 40.7128%float (-74.0060)%float
                   40.7150%float (-74.0060)%float 50%float = false /\
  isWithinGeofence refMath 40.7128%float (-74.0060)%float
                   40.7128%float (-74.0064)%float 50%float = true.
Proof. vm_compute. repeat split. Qed.

(* ================================================================== *)
(** * 9. Coupon validity and discounts                                 *)
(* ================================================================== *)

Section QFacts.
Local Open Scope Q_scope.

Lemma Qltb_lt (x y : Q) : Qltb x y = true <-> x < y.
Proof.
  unfold Qltb. rewrite negb_true_iff, <- not_true_iff_false, Qle_bool_iff.
  split; [apply Qnot_le_lt | apply Qlt_not_le].
Qed.

Lemma Qltb_ge (x y : Q) : Qltb x y = false <-> y <= x.
Proof. unfold Qltb. rewrite negb_false_iff. apply Qle_bool_iff. Qed.

Lemma truthyQ_above (x bound : Q) : 0 <= bound -> Qgtb x bound = true ->
  truthyQ x = true.
Proof.
  unfold Qgtb, truthyQ. rewrite Qltb_lt. intros Hb Hlt.
  rewrite negb_true_iff, <- not_true_iff_false, Qeq_bool_iff.
  intros Heq. rewrite Heq in Hlt.
  exact (Qlt_irrefl _ (Qle_lt_trans _ _ _ Hb Hlt)).
Qed.
End QFacts.

Section Discounts.
Import Coupon CouponUtils.
Local Open Scope Q_scope.

(** C9.  [calculateDiscount] by reward type: a percentage coupon gives
    [purchaseAmount * rewardValue / 100], capped at [maxDiscountAmount]
    when that is set (present and not zero, as the code tests it); a
    fixed coupon gives the smaller of [rewardValue] and the purchase;
    buy1get1 gives [purchaseAmount * rewardValue / 100]; free_drink and
    free_item give the smaller of [rewardValue] and the purchase.  A
    10 % coupon capped at 5 gives 5 on a purchase of 100. *)
Theorem calculateDiscount_by_reward_type :
  (forall (c : Coupon.t) (purchaseAmount : Q),
     let discount := calculateDiscount c purchaseAmount in
     let share := purchaseAmount * rewardValue c / 100 in
     match rewardType c with
     | percentage =>
         match maxDiscountAmount c with
         | Some cap => if truthyQ cap then discount == Qmin share cap
                       else discount == share
         | None => discount == share
         end
     | fixed => discount == Qmin (rewardValue c) purchaseAmount
     | buy1get1 => discount == share
     | free_drink => discount == Qmin (rewardValue c) purchaseAmount
     | free_item => discount == Qmin (rewardValue c) purchaseAmount
     end) /\
  (forall c : Coupon.t,
     rewardType c = percentage ->
     rewardValue c = 10 ->
     maxDiscountAmount c = Some 5 ->
     calculateDiscount c 100 == 5).
Proof.
  split.
  - intros c p discount share. subst discount share.
    unfold calculateDiscount.
    destruct (rewardType c); try reflexivity.
    destruct (maxDiscountAmount c) as [cap|]; [|reflexivity].
    destruct (truthyQ cap); simpl; [|reflexivity].
    destruct (Qgtb (p * rewardValue c / 100) cap) eqn:Hgt.
    + apply Qltb_lt in Hgt. symmetry. apply Q.min_r. apply Qlt_le_weak, Hgt.
    + apply Qltb_ge in Hgt. symmetry. apply Q.min_l. exact Hgt.
  - intros c Htype Hvalue Hcap. unfold calculateDiscount.
    rewrite Htype, Hvalue, Hcap. reflexivity.
Qed.

Lemma calculateDiscount_by_reward_type_witness :
  calculateDiscount tenPercentCapFive 100 == 5.
Proof.
  apply (proj2 calculateDiscount_by_reward_type tenPercentCapFive);
    reflexivity.
Defined.
End Discounts.

Section Validity.
Import Coupon.
Local Open Scope Z_scope.

Lemma status_is_true (a b : Status) : status_is a b = true <-> a = b.
Proof.
  unfold status_is. destruct (Status_eq_dec a b); split;
    congruence || discriminate.
Qed.

Lemma status_is_false (a b : Status) : status_is a b = false <-> a <> b.
Proof.
  unfold status_is. destruct (Status_eq_dec a b); split;
    congruence || discriminate.
Qed.

Lemma type_is_true (a b : Type_) : type_is a b = true <-> a = b.
Proof.
  unfold type_is. destruct (Type_eq_dec a b); split;
    congruence || discriminate.
Qed.

Lemma type_is_false (a b : Type_) : type_is a b = false <-> a <> b.
Proof.
  unfold type_is. destruct (Type_eq_dec a b); split;
    congruence || discriminate.
Qed.

(** [isValid] as one conjunction. *)
Lemma isValid_conjunction (c : Coupon.t) (now : Z) :
  isValid c now =
    Spec.activeByFlag c && Spec.withinWindow c now &&
    (negb (type_is (type c) business_) || negb (Spec.usageLimitReached c)) &&
    negb (type_is (type c) review_reward && status_is (status c) redeemed).
Proof.
  unfold isValid, Spec.activeByFlag, Spec.withinWindow, Spec.usageLimitReached.
  destruct (isActive c); simpl; [|reflexivity].
  destruct (status_is (status c) inactive); simpl; [reflexivity|].
  assert (Hfrom : match validFrom c with
                  | Some from => now <? from | None => false end
                  = negb match validFrom c with
                         | Some from => from <=? now | None => true end).
  { destruct (validFrom c); [apply Z.ltb_antisym | reflexivity]. }
  assert (Huntil : match validUntil c with
                   | date until => now >? until | _ => false end
                   = negb match validUntil c with
                          | date until => now <=? until | _ => true end).
  { destruct (validUntil c); try reflexivity.
    rewrite Z.gtb_ltb. apply Z.ltb_antisym. }
  rewrite Hfrom, Huntil.
  destruct (match validFrom c with
            | Some from => from <=? now | None => true end); simpl;
    [|reflexivity].
  destruct (match validUntil c with
            | date until => now <=? until | _ => true end); simpl;
    [|reflexivity].
  assert (Hlimit : match usageLimit c with
                   | Some limit => truthyZ limit && (usageCount c >=? limit)
                   | None => false end
                   = match usageLimit c with
                     | Some limit => truthyZ limit && (limit <=? usageCount c)
                     | None => false end).
  { destruct (usageLimit c); [rewrite Z.geb_leb|]; reflexivity. }
  rewrite Hlimit.
  destruct (type_is (type c) business_); simpl;
    destruct (match usageLimit c with
              | Some limit => truthyZ limit && (limit <=? usageCount c)
              | None => false end); simpl; try reflexivity;
    destruct (type_is (type c) review_reward && status_is (status c) redeemed);
    reflexivity.
Qed.

(** The code and the specification's wording (read with the activation
    flag) agree except on a redeemed coupon that is not a review
    reward. *)
Lemma isValid_asWorded_agree (c : Coupon.t) (now : Z) :
  type c = review_reward \/ status c <> redeemed ->
  isValid c now = Spec.isValid_asWorded c now (Spec.activeByFlag c).
Proof.
  intros H. rewrite isValid_conjunction. unfold Spec.isValid_asWorded.
  f_equal.
  destruct (type_is (type c) review_reward) eqn:Hr;
    destruct (status_is (status c) redeemed) eqn:Hs; try reflexivity.
  apply type_is_false in Hr. apply status_is_true in Hs. tauto.
Qed.

Lemma activeByFlag_true (c : Coupon.t) :
  Spec.activeByFlag c = true <-> isActive c = true /\ status c <> inactive.
Proof.
  unfold Spec.activeByFlag.
  rewrite andb_true_iff, negb_true_iff, status_is_false. tauto.
Qed.

Lemma withinWindow_true (c : Coupon.t) (now : Z) :
  Spec.withinWindow c now = true <->
  (forall from, validFrom c = Some from -> from <= now) /\
  (forall until, validUntil c = date until -> now <= until).
Proof.
  unfold Spec.withinWindow. rewrite andb_true_iff.
  destruct (validFrom c) as [from|]; destruct (validUntil c) as [ | |until];
    rewrite ?Z.leb_le; split.
  all: try (intros [H1 H2]; split; intros x Hx; inversion Hx; subst;
            assumption || lia).
  all: try (intros [H1 H2]; split;
            first [reflexivity | apply H1; reflexivity | apply H2; reflexivity]).
Qed.

Lemma usageLimit_respected (c : Coupon.t) :
  (negb (type_is (type c) business_) || negb (Spec.usageLimitReached c)) = true
  <-> (type c = business_ ->
       forall limit, usageLimit c = Some limit -> limit <> 0 ->
                     usageCount c < limit).
Proof.
  unfold Spec.usageLimitReached, truthyZ.
  destruct (type_is (type c) business_) eqn:Hb; simpl.
  - apply type_is_true in Hb.
    destruct (usageLimit c) as [limit|]; simpl.
    + rewrite negb_true_iff, andb_false_iff, negb_false_iff, Z.eqb_eq,
        Z.leb_gt.
      split.
      * intros H _ l Hl Hne. inversion Hl; subst. lia.
      * intros H. destruct (Z.eq_dec limit 0); [left; assumption|].
        right. apply (H Hb limit eq_refl). assumption.
    + split; [intros _ _ l Hl; discriminate | reflexivity].
  - apply type_is_false in Hb. split; [intros _ H; contradiction | reflexivity].
Qed.

Lemma not_redeemed_reward (c : Coupon.t) :
  negb (type_is (type c) review_reward && status_is (status c) redeemed) = true
  <-> (type c = review_reward -> status c <> redeemed).
Proof.
  rewrite negb_true_iff, andb_false_iff, type_is_false, status_is_false.
  destruct (Type_eq_dec (type c) review_reward); tauto.
Qed.

(** C8 (amended).  [isValid] answers [true] exactly when the coupon is
    active (activation flag set, status not [inactive]), [now] lies in
    [validFrom, validUntil] (a missing bound does not restrict), a
    business-type coupon has not reached its usage limit (a missing or
    zero limit does not restrict), and a review-reward coupon has not
    already been redeemed. *)
Theorem isValid_iff (c : Coupon.t) (now : Z) :
  isValid c now = true <->
    (isActive c = true /\ status c <> inactive) /\
    ((forall from, validFrom c = Some from -> from <= now) /\
     (forall until, validUntil c = date until -> now <= until)) /\
    (type c = business_ ->
     forall limit, usageLimit c = Some limit -> limit <> 0 ->
                   usageCount c < limit) /\
    (type c = review_reward -> status c <> redeemed).
Proof.
  rewrite isValid_conjunction, !andb_true_iff.
  rewrite activeByFlag_true, withinWindow_true, usageLimit_respected,
    not_redeemed_reward.
  tauto.
Qed.

(** The amended statement at the capped review-reward coupon, inside
    its window. *)
Lemma isValid_iff_witness : isValid tenPercentCapFive (noon + 1) = true.
Proof.
  apply (proj2 (isValid_iff tenPercentCapFive (noon + 1))).
  split; [split; [reflexivity | discriminate] | split; [split | split]].
  - intros t H. simpl in H. injection H as <-. lia.
  - intros t H. simpl in H. injection H as <-.
    unfold noon, msPerHour. lia.
  - intros H. discriminate H.
  - intros _. discriminate.
Defined.

(** C8, as stated, fails: once its owner has scanned and redeemed it, a
    coupon of type [business] has status [redeemed] and is still valid
    for the code, whichever way "active" is read. *)
Lemma isValid_redeemed_house_coupon :
  CouponLifecycle.scanAndRedeemCoupon
    (CouponLifecycle.mkScanClock noon noon noon) cafeOwner
    (CouponLifecycle.QrParsed "coupon" (Some 500%nat)) storeWithHouseCoupon
  = (storeWithRedeemedCoupon, CouponLifecycle.ScanRedeemed houseCouponRedeemed) /\
  status houseCouponRedeemed = redeemed /\
  isValid houseCouponRedeemed nextNoon = true /\
  Spec.isValid_asWorded houseCouponRedeemed nextNoon
    (Spec.activeByFlag houseCouponRedeemed) = false /\
  Spec.isValid_asWorded houseCouponRedeemed nextNoon
    (Spec.activeByStatus houseCouponRedeemed) = false.
Proof. repeat split. Qed.

(** "Active" is the activation flag, not the status: a cancelled coupon
    whose flag is set is valid. *)
Example isValid_cancelled_house_coupon :
  status houseCouponCancelled = cancelled /\
  isValid houseCouponCancelled nextNoon = true.
Proof. split; reflexivity. Qed.
End Validity.

(* ================================================================== *)
(** * 10. Coupon lifecycle                                             *)
(* ================================================================== *)

Section ListFacts.
Variables (A : Type) (R : A -> A -> Prop).

Lemma Forall2_same (l : list A) : (forall a, R a a) -> Forall2 R l l.
Proof. intros Hrefl. induction l; constructor; auto. Qed.

Lemma Forall2_trans (l1 l2 l3 : list A) :
  (forall a b c, R a b -> R b c -> R a c) ->
  Forall2 R l1 l2 -> Forall2 R l2 l3 -> Forall2 R l1 l3.
Proof.
  intros Htrans H12. revert l3.
  induction H12; intros l3 H23; inversion H23; subst; constructor; eauto.
Qed.

Lemma Forall2_map_r (f : A -> A) (l : list A) :
  (forall a, R a (f a)) -> Forall2 R l (map f l).
Proof. intros H. induction l; simpl; constructor; auto. Qed.

Lemma Forall2_updateById (idOf : A -> ObjectId) (id : ObjectId)
    (f : A -> A) (l : list A) :
  (forall a, R a a) ->
  (forall a, find (fun a => idOf a =? id) l = Some a -> R a (f a)) ->
  Forall2 R l (updateById idOf id f l).
Proof.
  intros Hrefl. induction l as [|a l IH]; simpl; intros Hf.
  - constructor.
  - destruct (idOf a =? id) eqn:E.
    + constructor; [apply Hf; reflexivity | apply Forall2_same, Hrefl].
    + constructor; [apply Hrefl | apply IH, Hf].
Qed.

Lemma Forall2_nth_error_r (l l' : list A) (i : nat) (a' : A) :
  Forall2 R l l' -> nth_error l' i = Some a' ->
  exists a, nth_error l i = Some a /\ R a a'.
Proof.
  intros H. revert i. induction H; intros [|i] Hi; simpl in *;
    try discriminate.
  - injection Hi as <-. eauto.
  - eauto.
Qed.

Lemma Forall2_nth_error_l (l l' : list A) (i : nat) (a : A) :
  Forall2 R l l' -> nth_error l i = Some a ->
  exists a', nth_error l' i = Some a' /\ R a a'.
Proof.
  intros H. revert i. induction H; intros [|i] Hi; simpl in *;
    try discriminate.
  - injection Hi as <-. eauto.
  - eauto.
Qed.
End ListFacts.

Lemma find_some_id {A : Type} (idOf : A -> ObjectId) (id : ObjectId)
    (l : list A) (a : A) :
  find (fun a => idOf a =? id) l = Some a -> idOf a = id.
Proof.
  intros H. apply find_some in H. destruct H as [_ H].
  apply Nat.eqb_eq. exact H.
Qed.

Section Lifecycle.
Import Coupon CouponLifecycle Spec.

Lemma Evolves_refl (c : Coupon.t) : Evolves c c.
Proof. unfold Evolves, sameRedemption. intuition. Qed.

Lemma Evolves_trans (a b c : Coupon.t) :
  Evolves a b -> Evolves b c -> Evolves a c.
Proof.
  unfold Evolves, sameRedemption.
  intros (Hr1 & He1 & Ha1 & Hs1) (Hr2 & He2 & Ha2 & Hs2).
  split; [|split; [|split]].
  - intros H. destruct (Hr1 H) as (S1 & T1 & U1).
    assert (S1' : status b = redeemed) by congruence.
    destruct (Hr2 S1') as (S2 & T2 & U2). repeat split; congruence.
  - intros H. destruct (He1 H) as (S1 & T1 & U1).
    assert (S1' : status b = expired) by congruence.
    destruct (He2 S1') as (S2 & T2 & U2). repeat split; congruence.
  - auto.
  - intros H. destruct (Hs1 H) as [S1 | [S1 | S1]].
    + auto.
    + destruct (Hr2 S1) as (S2 & _). right; left. congruence.
    + destruct (He2 S1) as (S2 & _). right; right. congruence.
Qed.

Lemma Evolves_set_redeemed (c : Coupon.t) (at_ : Z) (by_ : ObjectId) :
  status c <> redeemed -> status c <> expired ->
  Evolves c (set_redeemed at_ by_ c).
Proof.
  unfold Evolves, sameRedemption. simpl. intros Hr He.
  split; [|split; [|split]]; intros H;
    try contradiction; try discriminate; auto.
Qed.

Lemma Evolves_set_expired (c : Coupon.t) :
  status c <> redeemed -> status c <> expired ->
  Evolves c (set_status expired c).
Proof.
  unfold Evolves, sameRedemption. simpl. intros Hr He.
  split; [|split; [|split]]; intros H;
    try contradiction; try discriminate; auto.
Qed.

Lemma Evolves_inc_redemptionCount (c : Coupon.t) :
  Evolves c (inc_redemptionCount c).
Proof. unfold Evolves, sameRedemption. simpl. intuition. Qed.

Lemma Evolves_inc_usageCount (c : Coupon.t) :
  Evolves c (inc_usageCount c).
Proof. unfold Evolves, sameRedemption. simpl. intuition. Qed.

Lemma Evolves_set_qrCodeData (q : QrData) (c : Coupon.t) :
  Evolves c (set_qrCodeData q c).
Proof. unfold Evolves, sameRedemption. simpl. intuition. Qed.

Lemma isCouponValid_active (c : Coupon.t) (now : Z) :
  CouponUtils.isCouponValid c now = true -> status c = active.
Proof.
  unfold CouponUtils.isCouponValid.
  destruct (status_is (status c) active) eqn:E; simpl; [|discriminate].
  intros _. apply status_is_true, E.
Qed.

Lemma scan_evolves clock requester qr s :
  CouponsEvolve s (fst (scanAndRedeemCoupon clock requester qr s)).
Proof.
  pose proof Evolves_refl as Hrefl.
  unfold CouponsEvolve, scanAndRedeemCoupon, run, scanAndRedeemHandler.
  destruct qr as [ | |ty [couponId|]]; simpl;
    try (apply Forall2_same, Hrefl).
  destruct (negb (ty =? "coupon")%string); simpl;
    [apply Forall2_same, Hrefl|].
  unfold bind, findCoupon, findBusiness, gets, respond, saveCoupon, modify,
    ret.
  destruct (find (fun c => _id c =? couponId) (coupons s)) as [c|] eqn:Hc;
    simpl; [|apply Forall2_same, Hrefl].
  destruct (find (fun b => Business._id b =? business c) (businesses s))
    as [b|]; simpl; [|apply Forall2_same, Hrefl].
  destruct (negb (Business.owner b =? id requester) &&
            negb (is_admin (role requester))); simpl;
    [apply Forall2_same, Hrefl|].
  destruct (status_is (status c) redeemed) eqn:Hr; simpl;
    [apply Forall2_same, Hrefl|].
  apply status_is_false in Hr.
  pose proof (find_some_id _ _ _ Hc) as Hid.
  destruct (status_is (status c) expired) eqn:He; simpl;
    [apply Forall2_same, Hrefl|].
  apply status_is_false in He.
  assert (Hfound : forall f, (forall c, status c <> redeemed ->
                                status c <> expired -> Evolves c (f c)) ->
            Forall2 Evolves (coupons s)
              (updateById _id (_id c) f (coupons s))).
  { intros f Hf. apply Forall2_updateById; [exact Hrefl|].
    intros a Ha. rewrite Hid in Ha. rewrite Hc in Ha.
    injection Ha as <-. apply Hf; assumption. }
  destruct (match validUntil c with
            | date until => (at_expiryCheck clock >? until)%Z
            | _ => false end); simpl.
  { apply Hfound. intros; apply Evolves_set_expired; assumption. }
  destruct (negb (isValid c (at_isValid clock))); simpl;
    [apply Forall2_same, Hrefl|].
  assert (Hredeemed := Hfound (set_redeemed (at_redeemedAt clock) (id requester))
                         (fun c => @Evolves_set_redeemed c _ _)).
  destruct (type_is (type c) review_reward); simpl.
  - match goal with
    | |- context [find ?p (updateById ?i ?j ?f ?l)] =>
        destruct (find p (updateById i j f l)) as [template|]; simpl
    end.
    + destruct (user c); simpl.
      all: eapply Forall2_trans;
        [exact Evolves_trans | exact Hredeemed |].
      all: apply Forall2_updateById; [exact Hrefl|];
        intros; apply Evolves_inc_redemptionCount.
    + destruct (user c); simpl; exact Hredeemed.
  - destruct (user c); simpl; exact Hredeemed.
Qed.

Lemma redeem_evolves clock requester couponId s :
  CouponsEvolve s (fst (redeemCoupon clock requester couponId s)).
Proof.
  pose proof Evolves_refl as Hrefl.
  unfold CouponsEvolve, redeemCoupon, run, redeemHandler, bind, findCoupon,
    findBusiness, gets, respond, saveCoupon, modify, ret.
  destruct (find (fun c => _id c =? couponId) (coupons s)) as [c|] eqn:Hc;
    simpl; [|apply Forall2_same, Hrefl].
  destruct (find (fun b => Business._id b =? business c) (businesses s))
    as [b|]; simpl; [|apply Forall2_same, Hrefl].
  destruct (negb (Business.owner b =? id requester) &&
            negb (is_admin (role requester))); simpl;
    [apply Forall2_same, Hrefl|].
  destruct (CouponUtils.isCouponValid c (at_isCouponValid clock)) eqn:Hv;
    simpl; [|apply Forall2_same, Hrefl].
  apply isCouponValid_active in Hv.
  pose proof (find_some_id _ _ _ Hc) as Hid.
  apply Forall2_updateById; [exact Hrefl|].
  intros a Ha. rewrite Hid, Hc in Ha. injection Ha as <-.
  apply Evolves_set_redeemed; congruence.
Qed.

Lemma expiredQuery_true (now : Z) (c : Coupon.t) :
  expiredQuery now c = true <->
  type c = review_reward /\ status c = active /\
  exists until, validUntil c = date until /\ (until < now)%Z.
Proof.
  unfold expiredQuery.
  rewrite !andb_true_iff, type_is_true, status_is_true.
  destruct (validUntil c) as [ | |until].
  - split; [intros [_ H]; discriminate | intros (_ & _ & u & H & _); discriminate].
  - split; [intros [_ H]; discriminate | intros (_ & _ & u & H & _); discriminate].
  - rewrite Z.ltb_lt. split.
    + intros [[Ht Hs] Hu]. eauto.
    + intros (Ht & Hs & u & Hu & Hlt). injection Hu as <-. auto.
Qed.

Lemma sweep_swept (now : Z) (s : State) :
  Forall2 (Swept now) (coupons s) (coupons (expireCoupons now s)).
Proof.
  unfold expireCoupons.
  destruct (List.length (filter (expiredQuery now) (coupons s)) =? 0).
  - apply Forall2_same. intros c. left. reflexivity.
  - simpl. apply Forall2_map_r. intros c.
    destruct (expiredQuery now c) eqn:E.
    + right. apply expiredQuery_true in E. intuition.
    + left. reflexivity.
Qed.

Lemma Swept_Evolves (now : Z) (c c' : Coupon.t) :
  Swept now c c' -> Evolves c c'.
Proof.
  intros [-> | (_ & Hs & _ & ->)].
  - apply Evolves_refl.
  - apply Evolves_set_expired; congruence.
Qed.

Lemma Evolves_applyUpdate (toUpperCase : string -> string)
    (body : UpdateBody) (c : Coupon.t) :
  upd_status body = None -> upd_redeemedAt body = None ->
  upd_redeemedBy body = None ->
  Evolves c (applyUpdate toUpperCase body c).
Proof.
  intros Hs Hat Hby. unfold Evolves, sameRedemption, applyUpdate. simpl.
  rewrite Hs, Hat, Hby. simpl. intuition.
Qed.

Lemma update_evolves toUpperCase requester couponId body s :
  upd_status body = None -> upd_redeemedAt body = None ->
  upd_redeemedBy body = None ->
  CouponsEvolve s (fst (updateCoupon toUpperCase requester couponId body s)).
Proof.
  intros Hs Hat Hby.
  pose proof Evolves_refl as Hrefl.
  unfold CouponsEvolve, updateCoupon, run, updateCouponHandler, bind,
    findCoupon, findBusiness, gets, respond, modify, ret.
  destruct (find (fun c => _id c =? couponId) (coupons s)) as [c|] eqn:Hc;
    simpl; [|apply Forall2_same, Hrefl].
  destruct (find (fun b => Business._id b =? business c) (businesses s))
    as [b|]; simpl; [|apply Forall2_same, Hrefl].
  destruct (negb (Business.owner b =? id requester) &&
            negb (is_admin (role requester))); simpl;
    [apply Forall2_same, Hrefl|].
  match goal with
  | |- context [match ?e with Some _ => _ | None => _ end] =>
      destruct e; simpl; [apply Forall2_same, Hrefl|]
  end.
  destruct (negb (updateValidates toUpperCase body)); simpl;
    [apply Forall2_same, Hrefl|].
  apply Forall2_updateById; [exact Hrefl|].
  intros a _. apply Evolves_applyUpdate; assumption.
Qed.

Section WithCase.
Variable toUpperCase : string -> string.

Lemma step_evolves (op : Operation) (s : State) :
  keepsRedemption op -> CouponsEvolve s (step toUpperCase op s).
Proof.
  destruct op as [clock requester qr | clock requester couponId | now
                 | requester couponId body]; simpl.
  - intros _. apply scan_evolves.
  - intros _. apply redeem_evolves.
  - intros _. unfold CouponsEvolve.
    eapply Forall2_impl; [|apply sweep_swept]. apply Swept_Evolves.
  - intros (Hs & Hat & Hby). apply update_evolves; assumption.
Qed.

Lemma runAll_evolves (ops : list Operation) (s : State) :
  Forall keepsRedemption ops -> CouponsEvolve s (runAll toUpperCase ops s).
Proof.
  unfold runAll. intros Hops. revert s.
  induction Hops as [|op ops Hop Hops IH]; intros s; simpl.
  - apply Forall2_same, Evolves_refl.
  - eapply Forall2_trans;
      [exact Evolves_trans | apply step_evolves, Hop | apply IH].
Qed.

(** Status histories. *)
Lemma statusAt_not_reactivated (i : nat) (op : Operation) (s : State) :
  keepsRedemption op ->
  statusAt i s <> Some active ->
  statusAt i (step toUpperCase op s) <> Some active.
Proof.
  unfold statusAt. intros Hop Hnot Hact.
  destruct (nth_error (coupons (step toUpperCase op s)) i) as [c'|] eqn:E;
    [|discriminate].
  destruct (Forall2_nth_error_r i (@step_evolves op s Hop) E) as (c & Hc & Hev).
  rewrite Hc in Hnot. simpl in *. injection Hact as Hact.
  destruct Hev as (_ & _ & Ha & _). rewrite (Ha Hact) in Hnot. tauto.
Qed.

Lemma leavesActive_cons (a b : option Status) (rest : list (option Status)) :
  leavesActive (a :: b :: rest) = leaves a b + leavesActive (b :: rest).
Proof. destruct a as [[]|]; destruct b as [[]|]; reflexivity. Qed.

Lemma leavesActive_single (a : option Status) : leavesActive [a] = 0.
Proof. destruct a as [[]|]; reflexivity. Qed.

Lemma statusHistory_head (i : nat) (ops : list Operation) (s : State) :
  exists rest, statusHistory toUpperCase i ops s = statusAt i s :: rest.
Proof. destruct ops; simpl; eauto. Qed.

Lemma leavesActive_never (i : nat) (ops : list Operation) (s : State) :
  Forall keepsRedemption ops ->
  statusAt i s <> Some active ->
  leavesActive (statusHistory toUpperCase i ops s) = 0.
Proof.
  intros Hops. revert s.
  induction Hops as [|op ops Hop Hops IH]; intros s Hnot; cbn [statusHistory].
  - apply leavesActive_single.
  - destruct (statusHistory_head i ops (step toUpperCase op s))
      as (rest & Hrest).
    pose proof (IH (step toUpperCase op s)
                   (@statusAt_not_reactivated i op s Hop Hnot)) as IH'.
    rewrite Hrest in *. rewrite leavesActive_cons, IH'.
    destruct (statusAt i s) as [[]|]; try reflexivity.
    contradiction Hnot; reflexivity.
Qed.

Lemma leavesActive_at_most_once (i : nat) (ops : list Operation) (s : State) :
  Forall keepsRedemption ops ->
  leavesActive (statusHistory toUpperCase i ops s) <= 1.
Proof.
  intros Hops. revert s.
  induction Hops as [|op ops Hop Hops IH]; intros s; cbn [statusHistory].
  - rewrite leavesActive_single. lia.
  - destruct (statusHistory_head i ops (step toUpperCase op s))
      as (rest & Hrest).
    pose proof (IH (step toUpperCase op s)) as IH'.
    pose proof (@leavesActive_never i ops (step toUpperCase op s) Hops)
      as Hnever.
    rewrite Hrest in *. rewrite leavesActive_cons.
    assert (Hcases :
              leaves (statusAt i s) (statusAt i (step toUpperCase op s)) = 0 \/
              statusAt i (step toUpperCase op s) <> Some active).
    { destruct (statusAt i s) as [[]|]; simpl; auto.
      destruct (statusAt i (step toUpperCase op s)) as [[]|]; simpl; auto;
        right; discriminate. }
    destruct Hcases as [H0 | Hnot].
    + rewrite H0. exact IH'.
    + rewrite (Hnever Hnot).
      destruct (statusAt i s) as [[]|];
        destruct (statusAt i (step toUpperCase op s)) as [[]|]; simpl; lia.
Qed.
End WithCase.

(** Redemption attempts on a redeemed or expired coupon, and scans of
    an active coupon past its [validUntil]. *)
Lemma authorized_check (requester : Requester) (b : Business.t) :
  authorized requester b ->
  negb (Business.owner b =? id requester) && negb (is_admin (role requester))
  = false.
Proof.
  intros [H | H].
  - rewrite H, Nat.eqb_refl. reflexivity.
  - rewrite H. simpl. apply andb_false_r.
Qed.

Lemma scan_found clock requester couponId s c b :
  couponById couponId s = Some c ->
  businessById (business c) s = Some b ->
  authorized requester b ->
  (status c = redeemed ->
   scanAndRedeemCoupon clock requester (QrParsed "coupon" (Some couponId)) s
   = (s, AlreadyRedeemed c)) /\
  (status c = expired ->
   scanAndRedeemCoupon clock requester (QrParsed "coupon" (Some couponId)) s
   = (s, CouponExpired c)) /\
  (status c = active ->
   forall until, validUntil c = date until ->
   (until < at_expiryCheck clock)%Z ->
   scanAndRedeemCoupon clock requester (QrParsed "coupon" (Some couponId)) s
   = (set_coupons (updateById _id (_id c) (set_status expired)) s,
      CouponExpired (set_status expired c))).
Proof.
  unfold couponById, businessById.
  intros Hc Hb Hauth.
  unfold scanAndRedeemCoupon, run, scanAndRedeemHandler, bind, findCoupon,
    findBusiness, gets, respond, saveCoupon, modify, ret.
  simpl. rewrite Hc. simpl. rewrite Hb. simpl.
  rewrite (authorized_check Hauth). simpl.
  split; [|split].
  - intros Hs. rewrite Hs. reflexivity.
  - intros Hs. rewrite Hs. reflexivity.
  - intros Hs until Hu Hlt. rewrite Hs, Hu. simpl.
    apply Z.ltb_lt in Hlt. rewrite Z.gtb_ltb, Hlt. reflexivity.
Qed.

Lemma redeem_found clock requester couponId s c b :
  couponById couponId s = Some c ->
  businessById (business c) s = Some b ->
  authorized requester b ->
  status c = redeemed \/ status c = expired ->
  redeemCoupon clock requester couponId s = (s, ExpiredOrAlreadyRedeemed).
Proof.
  unfold couponById, businessById.
  intros Hc Hb Hauth Hs.
  unfold redeemCoupon, run, redeemHandler, bind, findCoupon,
    findBusiness, gets, respond, saveCoupon, modify, ret.
  rewrite Hc. simpl. rewrite Hb. simpl.
  rewrite (authorized_check Hauth). simpl.
  unfold CouponUtils.isCouponValid.
  destruct Hs as [Hs | Hs]; rewrite Hs; reflexivity.
Qed.

(** C4 (amended).  Under scans, redemptions, sweeps and the edits of
    [updateCoupon] whose body has no [status], [redeemedAt] or
    [redeemedBy], in any number and order: every coupon evolves lawfully
    (a redeemed or an expired coupon keeps its status and redemption
    record, no coupon returns to active, an active coupon stays active
    or becomes redeemed or expired), so a coupon leaves the active
    status at most once; the sweep changes only active review-reward
    coupons whose [validUntil] is past, to expired; an authorized
    attempt to redeem a redeemed or expired coupon is answered with the
    matching error and leaves the store as it was; and a scan of an
    active coupon past its [validUntil] marks it expired. *)
Theorem coupon_lifecycle (toUpperCase : string -> string) :
  (forall ops s, Forall keepsRedemption ops ->
     CouponsEvolve s (runAll toUpperCase ops s)) /\
  (forall i ops s, Forall keepsRedemption ops ->
     leavesActive (statusHistory toUpperCase i ops s) <= 1) /\
  (forall now s,
     Forall2 (Swept now) (coupons s) (coupons (expireCoupons now s))) /\
  (forall clock rclock requester couponId s c b,
     couponById couponId s = Some c ->
     businessById (business c) s = Some b ->
     authorized requester b ->
     (status c = redeemed ->
      scanAndRedeemCoupon clock requester
        (QrParsed "coupon" (Some couponId)) s = (s, AlreadyRedeemed c)) /\
     (status c = expired ->
      scanAndRedeemCoupon clock requester
        (QrParsed "coupon" (Some couponId)) s = (s, CouponExpired c)) /\
     (status c = redeemed \/ status c = expired ->
      redeemCoupon rclock requester couponId s
      = (s, ExpiredOrAlreadyRedeemed)) /\
     (status c = active ->
      forall until, validUntil c = date until ->
      (until < at_expiryCheck clock)%Z ->
      scanAndRedeemCoupon clock requester
        (QrParsed "coupon" (Some couponId)) s
      = (set_coupons (updateById _id (_id c) (set_status expired)) s,
         CouponExpired (set_status expired c)))).
Proof.
  split; [exact (@runAll_evolves toUpperCase)|].
  split; [exact (@leavesActive_at_most_once toUpperCase)|].
  split; [exact sweep_swept|].
  intros clock rclock requester couponId s c b Hc Hb Hauth.
  destruct (scan_found clock couponId s Hc Hb Hauth) as (H1 & H2 & H3).
  split; [exact H1|]. split; [exact H2|]. split; [|exact H3].
  eapply redeem_found; eassumption.
Qed.

(** The owner edits the description of the house coupon and scans it
    twice; the owner scans the redeemed house coupon again, and a stale
    reward coupon. *)
Lemma coupon_lifecycle_witness :
  Forall keepsRedemption editThenScan /\
  CouponsEvolve storeWithHouseCoupon
    (runAll MoreExamples.asciiUpper editThenScan storeWithHouseCoupon) /\
  leavesActive
    (statusHistory MoreExamples.asciiUpper 0 editThenScan storeWithHouseCoupon)
  <= 1 /\
  scanAndRedeemCoupon (mkScanClock nextNoon nextNoon nextNoon) cafeOwner
    (QrParsed "coupon" (Some 500)) storeWithRedeemedCoupon
  = (storeWithRedeemedCoupon, AlreadyRedeemed houseCouponRedeemed) /\
  scanAndRedeemCoupon (mkScanClock nextNoon nextNoon nextNoon) cafeOwner
    (QrParsed "coupon" (Some 2002)) storeWithStaleReward
  = (set_coupons (updateById _id 2002 (set_status expired))
                 storeWithStaleReward,
     CouponExpired (set_status expired staleReward)).
Proof.
  assert (Hops : Forall keepsRedemption editThenScan).
  { repeat constructor. }
  destruct (coupon_lifecycle MoreExamples.asciiUpper)
    as (Hevolve & Honce & _ & H).
  split; [exact Hops|].
  split; [exact (Hevolve editThenScan storeWithHouseCoupon Hops)|].
  split; [exact (Honce 0 editThenScan storeWithHouseCoupon Hops)|].
  split.
  - refine (proj1 (H (mkScanClock nextNoon nextNoon nextNoon)
                     (mkRedeemClock nextNoon nextNoon) cafeOwner 500
                     storeWithRedeemedCoupon houseCouponRedeemed cafe
                     eq_refl eq_refl (or_introl eq_refl)) eq_refl).
  - refine (proj2 (proj2 (proj2
             (H (mkScanClock nextNoon nextNoon nextNoon)
                (mkRedeemClock nextNoon nextNoon) cafeOwner 2002
                storeWithStaleReward staleReward cafe
                eq_refl eq_refl (or_introl eq_refl)))) eq_refl noon eq_refl _).
    unfold nextNoon, noon, JsDate.msPerDay. simpl. lia.
Defined.

(** C4 as stated fails: the owner scans and redeems the house coupon,
    writes [status: 'active'] into it with [updateCoupon], and scans it
    again.  The coupon leaves the active status twice, and the edit
    takes a redeemed coupon back to active. *)
Lemma update_reactivates_redeemed_coupon :
  statusHistory MoreExamples.asciiUpper 0 scanReactivateScan
    storeWithHouseCoupon
  = [Some active; Some redeemed; Some active; Some redeemed] /\
  leavesActive
    (statusHistory MoreExamples.asciiUpper 0 scanReactivateScan
       storeWithHouseCoupon) = 2 /\
  ~ leavesActive
      (statusHistory MoreExamples.asciiUpper 0 scanReactivateScan
         storeWithHouseCoupon) <= 1 /\
  ~ CouponsEvolve storeWithRedeemedCoupon
      (runAll MoreExamples.asciiUpper
         [Update cafeOwner 500 backToActive] storeWithRedeemedCoupon).
Proof.
  assert (H : statusHistory MoreExamples.asciiUpper 0 scanReactivateScan
                storeWithHouseCoupon
              = [Some active; Some redeemed; Some active; Some redeemed]).
  { vm_compute. reflexivity. }
  split; [exact H|]. rewrite H.
  split; [reflexivity|]. split; [simpl; lia|].
  intros Hev. vm_compute in Hev. inversion Hev as [|c c' l l' Hc _]; subst.
  destruct Hc as (_ & _ & Hact & _). simpl in Hact.
  specialize (Hact eq_refl). discriminate Hact.
Qed.
End Lifecycle.

(* ================================================================== *)
(** * 11. The review flow, stage by stage                              *)
(* ================================================================== *)

Section Recorder.
Import Spec.

Lemma record_nil (s : State) : record [] s = s.
Proof. destruct s; reflexivity. Qed.

Lemma record_app (es1 es2 : list LogEntry) (s : State) :
  record es2 (record es1 s) = record (es1 ++ es2) s.
Proof.
  unfold record, set_log; simpl. f_equal. symmetry. apply fold_left_app.
Qed.

Lemma record_reviews es s : reviews (record es s) = reviews s.
Proof. reflexivity. Qed.

Lemma forEach_log (R A : Type) (user : ObjectId) (event : A -> EventType)
    (meta : A -> Metadata) (xs : list A) (s : State) :
  forEach xs (fun x => logSuspiciousBehavior (Response := R) user (event x) (meta x)) s
  = (record (map (fun x => mkEntry user (event x) (meta x)) xs) s, inl tt).
Proof.
  revert s. induction xs as [|x xs IH]; intros s; simpl.
  - rewrite record_nil. reflexivity.
  - unfold bind at 1. unfold logSuspiciousBehavior at 1, modify.
    rewrite IH.
    change (set_log (pushEntry (mkEntry user (event x) (meta x))) s)
      with (record [mkEntry user (event x) (meta x)] s).
    rewrite record_app. reflexivity.
Qed.
End Recorder.

Section SecurityValidation.
Import Spec.
Variable tz : TimeZone.
Variable clock : Clock.
Variable req : Request.t.

Lemma gpsAccuracyCheck_result (s : State) :
  gpsAccuracyCheck req s =
  match poorAccuracy req with
  | Some a =>
      (record [mkEntry (Request.user_id req) POOR_GPS_ACCURACY
                 (AccuracyMeta (Request.business req) a)] s,
       inr (GpsAccuracyTooLow a))
  | None => (s, inl tt)
  end.
Proof.
  unfold gpsAccuracyCheck, poorAccuracy.
  destruct (Request.locationAccuracy req) as [a|]; [|reflexivity].
  destruct (Qgtb a 50) eqn:E.
  - rewrite (@truthyQ_above a 50%Q); [reflexivity | discriminate | exact E].
  - rewrite andb_false_r. reflexivity.
Qed.

Lemma verificationTimeCheck_result (s : State) :
  verificationTimeCheck req s = (record (verificationTimeEntries req) s, inl tt).
Proof.
  unfold verificationTimeCheck, verificationTimeEntries.
  destruct (Request.verificationTime req) as [v|];
    [destruct (Qeq_bool v 30)|]; simpl;
    rewrite ?record_nil; reflexivity.
Qed.

Lemma mockLocationCheck_result (s : State) :
  mockLocationCheck req s =
  if mockLocation req
  then (record [mkEntry (Request.user_id req) MOCK_LOCATION_DETECTED
                  (MockLocationMeta (Request.business req)
                                    (Request.devicePlatform req))] s,
        inr MockLocationDetected)
  else (s, inl tt).
Proof.
  unfold mockLocationCheck, mockLocation.
  destruct (Request.isMockLocation req) as [[|]|]; reflexivity.
Qed.

Lemma locationHistoryCheck_result (s : State) :
  locationHistoryCheck req s = (record (locationHistoryEntries req) s, inl tt).
Proof.
  unfold locationHistoryCheck, locationHistoryEntries.
  destruct (Request.locationHistoryCount req) as [n|];
    [destruct (Qltb n 5)|]; simpl;
    rewrite ?record_nil; reflexivity.
Qed.

Lemma suspiciousActivitiesCheck_result (s : State) :
  suspiciousActivitiesCheck req s =
  (record (anomalyEntries req) s,
   if manyAnomalies req then inr MultipleSecurityConcerns else inl tt).
Proof.
  unfold suspiciousActivitiesCheck, anomalyEntries, manyAnomalies, anomalies.
  destruct (Request.suspiciousActivities req) as [l|]; simpl;
    [|rewrite record_nil; reflexivity].
  destruct l as [|a l]; [simpl; rewrite record_nil; reflexivity|].
  change (0 <? List.length (a :: l)) with true. cbv iota.
  unfold bind. rewrite forEach_log.
  match goal with
  | |- context [if ?b then respond _ else _] => destruct b
  end; reflexivity.
Qed.

Lemma deviceFingerprintCheck_result (s : State) :
  deviceFingerprintCheck tz clock req s
  = (record (deviceEntries tz clock req s) s, inl tt).
Proof.
  unfold deviceFingerprintCheck, deviceEntries, sameDeviceToday.
  destruct (Request.deviceFingerprint req) as [d|];
    [|rewrite record_nil; reflexivity].
  unfold bind, gets.
  match goal with |- context [3 <=? ?n] => destruct (3 <=? n) end;
    simpl; rewrite ?record_nil; reflexivity.
Qed.

(** The security validation as a whole: which response it gives and
    which entries it records, in which order. *)
Lemma securityValidation_result (s : State) :
  securityValidation tz clock req s =
  match poorAccuracy req with
  | Some a =>
      (record [mkEntry (Request.user_id req) POOR_GPS_ACCURACY
                 (AccuracyMeta (Request.business req) a)] s,
       inr (GpsAccuracyTooLow a))
  | None =>
      if mockLocation req then
        (record (verificationTimeEntries req ++
                 [mkEntry (Request.user_id req) MOCK_LOCATION_DETECTED
                    (MockLocationMeta (Request.business req)
                                      (Request.devicePlatform req))]) s,
         inr MockLocationDetected)
      else if manyAnomalies req then
        (record (verificationTimeEntries req ++ locationHistoryEntries req ++
                 anomalyEntries req) s,
         inr MultipleSecurityConcerns)
      else
        (record (advisoryEntries tz clock req s) s, inl tt)
  end.
Proof.
  unfold securityValidation, advisoryEntries.
  unfold bind at 1. rewrite gpsAccuracyCheck_result.
  destruct (poorAccuracy req) as [a|]; [reflexivity|].
  unfold bind at 1. rewrite verificationTimeCheck_result.
  unfold bind at 1. rewrite mockLocationCheck_result.
  destruct (mockLocation req); [rewrite record_app; reflexivity|].
  unfold bind at 1. rewrite locationHistoryCheck_result, record_app.
  unfold bind at 1. rewrite suspiciousActivitiesCheck_result, record_app.
  rewrite <- app_assoc.
  destruct (manyAnomalies req); [reflexivity|].
  rewrite deviceFingerprintCheck_result, record_app.
  rewrite <- !app_assoc. reflexivity.
Qed.
End SecurityValidation.

Section ReviewFlow.
Import Spec.
Variable M : MathEngine.
Variable tz : TimeZone.
Variable clock : Clock.
Variable couponCode : string.
Variable req : Request.t.

Lemma business_status_is_true (a b : Business.Status) :
  Business.status_is a b = true <-> a = b.
Proof.
  unfold Business.status_is. destruct (Business.Status_eq_dec a b); split;
    congruence || discriminate.
Qed.

(** The checks before the security validation, outcome by outcome. *)
Lemma guardChecks_result (s : State) :
  guardChecks M tz clock req s =
  match find (fun b => Business._id b =? Request.business req) (businesses s) with
  | None => (s, inr BusinessNotFound)
  | Some b =>
      if negb (Business.status_is (Business.status b) Business.active)
      then (s, inr BusinessNotActive)
      else if 5 <=? reviewsToday tz clock req s
      then (record [mkEntry (Request.user_id req) RATE_LIMIT_EXCEEDED
                      (RateLimitMeta (reviewsToday tz clock req s)
                                     (Request.business req))] s,
            inr ReviewLimitReached)
      else
        match find (reviewedToday tz clock req) (reviews s) with
        | Some _ => (s, inr AlreadyReviewedToday)
        | None =>
            if isWithinGeofence M (Request.latitude req) (Request.longitude req)
                 (Business.latitude b) (Business.longitude b) (Business.radius b)
            then (s, inl (b, distanceTo M req b))
            else (record [mkEntry (Request.user_id req) GEOFENCE_VIOLATION
                            (GeofenceMeta (Request.business req)
                               (distanceTo M req b) (Business.radius b))] s,
                  inr (OutsideGeofence (Business.radius b) (distanceTo M req b)))
        end
  end.
Proof.
  unfold guardChecks, loadBusiness, rateLimitCheck, duplicateCheck,
    geofenceCheck, bind, gets, respond, ret, reviewsToday, reviewedToday,
    distanceTo.
  destruct (find _ (businesses s)) as [b|]; [|reflexivity].
  destruct (negb (Business.status_is (Business.status b) Business.active));
    [reflexivity|].
  match goal with |- context [5 <=? ?n] => destruct (5 <=? n) end;
    [reflexivity|].
  destruct (find _ (reviews s)); [reflexivity|].
  destruct (isWithinGeofence _ _ _ _ _ _); reflexivity.
Qed.

Lemma guardChecks_pass (s : State) (b : Business.t) :
  PassesGuards M tz clock req s b ->
  guardChecks M tz clock req s = (s, inl (b, distanceTo M req b)).
Proof.
  intros (Hb & Hactive & Hrate & Hdup & Hgeo).
  rewrite guardChecks_result, Hb, Hactive, Hdup, Hgeo.
  apply Nat.leb_gt in Hrate. rewrite Hrate. reflexivity.
Qed.

Lemma guardChecks_continue (s s1 : State) (x : Business.t * float) :
  guardChecks M tz clock req s = (s1, inl x) ->
  s1 = s /\ PassesGuards M tz clock req s (fst x) /\
  snd x = distanceTo M req (fst x).
Proof.
  rewrite guardChecks_result. unfold PassesGuards.
  destruct (find _ (businesses s)) as [b|]; [|discriminate].
  destruct (Business.status_is (Business.status b) Business.active) eqn:Ha;
    cbn [negb]; [|discriminate].
  destruct (5 <=? reviewsToday tz clock req s) eqn:Hr; [discriminate|].
  destruct (find _ (reviews s)); [discriminate|].
  destruct (isWithinGeofence _ _ _ _ _ _) eqn:Hg; [|discriminate].
  intros H. injection H as <- <-. simpl.
  apply business_status_is_true in Ha. apply Nat.leb_gt in Hr.
  repeat split; auto.
Qed.

Lemma guardChecks_respond (s s1 : State) (r : Response) :
  guardChecks M tz clock req s = (s1, inr r) ->
  reviews s1 = reviews s /\ businesses s1 = businesses s /\
  coupons s1 = coupons s /\ stored r = false.
Proof.
  rewrite guardChecks_result.
  destruct (find _ (businesses s)) as [b|].
  2:{ intros H; injection H as <- <-; auto. }
  destruct (negb _).
  { intros H; injection H as <- <-; auto. }
  destruct (5 <=? _).
  { intros H; injection H as <- <-; auto. }
  destruct (find _ (reviews s)).
  { intros H; injection H as <- <-; auto. }
  destruct (isWithinGeofence _ _ _ _ _ _); [discriminate|].
  intros H; injection H as <- <-; auto.
Qed.

(** What [acceptReview] leaves in the store and answers. *)
Lemma acceptReview_result (b : Business.t) (d : float) (s : State) :
  let id := nextId s in
  let review := newReview clock req id b d in
  let rs := reviews s ++ [review] in
  let ofBusiness :=
    filter (fun r => Review.business r =? Request.business req) rs in
  let bs := updateById Business._id (Request.business req)
              (Business.set_rating (averageRating ofBusiness)
                                   (List.length ofBusiness))
              (businesses s) in
  let cid := S id in
  let coupon :=
    Coupon.set_qrCodeData
      (Coupon.mkQr "coupon" cid couponCode (Request.business req)
                   (Request.user_id req) id)
      (newCoupon tz clock couponCode req cid review (templateOf req s)) in
  run (acceptReview tz clock couponCode req b d) s =
  if negb (reviewValidates req) then (s, Failed ReviewValidationError)
  else if negb (Review.validPoint (Request.longitude req, Request.latitude req))
  then (s, Failed ReviewGeoKeysError)
  else if negb (Business.validAverage (averageRating ofBusiness)) then
    (mkState rs (businesses s) (coupons s) (suspiciousActivityLog s)
             (pushed s) (S id),
     Failed BusinessValidationError)
  else if limitReached req s then
    (mkState rs bs (coupons s) (suspiciousActivityLog s) (pushed s) (S id),
     ReviewPostedLimitReached review)
  else if negb (couponValidates coupon) then
    (mkState rs bs (coupons s) (suspiciousActivityLog s) (pushed s) (S cid),
     Failed CouponValidationError)
  else if codeTaken couponCode (coupons s) then
    (mkState rs bs (coupons s) (suspiciousActivityLog s) (pushed s) (S cid),
     Failed CouponDuplicateKeyError)
  else
    (mkState (updateById Review._id id (Review.set_coupon cid) rs) bs
       (match templateOf req s with
        | Some template =>
            updateById Coupon._id (Coupon._id template) Coupon.inc_usageCount
                       (coupons s ++ [coupon])
        | None => coupons s ++ [coupon]
        end)
       (suspiciousActivityLog s)
       (pushed s ++ [mkNotification (Request.user_id req) "Coupon Earned! 🎉";
                     mkNotification (Business.owner b) "New Review"])
       (S cid),
     ReviewPosted (Review.set_coupon cid review) coupon).
Proof.
  cbv zeta.
  unfold run, acceptReview, persistReview, updateBusinessRating, rewardReview,
    bind, fresh, modify, gets, ret, respond, limitReached, templateOf,
    redeemedRewards.
  destruct (negb (reviewValidates req)); [reflexivity|].
  destruct (negb (Review.validPoint _)); [reflexivity|].
  simpl.
  destruct (negb (Business.validAverage _)); [reflexivity|].
  simpl.
  assert (Hmint : forall template,
            (let coupon := newCoupon tz clock couponCode req (S (nextId s))
                             (newReview clock req (nextId s) b d) template in
             couponValidates
               (Coupon.set_qrCodeData
                  (Coupon.mkQr "coupon" (S (nextId s)) couponCode
                     (Request.business req) (Request.user_id req) (nextId s))
                  coupon)
             = couponValidates coupon)) by reflexivity.
  destruct (find _ (coupons s)) as [template|].
  2:{ simpl. rewrite Hmint.
      destruct (negb (couponValidates _)); [reflexivity|].
      destruct (codeTaken couponCode (coupons s)); reflexivity. }
  destruct (Coupon.redemptionLimit template) as [limit|]; simpl.
  2:{ rewrite Hmint.
      destruct (negb (couponValidates _)); [reflexivity|].
      destruct (codeTaken couponCode (coupons s)); reflexivity. }
  match goal with |- context [(?a >=? limit)%Z] => destruct (a >=? limit)%Z end;
    [reflexivity|].
  simpl. rewrite Hmint.
  destruct (negb (couponValidates _)); [reflexivity|].
  destruct (codeTaken couponCode (coupons s)); reflexivity.
Qed.

Lemma createReview_result (s : State) :
  createReview M tz clock couponCode req s =
  match guardChecks M tz clock req s with
  | (s1, inr r) => (s1, r)
  | (s1, inl checked) =>
      match securityValidation tz clock req s1 with
      | (s2, inr r) => (s2, r)
      | (s2, inl _) =>
          run (acceptReview tz clock couponCode req (fst checked) (snd checked)) s2
      end
  end.
Proof.
  unfold createReview, createReviewHandler, run, bind.
  destruct (guardChecks M tz clock req s) as [s1 [checked|r]]; [|reflexivity].
  destruct (securityValidation tz clock req s1) as [s2 [[]|r]]; reflexivity.
Qed.

Lemma createReview_accepted (s : State) (b : Business.t) :
  Accepted M tz clock req s b ->
  createReview M tz clock couponCode req s =
  run (acceptReview tz clock couponCode req b (distanceTo M req b))
      (record (advisoryEntries tz clock req s) s).
Proof.
  intros (Hpass & Hacc & Hmock & Hmany).
  rewrite createReview_result, (guardChecks_pass Hpass).
  rewrite securityValidation_result, Hacc, Hmock, Hmany. reflexivity.
Qed.

(** A response sent before the review is stored leaves the collections
    as they were. *)
Lemma createReview_rejected (s : State) :
  stored (snd (createReview M tz clock couponCode req s)) = false ->
  reviews (fst (createReview M tz clock couponCode req s)) = reviews s /\
  businesses (fst (createReview M tz clock couponCode req s)) = businesses s /\
  coupons (fst (createReview M tz clock couponCode req s)) = coupons s.
Proof.
  rewrite createReview_result.
  destruct (guardChecks M tz clock req s) as [s1 [checked|r]] eqn:Hg.
  - apply guardChecks_continue in Hg. destruct Hg as (-> & _ & _).
    rewrite securityValidation_result.
    destruct (poorAccuracy req); [auto|].
    destruct (mockLocation req); [auto|].
    destruct (manyAnomalies req); [auto|].
    rewrite acceptReview_result.
    destruct (negb (reviewValidates req)); [auto|].
    destruct (negb (Review.validPoint _)); [auto|].
    destruct (negb (Business.validAverage _)); [simpl; discriminate|].
    destruct (limitReached req _); [simpl; discriminate|].
    destruct (negb (couponValidates _)); [simpl; discriminate|].
    destruct (codeTaken _ _); simpl; discriminate.
  - apply guardChecks_respond in Hg. simpl. tauto.
Qed.
End ReviewFlow.

Section UpdateFacts.
Variables (A : Type) (idOf : A -> ObjectId).

Lemma updateById_length (id : ObjectId) (f : A -> A) (l : list A) :
  List.length (updateById idOf id f l) = List.length l.
Proof.
  induction l as [|a l IH]; simpl; [reflexivity|].
  destruct (idOf a =? id); simpl; congruence.
Qed.

(** The document appended last survives an update by id, up to [f]. *)
Lemma updateById_last (P : A -> Prop) (id : ObjectId) (f : A -> A)
    (l : list A) (x : A) :
  (forall a, P a -> P (f a)) -> P x ->
  exists r, In r (updateById idOf id f (l ++ [x])) /\ P r.
Proof.
  intros Hf Hx. induction l as [|a l IH]; simpl.
  - destruct (idOf x =? id); eexists; split; try (left; reflexivity); auto.
  - destruct (idOf a =? id).
    + exists x. split; [right; apply in_or_app; right; left; reflexivity | exact Hx].
    + destruct IH as (r & Hin & Hr). exists r. split; [right|]; assumption.
Qed.

Lemma updateById_app_l (id : ObjectId) (f : A -> A) (l l' : list A) (a : A) :
  In a l -> idOf a = id ->
  updateById idOf id f (l ++ l') = updateById idOf id f l ++ l'.
Proof.
  intros Hin Hid. induction l as [|x l IH]; [contradiction|]. simpl.
  destruct (idOf x =? id) eqn:E; [reflexivity|].
  destruct Hin as [-> | Hin].
  - rewrite Hid, Nat.eqb_refl in E. discriminate.
  - rewrite IH by assumption. reflexivity.
Qed.

Lemma map_updateById (B : Type) (g : A -> B) (id : ObjectId) (f : A -> A)
    (l : list A) :
  (forall a, g (f a) = g a) -> map g (updateById idOf id f l) = map g l.
Proof.
  intros Hg. induction l as [|a l IH]; simpl; [reflexivity|].
  destruct (idOf a =? id); simpl; congruence.
Qed.

Lemma filter_updateById (B : Type) (g : A -> B) (p : A -> bool)
    (id : ObjectId) (f : A -> A) (l : list A) :
  (forall a, g (f a) = g a) -> (forall a, p (f a) = p a) ->
  map g (filter p (updateById idOf id f l)) = map g (filter p l).
Proof.
  intros Hg Hp. induction l as [|a l IH]; simpl; [reflexivity|].
  destruct (idOf a =? id); simpl.
  - rewrite Hp. destruct (p a); simpl; congruence.
  - destruct (p a); simpl; congruence.
Qed.

Lemma find_updateById (id : ObjectId) (f : A -> A) (l : list A) (a : A) :
  (forall a, idOf (f a) = idOf a) ->
  find (fun a => idOf a =? id) l = Some a ->
  find (fun a => idOf a =? id) (updateById idOf id f l) = Some (f a).
Proof.
  intros Hf. induction l as [|x l IH]; simpl; [discriminate|].
  destruct (idOf x =? id) eqn:E; simpl.
  - intros H; injection H as <-. rewrite Hf, E. reflexivity.
  - rewrite E. exact IH.
Qed.

Lemma find_exists (p : A -> bool) (l : list A) (a : A) :
  In a l -> p a = true -> exists x, find p l = Some x.
Proof.
  intros Hin Hp. destruct (find p l) eqn:E; [eauto|].
  rewrite (find_none p l E a Hin) in Hp. discriminate.
Qed.
End UpdateFacts.

(* ================================================================== *)
(** * 12. Security validation                                          *)
(* ================================================================== *)

Ltac negb_hyps :=
  repeat match goal with
         | H : negb _ = true |- _ => apply negb_true_iff in H
         | H : negb _ = false |- _ => apply negb_false_iff in H
         end.

(** The outcomes of [acceptReview], case by case. *)
Ltac accept_cases :=
  rewrite acceptReview_result; cbv zeta;
  destruct (negb (reviewValidates _)) eqn:Hvalidates;
  [|destruct (negb (Review.validPoint _)) eqn:Hpoint;
    [|destruct (negb (Business.validAverage _)) eqn:Haverage;
      [|destruct (Spec.limitReached _ _) eqn:Hlimit;
        [|destruct (negb (couponValidates _)) eqn:Hcoupon;
          [|destruct (codeTaken _ _) eqn:Htaken]]]]];
  negb_hyps.

Section FraudRules.
Import Spec.
Variable M : MathEngine.
Variable tz : TimeZone.
Variable clock : Clock.
Variable couponCode : string.
Variable req : Request.t.

Lemma poorAccuracy_some (a : Q) :
  poorAccuracy req = Some a <->
  Request.locationAccuracy req = Some a /\ (50 < a)%Q.
Proof.
  unfold poorAccuracy.
  destruct (Request.locationAccuracy req) as [x|].
  - destruct (Qgtb x 50) eqn:E; unfold Qgtb in E.
    + apply Qltb_lt in E. split.
      * intros H; injection H as <-. auto.
      * intros [H _]. exact H.
    + apply Qltb_ge in E. split; [discriminate|].
      intros [H Hlt]. injection H as ->.
      exfalso. exact (Qlt_irrefl _ (Qlt_le_trans _ _ _ Hlt E)).
  - split; [discriminate | intros [H _]; discriminate].
Qed.

(** The collections' conditions, as the handler tests them. *)
Lemma Persists_iff :
  Persists req <->
  reviewValidates req = true /\
  Review.validPoint (Request.longitude req, Request.latitude req) = true.
Proof. unfold Persists, reviewValidates. rewrite !andb_true_iff. tauto. Qed.

Lemma Persists_dec : Persists req \/ ~ Persists req.
Proof.
  rewrite Persists_iff.
  destruct (reviewValidates req); [|right; intros [H _]; discriminate].
  destruct (Review.validPoint _); [left; auto | right; intros [_ H]; discriminate].
Qed.

Lemma fold_left_sum (rs : list Review.t) (acc : float) :
  fold_left (fun sum r => sum + Review.rating r)%float rs acc
  = fold_left PrimFloat.add (map Review.rating rs) acc.
Proof. revert acc. induction rs as [|r rs IH]; intros acc; simpl; auto. Qed.

Lemma averageRating_mean (rs : list Review.t) :
  averageRating rs = mean (map Review.rating rs).
Proof.
  unfold averageRating, mean. rewrite fold_left_sum, length_map. reflexivity.
Qed.

Lemma ratings_with_review (s : State) (review : Review.t) :
  Review.business review = Request.business req ->
  Review.rating review = Request.rating req ->
  map Review.rating
      (filter (fun r => Review.business r =? Request.business req)
              (reviews s ++ [review]))
  = ratingsWithReview req s.
Proof.
  intros Hb Hr. unfold ratingsWithReview, ratingsOfBusiness.
  rewrite filter_app, map_app. simpl. rewrite Hb, Nat.eqb_refl. simpl.
  rewrite Hr. f_equal. f_equal. apply filter_ext.
  intros r. rewrite andb_true_r. reflexivity.
Qed.

Lemma Aggregates_iff (s : State) (id : ObjectId) (b : Business.t) (d : float) :
  Aggregates req s <->
  Business.validAverage
    (averageRating
       (filter (fun r => Review.business r =? Request.business req)
               (reviews s ++ [newReview clock req id b d]))) = true.
Proof.
  unfold Aggregates.
  rewrite averageRating_mean, ratings_with_review by reflexivity. tauto.
Qed.

Lemma codeTaken_false (code : string) (cs : list Coupon.t) :
  codeTaken code cs = false <->
  forall c, In c cs -> Coupon.code c <> code.
Proof.
  unfold codeTaken. split.
  - intros H c Hin Heq.
    assert (Ht : existsb (fun c => String.eqb (Coupon.code c) code) cs = true).
    { apply existsb_exists. exists c. split; [exact Hin|].
      apply String.eqb_eq. exact Heq. }
    congruence.
  - intros H. apply not_true_is_false. intros Ht.
    apply existsb_exists in Ht. destruct Ht as (c & Hin & Heq).
    apply String.eqb_eq in Heq. exact (H c Hin Heq).
Qed.

Lemma Mints_iff (s : State) (id : ObjectId) (review : Review.t) :
  Mints req s couponCode <->
  couponValidates
    (newCoupon tz clock couponCode req id review (templateOf req s)) = true /\
  codeTaken couponCode (coupons s) = false.
Proof.
  unfold Mints, couponValidates, rewardDescription.
  rewrite codeTaken_false, andb_true_iff, negb_true_iff. simpl.
  rewrite Nat.leb_le.
  assert (Hcode : couponCode <> EmptyString <->
                  String.eqb couponCode "" = false).
  { rewrite <- String.eqb_neq. tauto. }
  tauto.
Qed.

(** A review of the request is stored once the submission is accepted
    and the collection takes it; it is not stored otherwise. *)
Lemma accepted_review_stored (s : State) (b : Business.t) :
  Accepted M tz clock req s b ->
  let result := createReview M tz clock couponCode req s in
  suspiciousActivityLog (fst result)
  = suspiciousActivityLog (record (advisoryEntries tz clock req s) s) /\
  (Persists req ->
     stored (snd result) = true /\
     (exists r, In r (reviews (fst result)) /\ persistedFor req r) /\
     List.length (reviews (fst result)) = S (List.length (reviews s))) /\
  (~ Persists req ->
     (snd result = Failed ReviewValidationError \/
      snd result = Failed ReviewGeoKeysError) /\
     reviews (fst result) = reviews s).
Proof.
  intros Hacc. cbv zeta.
  rewrite (createReview_accepted couponCode Hacc).
  set (s1 := record (advisoryEntries tz clock req s) s).
  set (review := newReview clock req (nextId s1) b (distanceTo M req b)).
  assert (Hp : persistedFor req review) by (repeat split).
  assert (Hin : In review (reviews s1 ++ [review]))
    by (apply in_or_app; right; left; reflexivity).
  assert (Hlen : List.length (reviews s1 ++ [review])
                 = S (List.length (reviews s)))
    by (rewrite length_app; simpl; lia).
  rewrite Persists_iff.
  accept_cases; simpl; (split; [reflexivity|]).
  1,2: split; [intros [H1 H2]; congruence | intros _; auto].
  1-4: split; [intros _; split; [reflexivity|]; split; eauto
              | intros H; exfalso; apply H; auto].
  split; [intros _; split; [reflexivity|]
         | intros H; exfalso; apply H; auto].
  split.
  - apply updateById_last; [|exact Hp]. intros a Ha. exact Ha.
  - rewrite updateById_length. exact Hlen.
Qed.

(** ... and answered with 201 once the business and the coupon are
    saved as well. *)
Lemma accepted_review_posted (s : State) (b : Business.t) :
  Accepted M tz clock req s b ->
  Persists req -> Aggregates req s ->
  limitReached req s = true \/ Mints req s couponCode ->
  exists review,
    posted (snd (createReview M tz clock couponCode req s)) = Some review /\
    Review.verified review = true.
Proof.
  intros Hacc Hpersists Haggregates Hreward.
  rewrite (createReview_accepted couponCode Hacc).
  set (s1 := record (advisoryEntries tz clock req s) s).
  apply Persists_iff in Hpersists. destruct Hpersists as [Hv Hpt].
  apply (Aggregates_iff s1 (nextId s1) b (distanceTo M req b)) in Haggregates.
  accept_cases; simpl;
    try congruence;
    try (eexists; split; reflexivity).
  all: destruct Hreward as [Hl | Hm];
    [change (limitReached req s1) with (limitReached req s) in Hlimit;
     congruence|].
  all: apply (Mints_iff s1 (S (nextId s1))
                (newReview clock req (nextId s1) b (distanceTo M req b)))
         in Hm; destruct Hm as [Hm1 Hm2].
  - change (couponValidates
              (newCoupon tz clock couponCode req (S (nextId s1))
                 (newReview clock req (nextId s1) b (distanceTo M req b))
                 (templateOf req s1)) = false) in Hcoupon.
    congruence.
  - change (codeTaken couponCode (coupons s) = true) in Htaken.
    change (codeTaken couponCode (coupons s) = false) in Hm2. congruence.
Qed.

(** C1 (amended).  For a submission that reaches the security
    validation the rules run in this order: GPS accuracy, verification
    time (advisory), mock location, location-history count, client-reported
    anomalies, same-device count.  Accuracy above 50 m rejects with
    POOR_GPS_ACCURACY; a mock location rejects; three or more anomalies
    reject, after any location-history entry was recorded; the other
    signals only record their entries and the submission goes on to
    [Review.create], which stores the review when the model's validators
    (rating, comment, emotion) and the geo index take it and throws,
    storing nothing, when they do not; the stored review is answered
    with 201 when the business and the coupon steps go through as well;
    every signal raised before the outcome is recorded, in that order;
    and a response sent before the review is stored leaves the reviews
    as they were. *)
Theorem security_validation_order (s : State) (b : Business.t) :
  PassesGuards M tz clock req s b ->
  let user := Request.user_id req in
  let businessId := Request.business req in
  let result := createReview M tz clock couponCode req s in
  (forall a, Request.locationAccuracy req = Some a -> (50 < a)%Q ->
     result = (record [mkEntry user POOR_GPS_ACCURACY
                         (AccuracyMeta businessId a)] s,
               GpsAccuracyTooLow a)) /\
  (poorAccuracy req = None -> mockLocation req = true ->
     result = (record (verificationTimeEntries req ++
                       [mkEntry user MOCK_LOCATION_DETECTED
                          (MockLocationMeta businessId
                                            (Request.devicePlatform req))]) s,
               MockLocationDetected)) /\
  (poorAccuracy req = None -> mockLocation req = false ->
   manyAnomalies req = true ->
     result = (record (verificationTimeEntries req ++
                       locationHistoryEntries req ++ anomalyEntries req) s,
               MultipleSecurityConcerns)) /\
  (poorAccuracy req = None -> mockLocation req = false ->
   manyAnomalies req = false ->
     suspiciousActivityLog (fst result)
     = suspiciousActivityLog
         (record (verificationTimeEntries req ++ locationHistoryEntries req ++
                  anomalyEntries req ++ deviceEntries tz clock req s) s) /\
     (Persists req ->
        stored (snd result) = true /\
        exists r, In r (reviews (fst result)) /\ persistedFor req r) /\
     (~ Persists req ->
        (snd result = Failed ReviewValidationError \/
         snd result = Failed ReviewGeoKeysError) /\
        reviews (fst result) = reviews s) /\
     (Persists req -> Aggregates req s ->
      limitReached req s = true \/ Mints req s couponCode ->
        exists review, posted (snd result) = Some review)) /\
  (stored (snd result) = false -> reviews (fst result) = reviews s).
Proof.
  intros Hpass user businessId result. subst result.
  split; [|split; [|split; [|split]]].
  - intros a Ha Hlt.
    assert (Hpoor : poorAccuracy req = Some a) by (apply poorAccuracy_some; auto).
    rewrite createReview_result, (guardChecks_pass Hpass).
    rewrite securityValidation_result, Hpoor. reflexivity.
  - intros Hacc Hmock.
    rewrite createReview_result, (guardChecks_pass Hpass).
    rewrite securityValidation_result, Hacc, Hmock. reflexivity.
  - intros Hacc Hmock Hmany.
    rewrite createReview_result, (guardChecks_pass Hpass).
    rewrite securityValidation_result, Hacc, Hmock, Hmany. reflexivity.
  - intros Hacc Hmock Hmany.
    assert (Haccepted : Accepted M tz clock req s b)
      by (unfold Accepted; auto).
    destruct (accepted_review_stored Haccepted) as (Hlog & Hyes & Hno).
    split; [exact Hlog|].
    split; [intros Hp; destruct (Hyes Hp) as (H1 & H2 & _); auto|].
    split; [exact Hno|].
    intros Hp Ha Hr.
    destruct (accepted_review_posted Haccepted Hp Ha Hr) as (review & H & _).
    eauto.
  - intros Hrej. apply (createReview_rejected M tz clock couponCode req s Hrej).
Qed.
End FraudRules.

Section FraudRulesOnExamples.
Import Spec.

Lemma flaggedVisit_passes_guards :
  PassesGuards refMath utcZone (instant noon) flaggedVisit emptyStore cafe.
Proof.
  unfold PassesGuards.
  split; [reflexivity|]. split; [reflexivity|].
  split; [apply Nat.ltb_lt; vm_compute; reflexivity|].
  split; vm_compute; reflexivity.
Defined.

Lemma bareVisit_passes_guards :
  Spec.PassesGuards refMath utcZone (instant noon) (bareVisit 7 5%float)
                    emptyStore cafe.
Proof.
  unfold Spec.PassesGuards.
  split; [reflexivity|]. split; [reflexivity|].
  split; [apply Nat.ltb_lt; vm_compute; reflexivity|].
  split; vm_compute; reflexivity.
Defined.

(** The bare visit is one the collections take: its rating, comment
    and coordinates are valid, the mean of its rating alone is within
    bounds, and the empty store holds no coupon with the drawn code. *)
Lemma bareVisit_persists (user : ObjectId) : Persists (bareVisit user 5%float).
Proof. repeat split. Defined.

Lemma bareVisit_aggregates (user : ObjectId) :
  Aggregates (bareVisit user 5%float) emptyStore.
Proof. reflexivity. Defined.

Lemma bareVisit_mints (user : ObjectId) :
  Mints (bareVisit user 5%float) emptyStore "HASH-ABC123".
Proof.
  split; [discriminate|].
  split; [apply Nat.leb_le; reflexivity|].
  intros c [].
Defined.

(** The flagged visit is rejected by the anomaly rule, after the
    location-history entry and the three anomaly entries were recorded;
    the bare visit raises no signal, is stored and answered with 201. *)
Lemma security_validation_order_witness :
  createReview refMath utcZone (instant noon) "HASH-ABC123" flaggedVisit
               emptyStore
  = (record (verificationTimeEntries flaggedVisit ++
             locationHistoryEntries flaggedVisit ++
             anomalyEntries flaggedVisit) emptyStore,
     MultipleSecurityConcerns) /\
  stored (snd (createReview refMath utcZone (instant noon) "HASH-ABC123"
                            (bareVisit 7 5%float) emptyStore)) = true /\
  (exists r,
     In r (reviews (fst (createReview refMath utcZone (instant noon)
                           "HASH-ABC123" (bareVisit 7 5%float) emptyStore))) /\
     persistedFor (bareVisit 7 5%float) r) /\
  (exists review,
     posted (snd (createReview refMath utcZone (instant noon) "HASH-ABC123"
                               (bareVisit 7 5%float) emptyStore))
     = Some review).
Proof.
  split.
  - apply (security_validation_order "HASH-ABC123" flaggedVisit_passes_guards);
      reflexivity.
  - destruct (security_validation_order "HASH-ABC123" bareVisit_passes_guards)
      as (_ & _ & _ & H & _).
    destruct (H eq_refl eq_refl eq_refl) as (_ & Hyes & _ & Hposted).
    destruct (Hyes (bareVisit_persists 7)) as (Hstored & Hin).
    split; [exact Hstored|]. split; [exact Hin|].
    exact (Hposted (bareVisit_persists 7) (bareVisit_aggregates 7)
                   (or_intror (bareVisit_mints 7))).
Defined.

(** C1, as stated, fails: with the rules in the listed order the anomaly
    rule would reject before the location-history rule runs, and no
    INSUFFICIENT_LOCATION_HISTORY entry would be recorded; the code
    records one. *)
Lemma listed_order_differs :
  createReview refMath utcZone (instant noon) "HASH-ABC123" flaggedVisit
               emptyStore
  = (fst (securityValidation utcZone (instant noon) flaggedVisit emptyStore),
     MultipleSecurityConcerns) /\
  map eventType
      (suspiciousActivityLog
         (fst (securityValidation utcZone (instant noon) flaggedVisit
                                  emptyStore)))
  = [INSUFFICIENT_LOCATION_HISTORY; FRONTEND_ "RAPID_MOVEMENT";
     FRONTEND_ "APP_BACKGROUNDED"; FRONTEND_ "GPS_JUMP"] /\
  snd (securityValidation_listedOrder utcZone (instant noon) flaggedVisit
                                      emptyStore)
  = inr MultipleSecurityConcerns /\
  map eventType
      (suspiciousActivityLog
         (fst (securityValidation_listedOrder utcZone (instant noon)
                                              flaggedVisit emptyStore)))
  = [FRONTEND_ "RAPID_MOVEMENT"; FRONTEND_ "APP_BACKGROUNDED";
     FRONTEND_ "GPS_JUMP"].
Proof. repeat split; vm_compute; reflexivity. Qed.
End FraudRulesOnExamples.

Section AbsentMetadata.
Import Spec.
Variable M : MathEngine.
Variable tz : TimeZone.
Variable clock : Clock.
Variable couponCode : string.
Variable req : Request.t.

Lemma noSecurityMetadata_clean (s : State) :
  noSecurityMetadata req ->
  poorAccuracy req = None /\ mockLocation req = false /\
  manyAnomalies req = false /\ advisoryEntries tz clock req s = [].
Proof.
  intros ((Hacc & Hmock & Hhist & Hsusp & Hdev) & Hvt).
  unfold poorAccuracy, mockLocation, manyAnomalies, advisoryEntries,
    verificationTimeEntries, locationHistoryEntries, anomalyEntries,
    anomalies, deviceEntries.
  rewrite Hacc, Hvt, Hmock, Hhist, Hsusp, Hdev. repeat split.
Qed.

(** C10 (amended).  When none of locationAccuracy, verificationTime,
    isMockLocation, locationHistoryCount, suspiciousActivities and
    deviceFingerprint is present and the request passes the rate,
    duplicate and geofence checks, the security validation rejects
    nothing and records nothing (every check is skipped), and the
    submission goes on to [Review.create]: the review is stored with
    [verified = true] when the model's validators (rating, comment,
    emotion) and the geo index take it, and answered with 201 when the
    business and the coupon steps go through as well; when they do not
    take it, [Review.create] throws and no review is stored. *)
Theorem absent_metadata_is_clean (s : State) (b : Business.t) :
  PassesGuards M tz clock req s b ->
  noSecurityMetadata req ->
  let result := createReview M tz clock couponCode req s in
  securityValidation tz clock req s = (s, inl tt) /\
  suspiciousActivityLog (fst result) = suspiciousActivityLog s /\
  (Persists req ->
     stored (snd result) = true /\
     exists r, In r (reviews (fst result)) /\ persistedFor req r) /\
  (Persists req -> Aggregates req s ->
   limitReached req s = true \/ Mints req s couponCode ->
     exists review, posted (snd result) = Some review /\
                    Review.verified review = true) /\
  (~ Persists req ->
     (snd result = Failed ReviewValidationError \/
      snd result = Failed ReviewGeoKeysError) /\
     reviews (fst result) = reviews s).
Proof.
  intros Hpass Hnone result.
  destruct (noSecurityMetadata_clean s Hnone) as (Hacc & Hmock & Hmany & Hnil).
  assert (Haccepted : Accepted M tz clock req s b)
    by (unfold Accepted; auto).
  destruct (accepted_review_stored couponCode Haccepted)
    as (Hlog & Hyes & Hno).
  split.
  - rewrite securityValidation_result, Hacc, Hmock, Hmany, Hnil, record_nil.
    reflexivity.
  - rewrite Hnil, record_nil in Hlog.
    split; [exact Hlog|].
    split; [intros Hp; destruct (Hyes Hp) as (H1 & H2 & _); auto|].
    split; [|exact Hno].
    intros Hp Ha Hr.
    exact (accepted_review_posted Haccepted Hp Ha Hr).
Qed.
End AbsentMetadata.

Lemma absent_metadata_is_clean_witness :
  securityValidation utcZone (instant noon) (bareVisit 7 5%float) emptyStore
  = (emptyStore, inl tt) /\
  suspiciousActivityLog
    (fst (createReview refMath utcZone (instant noon) "HASH-ABC123"
                       (bareVisit 7 5%float) emptyStore))
  = [] /\
  Spec.stored (snd (createReview refMath utcZone (instant noon) "HASH-ABC123"
                                 (bareVisit 7 5%float) emptyStore)) = true /\
  (exists r,
     In r (reviews (fst (createReview refMath utcZone (instant noon)
                           "HASH-ABC123" (bareVisit 7 5%float) emptyStore))) /\
     Spec.persistedFor (bareVisit 7 5%float) r) /\
  (exists review,
     Spec.posted (snd (createReview refMath utcZone (instant noon)
                         "HASH-ABC123" (bareVisit 7 5%float) emptyStore))
     = Some review /\
     Review.verified review = true).
Proof.
  assert (Hnone : Spec.noSecurityMetadata (bareVisit 7 5%float))
    by (repeat split).
  destruct (absent_metadata_is_clean "HASH-ABC123" bareVisit_passes_guards Hnone)
    as (H1 & H2 & Hyes & Hposted & _).
  split; [exact H1|]. split; [exact H2|].
  destruct (Hyes (bareVisit_persists 7)) as (Hstored & Hin).
  split; [exact Hstored|]. split; [exact Hin|].
  exact (Hposted (bareVisit_persists 7) (bareVisit_aggregates 7)
                 (or_intror (bareVisit_mints 7))).
Defined.

(** A request without security metadata whose emotion the model does
    not know passes every check; [Review.create] throws, and the store
    is left as it was. *)
Example sadVisit_is_not_created :
  Spec.noSecurityMetadata sadVisit /\
  Spec.PassesGuards refMath utcZone (instant noon) sadVisit emptyStore cafe /\
  ~ Spec.Persists sadVisit /\
  createReview refMath utcZone (instant noon) "HASH-ABC123" sadVisit
               emptyStore
  = (emptyStore, Failed ReviewValidationError).
Proof.
  split; [repeat split|].
  split.
  - unfold Spec.PassesGuards.
    split; [reflexivity|]. split; [reflexivity|].
    split; [apply Nat.ltb_lt; vm_compute; reflexivity|].
    split; vm_compute; reflexivity.
  - split; [|vm_compute; reflexivity].
    intros (_ & _ & H & _). vm_compute in H. discriminate H.
Qed.

(** C10, as stated, fails: a request without the five listed fields but
    with a verification time of 20 seconds passes every check, is
    stored, and leaves a VERIFICATION_TIME_MISMATCH entry in the log. *)
Lemma quickVisit_recorded :
  Spec.listedMetadataAbsent quickVisit /\
  Spec.PassesGuards refMath utcZone (instant noon) quickVisit emptyStore cafe /\
  (exists review,
     Spec.posted (snd (createReview refMath utcZone (instant noon)
                                    "HASH-ABC123" quickVisit emptyStore))
     = Some review) /\
  map eventType
      (suspiciousActivityLog
         (fst (createReview refMath utcZone (instant noon) "HASH-ABC123"
                            quickVisit emptyStore)))
  = [VERIFICATION_TIME_MISMATCH].
Proof.
  split; [repeat split|].
  split.
  - unfold Spec.PassesGuards.
    split; [reflexivity|]. split; [reflexivity|].
    split; [apply Nat.ltb_lt; vm_compute; reflexivity|].
    split; vm_compute; reflexivity.
  - split; [eexists|]; vm_compute; reflexivity.
Qed.

(* ================================================================== *)
(** * 13. One review per actor, business and day                       *)
(* ================================================================== *)

Section Duplicates.
Import Spec.

Lemma NoDup_snoc (A : Type) (l : list A) (x : A) :
  NoDup l -> ~ In x l -> NoDup (l ++ [x]).
Proof.
  intros Hl Hx. induction l as [|a l IH]; simpl.
  - constructor; [intros [] | constructor].
  - inversion Hl; subst. constructor.
    + intros Hin. apply in_app_or in Hin. destruct Hin as [Hin | [-> | []]].
      * contradiction.
      * apply Hx. left. reflexivity.
    + apply IH; [assumption|]. intros Hin. apply Hx. right. exact Hin.
Qed.

(** A stored review of the same actor and business on the calendar day
    of the new review is one the duplicate check looks for. *)
Lemma same_day_is_reviewedToday (tz : TimeZone) (clock : Clock)
    (req : Request.t) (b : Business.t) (d : float) (id : ObjectId)
    (r : Review.t) :
  DaysStartAtMidnight tz ->
  (at_today clock <= at_create clock)%Z ->
  (Review.createdAt r <= at_today clock)%Z ->
  dayKey tz r = dayKey tz (newReview clock req id b d) ->
  reviewedToday tz clock req r = true.
Proof.
  intros Hz Hclock Hpast Hkey.
  unfold dayKey, reviewDay in Hkey. simpl in Hkey.
  injection Hkey as Huser Hbusiness Hday.
  unfold reviewedToday.
  rewrite Huser, Hbusiness, !Nat.eqb_refl. simpl.
  rewrite Z.geb_leb. apply Z.leb_le.
  apply since_today_local_day; [exact Hz | exact Hpast|].
  pose proof (Day_LocalTime_monotone Hz Hpast) as H1.
  pose proof (Day_LocalTime_monotone Hz Hclock) as H2.
  lia.
Qed.

(** C3 (amended).  A submission by an actor who already has a review of
    the same business since the day began stores no review, whatever
    its rating and comment, and is answered by the first check that
    fails: business not found, business not active, daily limit reached
    (these three run first), and otherwise the duplicate rejection.  So
    on a host whose calendar days start at local midnight (every zone
    of constant offset, and New York around its spring transition are
    such zones), with a clock that does not run backwards and no stored
    review dated after the request, the stored reviews never come to
    hold two reviews of one actor for one business on one calendar
    day. *)
Theorem one_review_per_day :
  (forall M tz clock couponCode req s r,
     In r (reviews s) ->
     reviewedToday tz clock req r = true ->
     let result := createReview M tz clock couponCode req s in
     let business :=
       find (fun b => Business._id b =? Request.business req) (businesses s) in
     reviews (fst result) = reviews s /\
     (business = None -> result = (s, BusinessNotFound)) /\
     (forall b, business = Some b ->
        (Business.status b <> Business.active ->
         result = (s, BusinessNotActive)) /\
        (Business.status b = Business.active ->
         5 <= reviewsToday tz clock req s ->
         snd result = ReviewLimitReached) /\
        (Business.status b = Business.active ->
         reviewsToday tz clock req s < 5 ->
         result = (s, AlreadyReviewedToday)))) /\
  (forall M tz clock couponCode req s,
     DaysStartAtMidnight tz ->
     (at_today clock <= at_create clock)%Z ->
     (forall r, In r (reviews s) -> (Review.createdAt r <= at_today clock)%Z) ->
     OneReviewPerDay tz (reviews s) ->
     OneReviewPerDay tz
       (reviews (fst (createReview M tz clock couponCode req s)))) /\
  (forall offset, DaysStartAtMidnight (fixedZone offset)) /\
  DaysStartAtMidnight newYorkSpring2026.
Proof.
  split; [|split; [|split;
    [exact fixedZone_DaysStartAtMidnight
    |exact newYorkSpring2026_DaysStartAtMidnight]]].
  - intros M tz clock couponCode req s r Hin Hdup result business.
    subst result business.
    destruct (find_exists (reviewedToday tz clock req) (reviews s) r Hin Hdup)
      as (x & Hx).
    rewrite createReview_result, guardChecks_result, Hx.
    destruct (find _ (businesses s)) as [b|].
    2:{ split; [reflexivity|]. split; [reflexivity|]. discriminate. }
    destruct (Business.status_is (Business.status b) Business.active) eqn:Ha.
    + apply business_status_is_true in Ha. cbn [negb].
      destruct (5 <=? reviewsToday tz clock req s) eqn:Hr.
      * apply Nat.leb_le in Hr.
        split; [reflexivity|]. split; [discriminate|].
        intros b' Hb. injection Hb as <-.
        split; [contradiction|]. split; [reflexivity|]. lia.
      * apply Nat.leb_gt in Hr.
        split; [reflexivity|]. split; [discriminate|].
        intros b' Hb. injection Hb as <-.
        split; [contradiction|]. split; [lia | reflexivity].
    + cbn [negb].
      assert (Hna : Business.status b <> Business.active).
      { intros H. apply business_status_is_true in H. congruence. }
      split; [reflexivity|]. split; [discriminate|].
      intros b' Hb. injection Hb as <-.
      split; [reflexivity|]. split; contradiction.
  - intros M tz clock couponCode req s Hz Hclock Hpast Hinv.
    destruct (stored (snd (createReview M tz clock couponCode req s))) eqn:Hp.
    2:{ destruct (createReview_rejected M tz clock couponCode req s Hp) as [-> _].
        exact Hinv. }
    revert Hp. rewrite createReview_result.
    destruct (guardChecks M tz clock req s) as [s1 [checked|resp]] eqn:Hg.
    2:{ apply guardChecks_respond in Hg. simpl. intros Hp.
        destruct Hg as (_ & _ & _ & Hnone). congruence. }
    apply guardChecks_continue in Hg. destruct Hg as (-> & Hpass & _).
    destruct Hpass as (_ & _ & _ & Hnodup & _).
    rewrite securityValidation_result.
    destruct (poorAccuracy req); [discriminate|].
    destruct (mockLocation req); [discriminate|].
    destruct (manyAnomalies req); [discriminate|].
    set (s1 := record (advisoryEntries tz clock req s) s).
    set (review := newReview clock req (nextId s1) (fst checked) (snd checked)).
    assert (Hfresh : NoDup (map (dayKey tz) (reviews s ++ [review]))).
    { rewrite map_app. simpl. apply NoDup_snoc; [exact Hinv|].
      intros Hin. apply in_map_iff in Hin. destruct Hin as (r & Hkey & Hr).
      pose proof (@same_day_is_reviewedToday tz clock req (fst checked)
                    (snd checked) (nextId s1) r Hz Hclock (Hpast r Hr) Hkey)
        as Hdup.
      pose proof (find_none _ _ Hnodup r Hr) as Hno.
      congruence. }
    unfold OneReviewPerDay.
    accept_cases; simpl; intros _; try exact Hinv; try exact Hfresh.
    rewrite map_updateById; [exact Hfresh|]. intros a. reflexivity.
Qed.
End Duplicates.

(** An hour after the first review the actor's second submission for
    the cafe is answered as a duplicate; and the store after the first
    review, taken in New York time, holds one review per day. *)
Lemma one_review_per_day_witness :
  createReview refMath utcZone (instant (noon + msPerHour)) "HASH-DEF456"
               secondThoughts storeAfterFirstReview
  = (storeAfterFirstReview, AlreadyReviewedToday) /\
  Spec.OneReviewPerDay newYorkSpring2026
    (reviews (fst (createReview refMath newYorkSpring2026 (instant noon)
                     "HASH-ABC123" (bareVisit 7 5%float) emptyStore))).
Proof.
  destruct one_review_per_day as (Hdup & Hinv & _ & Hzone).
  split.
  - assert (Hin : In (Review.set_coupon 1001
                        (newReview (instant noon) (bareVisit 7 5%float) 1000
                           cafe (Spec.distanceTo refMath (bareVisit 7 5%float)
                                   cafe)))
                     (reviews storeAfterFirstReview)).
    { vm_compute. left. reflexivity. }
    assert (Htoday : Spec.reviewedToday utcZone (instant (noon + msPerHour))
                       secondThoughts
                       (Review.set_coupon 1001
                          (newReview (instant noon) (bareVisit 7 5%float) 1000
                             cafe (Spec.distanceTo refMath
                                     (bareVisit 7 5%float) cafe)))
                     = true).
    { vm_compute. reflexivity. }
    pose proof (Hdup refMath utcZone (instant (noon + msPerHour)) "HASH-DEF456"
                  secondThoughts storeAfterFirstReview _ Hin Htoday) as H.
    cbv zeta in H. destruct H as (_ & _ & Hfound).
    assert (Hb : find (fun b => Business._id b =? Request.business secondThoughts)
                      (businesses storeAfterFirstReview)
                 = Some (Business.set_rating 5%float 1 cafe)).
    { vm_compute. reflexivity. }
    destruct (Hfound _ Hb) as (_ & _ & H).
    apply H; [reflexivity|].
    apply Nat.ltb_lt. vm_compute. reflexivity.
  - apply (Hinv refMath newYorkSpring2026 (instant noon) "HASH-ABC123"
             (bareVisit 7 5%float) emptyStore Hzone).
    + simpl. lia.
    + intros r [].
    + constructor.
Defined.

(** C3, as stated, fails: when the actor's five reviews of the day
    include one of the cafe, another submission for the cafe is rejected
    by the rate limit, which runs first, and not as a duplicate; it
    leaves a RATE_LIMIT_EXCEEDED entry and stores no review. *)
Lemma rate_limit_runs_first :
  let result := createReview refMath utcZone (instant (noon + msPerHour))
                             "HASH-DEF456" secondThoughts
                             storeAfterFiveReviews in
  map Review.business (reviews storeAfterFiveReviews) = [1; 2; 3; 4; 5] /\
  existsb (Spec.reviewedToday utcZone (instant (noon + msPerHour))
                              secondThoughts)
          (reviews storeAfterFiveReviews) = true /\
  snd result = ReviewLimitReached /\
  snd result <> AlreadyReviewedToday /\
  map eventType (suspiciousActivityLog (fst result)) = [RATE_LIMIT_EXCEEDED] /\
  reviews (fst result) = reviews storeAfterFiveReviews.
Proof.
  cbv zeta. split; [vm_compute; reflexivity|].
  split; [vm_compute; reflexivity|].
  split; [vm_compute; reflexivity|].
  split; [vm_compute; discriminate|].
  split; vm_compute; reflexivity.
Qed.

(* ================================================================== *)
(** * 14. Business rating                                              *)
(* ================================================================== *)

Section Rating.
Import Spec.

(** C7 (amended).  Once a review is stored and the business is saved
    (the submission is accepted, [Review.create] takes the review and
    the new mean is within the schema's bounds), the rating average of
    the business is the arithmetic mean (the binary64 sum of the ratings
    in stored order, divided by their number) of the ratings of all the
    reviews of that business in the store, whatever their status,
    computed afresh, and the rating count is the number of those
    reviews; otherwise the businesses are as they were. *)
Theorem rating_is_mean_of_all_reviews
    (M : MathEngine) (tz : TimeZone) (clock : Clock) (couponCode : string)
    (req : Request.t) (s : State) (b : Business.t) :
  Accepted M tz clock req s b ->
  let result := createReview M tz clock couponCode req s in
  let ratings :=
    ratingsOfBusiness (fun _ => true) (Request.business req)
                      (reviews (fst result)) in
  (aggregated (snd result) = true <-> Persists req /\ Aggregates req s) /\
  (aggregated (snd result) = true ->
   exists b',
     find (fun b => (Business._id b =? Request.business req)%nat)
          (businesses (fst result)) = Some b' /\
     Business.rating_average b' = mean ratings /\
     Business.rating_count b' = List.length ratings) /\
  (aggregated (snd result) = false ->
   businesses (fst result) = businesses s).
Proof.
  intros Hacc. cbv zeta.
  rewrite (createReview_accepted couponCode Hacc).
  destruct Hacc as ((Hb & _) & _).
  set (s1 := record (advisoryEntries tz clock req s) s).
  set (review := newReview clock req (nextId s1) b (distanceTo M req b)).
  assert (Hfilter : forall rs,
            ratingsOfBusiness (fun _ => true) (Request.business req) rs
            = map Review.rating
                (filter (fun r => (Review.business r =? Request.business req)%nat) rs)).
  { intros rs. unfold ratingsOfBusiness. f_equal. apply filter_ext.
    intros a. apply andb_true_r. }
  assert (Hfind : forall f,
            (forall a, Business._id (f a) = Business._id a) ->
            find (fun b => (Business._id b =? Request.business req)%nat)
                 (updateById Business._id (Request.business req) f (businesses s1))
            = Some (f b)).
  { intros f Hf. apply find_updateById; [exact Hf | exact Hb]. }
  rewrite (Persists_iff req),
    (Aggregates_iff clock req s (nextId s1) b (distanceTo M req b)).
  set (ofBusiness := filter _ (reviews s ++ _)).
  assert (Hsaved : forall rs,
            map Review.rating
              (filter (fun r => (Review.business r =? Request.business req)%nat)
                      rs)
            = map Review.rating ofBusiness ->
            exists b',
              Some (Business.set_rating (averageRating ofBusiness)
                                        (List.length ofBusiness) b) = Some b' /\
              Business.rating_average b'
              = mean (ratingsOfBusiness (fun _ => true)
                                        (Request.business req) rs) /\
              Business.rating_count b'
              = List.length (ratingsOfBusiness (fun _ => true)
                                               (Request.business req) rs)).
  { intros rs Hrs. eexists. split; [reflexivity|].
    rewrite Hfilter, Hrs. simpl.
    split; [apply averageRating_mean | rewrite length_map; reflexivity]. }
  assert (Hid : forall a, Review.business (Review.set_coupon (S (nextId s1)) a)
                          = Review.business a) by reflexivity.
  accept_cases; cbn [fst snd aggregated businesses reviews];
    try change (Business.validAverage (averageRating ofBusiness) = false)
          in Haverage;
    try change (Business.validAverage (averageRating ofBusiness) = true)
          in Haverage.
  1-3: split; [split; [discriminate | intros [[H1 H2] H3]; congruence]|];
       split; [discriminate | reflexivity].
  1-3: split; [split; [auto | reflexivity]|];
       split; [|discriminate]; intros _;
       rewrite Hfind by reflexivity; apply Hsaved; reflexivity.
  split; [split; [auto | reflexivity]|].
  split; [|discriminate]. intros _.
  rewrite Hfind by reflexivity. apply Hsaved.
  apply (filter_updateById Review._id Review.rating
           (fun r => (Review.business r =? Request.business req)%nat)).
  - reflexivity.
  - intros a. rewrite Hid. reflexivity.
Qed.

Lemma bareVisit_accepted :
  Accepted refMath utcZone (instant noon) (bareVisit 7%nat 5) emptyStore cafe.
Proof.
  split; [exact bareVisit_passes_guards | repeat split].
Defined.

(** The first review of the cafe, five stars: the cafe's average is the
    mean of that one rating, 5, and its count 1. *)
Lemma rating_is_mean_of_all_reviews_witness :
  exists b',
    find (fun b => (Business._id b =? 1)%nat)
         (businesses (fst (createReview refMath utcZone (instant noon)
                                        "HASH-ABC123" (bareVisit 7%nat 5)
                                        emptyStore)))
    = Some b' /\
    Business.rating_average b'
    = mean (ratingsOfBusiness (fun _ => true) 1%nat
              (reviews (fst (createReview refMath utcZone (instant noon)
                               "HASH-ABC123" (bareVisit 7%nat 5)
                               emptyStore)))) /\
    mean (ratingsOfBusiness (fun _ => true) 1%nat
            (reviews (fst (createReview refMath utcZone (instant noon)
                             "HASH-ABC123" (bareVisit 7%nat 5) emptyStore))))
    = 5%float /\
    Business.rating_count b' = 1%nat.
Proof.
  destruct (rating_is_mean_of_all_reviews "HASH-ABC123" bareVisit_accepted)
    as (Hiff & Hsaved & _).
  destruct (Hsaved (proj2 Hiff (conj (bareVisit_persists 7)
                                     (bareVisit_aggregates 7))))
    as (b' & Hfind & Hmean & Hcount).
  exists b'. split; [exact Hfind|]. split; [exact Hmean|].
  split; [vm_compute; reflexivity | exact Hcount].
Defined.

(** C7, as stated, fails: with a rejected one-star review in the store,
    a five-star review brings the stored average to 3, while the mean of
    the approved reviews is 5. *)
Lemma rejected_review_counts :
  let result := createReview refMath utcZone (instant nextNoon) "HASH-DEF456"
                             (bareVisit 8%nat 5) storeWithRejectedReview in
  map Review.status (reviews (fst result))
  = [Review.rejected; Review.approved] /\
  exists b',
    find (fun b => (Business._id b =? 1)%nat) (businesses (fst result))
    = Some b' /\
    Business.rating_average b' = 3%float /\
    mean (ratingsOfBusiness isApproved 1%nat (reviews (fst result)))
    = 5%float /\
    Business.rating_average b'
    <> mean (ratingsOfBusiness isApproved 1%nat (reviews (fst result))).
Proof.
  cbv zeta. split; [vm_compute; reflexivity|].
  eexists. split; [vm_compute; reflexivity|].
  split; [vm_compute; reflexivity|].
  split; [vm_compute; reflexivity|].
  intros H. apply (f_equal (fun x => PrimFloat.eqb x 3)) in H.
  vm_compute in H. discriminate H.
Qed.
End Rating.

(* ================================================================== *)
(** * 15. Reward issuance                                              *)
(* ================================================================== *)

Section Reward.
Import Spec.
Variable M : MathEngine.
Variable tz : TimeZone.
Variable clock : Clock.
Variable couponCode : string.
Variable req : Request.t.

Lemma limitReached_true (s : State) :
  limitReached req s = true <->
  exists template limit,
    templateOf req s = Some template /\
    Coupon.redemptionLimit template = Some limit /\
    (limit <= Z.of_nat (redeemedRewards req s))%Z.
Proof.
  unfold limitReached.
  destruct (templateOf req s) as [template|].
  - destruct (Coupon.redemptionLimit template) as [limit|] eqn:Hl.
    + rewrite Z.geb_leb, Z.leb_le. split.
      * intros H. exists template, limit.
        split; [reflexivity | split; [exact Hl | exact H]].
      * intros (t & l & Ht & Hl' & Hle). injection Ht as <-.
        rewrite Hl in Hl'. injection Hl' as <-. exact Hle.
    + split; [discriminate|].
      intros (t & l & Ht & Hl' & _). injection Ht as <-.
      rewrite Hl in Hl'. discriminate.
  - split; [discriminate|]. intros (t & l & Ht & _). discriminate.
Qed.

(** The coupon an accepted review earns when the limit is not reached
    and the collections take the review, the rating and the coupon. *)
Lemma minted_coupon (s : State) (b : Business.t) :
  Accepted M tz clock req s b ->
  Persists req -> Aggregates req s ->
  limitReached req s = false ->
  Mints req s couponCode ->
  let result := createReview M tz clock couponCode req s in
  exists cid review,
    let coupon :=
      Coupon.set_qrCodeData
        (Coupon.mkQr "coupon" cid couponCode (Request.business req)
                     (Request.user_id req) (Review._id review))
        (newCoupon tz clock couponCode req cid review (templateOf req s)) in
    minted (snd result) = Some coupon /\
    In coupon (coupons (fst result)) /\
    List.length (coupons (fst result)) = S (List.length (coupons s)).
Proof.
  intros Hacc Hpersists Haggregates Hlimit Hmints. cbv zeta.
  rewrite (createReview_accepted couponCode Hacc).
  set (s1 := record (advisoryEntries tz clock req s) s).
  apply Persists_iff in Hpersists. destruct Hpersists as [Hv Hpt].
  apply (Aggregates_iff clock req s (nextId s1) b (distanceTo M req b))
    in Haggregates.
  apply (Mints_iff tz clock couponCode req s (S (nextId s1))
           (newReview clock req (nextId s1) b (distanceTo M req b)))
    in Hmints.
  destruct Hmints as [Hm1 Hm2].
  rewrite acceptReview_result. cbv zeta.
  rewrite Hv, Hpt. cbn [negb].
  change (reviews s1) with (reviews s). rewrite Haggregates. cbn [negb].
  change (limitReached req s1) with (limitReached req s).
  change (templateOf req s1) with (templateOf req s).
  change (coupons s1) with (coupons s).
  rewrite Hlimit, Hm2.
  change (couponValidates
            (Coupon.set_qrCodeData
               (Coupon.mkQr "coupon" (S (nextId s1)) couponCode
                  (Request.business req) (Request.user_id req) (nextId s1))
               (newCoupon tz clock couponCode req (S (nextId s1))
                  (newReview clock req (nextId s1) b (distanceTo M req b))
                  (templateOf req s))))
    with (couponValidates
            (newCoupon tz clock couponCode req (S (nextId s1))
               (newReview clock req (nextId s1) b (distanceTo M req b))
               (templateOf req s))).
  rewrite Hm1. cbn [negb fst snd coupons minted].
  exists (S (nextId s)), (newReview clock req (nextId s) b (distanceTo M req b)).
  split; [reflexivity|].
  destruct (templateOf req s) as [template|] eqn:Ht.
  - unfold templateOf in Ht. apply find_some in Ht. destruct Ht as [Hin _].
    rewrite (@updateById_app_l _ Coupon._id (Coupon._id template)
               Coupon.inc_usageCount (coupons s) _ template Hin eq_refl).
    split; [apply in_or_app; right; left; reflexivity|].
    rewrite length_app, updateById_length. simpl. lia.
  - split; [apply in_or_app; right; left; reflexivity|].
    rewrite length_app. simpl. lia.
Qed.

(** C5 (amended).  For an accepted review that [Review.create] stores
    and whose new mean [business.save()] takes: when the business has
    an active template with a redemption limit and the number of
    redeemed review-reward coupons of the business has reached it, the
    review is answered with 201 and no coupon is created; otherwise,
    when the drawn code is not empty, is not the code of a stored coupon
    and the description is within its length, an active review-reward
    coupon is created for the actor, with the template's reward type
    and with the template's reward value, minimum purchase amount and
    maximum discount amount where these are not zero (a zero or missing
    value gives the default: 10, 0, no cap), or with the defaults
    (percentage, 10, no cap) when there is no active template; and when
    [Coupon.create] refuses the coupon (a stored coupon has the drawn
    code, the unique index on [code]; or a validator fails) the handler
    ends in that error with the review stored and no coupon created.
    A response that carries no coupon leaves the coupons as they were. *)
Theorem reward_after_review (s : State) (b : Business.t) :
  Accepted M tz clock req s b ->
  let result := createReview M tz clock couponCode req s in
  (Persists req ->
   exists r, In r (reviews (fst result)) /\ persistedFor req r) /\
  (limitReached req s = true <->
   exists template limit,
     templateOf req s = Some template /\
     Coupon.redemptionLimit template = Some limit /\
     (limit <= Z.of_nat (redeemedRewards req s))%Z) /\
  (Persists req -> Aggregates req s -> limitReached req s = true ->
   (exists review, snd result = ReviewPostedLimitReached review) /\
   minted (snd result) = None /\ coupons (fst result) = coupons s) /\
  (Persists req -> Aggregates req s -> limitReached req s = false ->
   Mints req s couponCode ->
   exists coupon,
     minted (snd result) = Some coupon /\
     In coupon (coupons (fst result)) /\
     Coupon.type coupon = Coupon.review_reward /\
     Coupon.status coupon = Coupon.active /\
     Coupon.user coupon = Some (Request.user_id req) /\
     match templateOf req s with
     | Some template =>
         Coupon.rewardType coupon = Coupon.rewardType template /\
         Coupon.rewardValue coupon = rewardValueFrom template /\
         (Coupon.minPurchaseAmount coupon == Coupon.minPurchaseAmount template)%Q /\
         Coupon.maxDiscountAmount coupon = maxDiscountFrom template
     | None =>
         Coupon.rewardType coupon = Coupon.percentage /\
         Coupon.rewardValue coupon = 10%Q /\
         Coupon.minPurchaseAmount coupon = 0%Q /\
         Coupon.maxDiscountAmount coupon = None
     end) /\
  (Persists req -> Aggregates req s -> limitReached req s = false ->
   ~ Mints req s couponCode ->
   (snd result = Failed CouponValidationError \/
    snd result = Failed CouponDuplicateKeyError) /\
   (couponCode <> EmptyString ->
    (String.length (rewardDescription req s) <= 500)%nat ->
    snd result = Failed CouponDuplicateKeyError) /\
   coupons (fst result) = coupons s /\
   exists r, In r (reviews (fst result)) /\ persistedFor req r) /\
  (minted (snd result) = None -> coupons (fst result) = coupons s).
Proof.
  intros Hacc result.
  assert (Hstored : Persists req ->
            exists r, In r (reviews (fst result)) /\ persistedFor req r).
  { intros Hp.
    destruct (accepted_review_stored couponCode Hacc) as (_ & Hyes & _).
    destruct (Hyes Hp) as (_ & H & _). exact H. }
  split; [exact Hstored|].
  split; [apply limitReached_true|].
  assert (Hcases :
            (Persists req -> Aggregates req s -> limitReached req s = true ->
             (exists review, snd result = ReviewPostedLimitReached review) /\
             minted (snd result) = None /\ coupons (fst result) = coupons s) /\
            (Persists req -> Aggregates req s -> limitReached req s = false ->
             ~ Mints req s couponCode ->
             (snd result = Failed CouponValidationError \/
              snd result = Failed CouponDuplicateKeyError) /\
             (couponCode <> EmptyString ->
              (String.length (rewardDescription req s) <= 500)%nat ->
              snd result = Failed CouponDuplicateKeyError) /\
             coupons (fst result) = coupons s) /\
            (minted (snd result) = None -> coupons (fst result) = coupons s)).
  { subst result.
    rewrite (createReview_accepted couponCode Hacc).
    set (s1 := record (advisoryEntries tz clock req s) s).
    rewrite (Persists_iff req),
      (Aggregates_iff clock req s (nextId s1) b (distanceTo M req b)),
      (Mints_iff tz clock couponCode req s (S (nextId s1))
         (newReview clock req (nextId s1) b (distanceTo M req b))).
    assert (Hdesc : couponCode <> EmptyString ->
              (String.length (rewardDescription req s) <= 500)%nat ->
              couponValidates
                (newCoupon tz clock couponCode req (S (nextId s1))
                   (newReview clock req (nextId s1) b (distanceTo M req b))
                   (templateOf req s)) = true).
    { intros Hne Hlen. unfold couponValidates. simpl.
      apply andb_true_iff. split.
      - apply negb_true_iff. apply String.eqb_neq. exact Hne.
      - apply Nat.leb_le. exact Hlen. }
    accept_cases; cbn [fst snd minted coupons];
      change (limitReached req s1) with (limitReached req s) in *;
      change (templateOf req s1) with (templateOf req s) in *;
      change (coupons s1) with (coupons s) in *;
      change (reviews s1) with (reviews s) in *;
      try change (couponValidates
                    (newCoupon tz clock couponCode req (S (nextId s1))
                       (newReview clock req (nextId s1) b (distanceTo M req b))
                       (templateOf req s)) = false) in Hcoupon;
      try change (couponValidates
                    (newCoupon tz clock couponCode req (S (nextId s1))
                       (newReview clock req (nextId s1) b (distanceTo M req b))
                       (templateOf req s)) = true) in Hcoupon.
    - split; [intros [H _]; congruence|].
      split; [intros [H _]; congruence | reflexivity].
    - split; [intros [_ H]; congruence|].
      split; [intros [_ H]; congruence | reflexivity].
    - split; [intros _ H; congruence|].
      split; [intros _ H; congruence | reflexivity].
    - split; [intros _ _ _; eauto|].
      split; [intros _ _ H; congruence | reflexivity].
    - split; [intros _ _ H; congruence|].
      split; [|reflexivity].
      intros _ _ _ _. split; [auto|]. split; [|reflexivity].
      intros Hne Hlen. rewrite (Hdesc Hne Hlen) in Hcoupon. discriminate.
    - split; [intros _ _ H; congruence|].
      split; [|reflexivity].
      intros _ _ _ _. auto.
    - split; [intros _ _ H; congruence|].
      split; [|discriminate].
      intros _ _ _ Hnot. exfalso. apply Hnot. auto. }
  destruct Hcases as (Hlimit & Hrefused & Hnone).
  split; [exact Hlimit|].
  split.
  - intros Hp Ha Hl Hm.
    destruct (minted_coupon Hacc Hp Ha Hl Hm)
      as (cid & review & Hminted & Hin & _).
    eexists. split; [exact Hminted|]. split; [exact Hin|]. simpl.
    split; [reflexivity|]. split; [reflexivity|]. split; [reflexivity|].
    destruct (templateOf req s) as [template|]; simpl.
    + split; [reflexivity|]. split; [reflexivity|]. split; [|reflexivity].
      unfold truthyQ.
      destruct (Qeq_bool (Coupon.minPurchaseAmount template) 0) eqn:E; simpl.
      * apply Qeq_bool_iff in E. symmetry. exact E.
      * reflexivity.
    + repeat split.
  - split; [|exact Hnone].
    intros Hp Ha Hl Hm.
    destruct (Hrefused Hp Ha Hl Hm) as (H1 & H2 & H3).
    split; [exact H1|]. split; [exact H2|]. split; [exact H3|].
    exact (Hstored Hp).
Qed.

(** In a zone with a constant offset the expiry is two hours of elapsed
    time after the clock reading it starts from. *)
Lemma coupon_window_fixedZone (offset : Z) (s : State) (b : Business.t) :
  tz = fixedZone offset ->
  Accepted M tz clock req s b ->
  Persists req -> Aggregates req s ->
  limitReached req s = false ->
  Mints req s couponCode ->
  exists coupon,
    minted (snd (createReview M tz clock couponCode req s)) = Some coupon /\
    Coupon.validFrom coupon = Some (at_validFrom clock) /\
    Coupon.validUntil coupon = date (at_expiry clock + 2 * msPerHour)%Z.
Proof.
  intros Hz Hacc Hp Ha Hlimit Hm.
  destruct (minted_coupon Hacc Hp Ha Hlimit Hm)
    as (cid & review & Hminted & _).
  eexists. split; [exact Hminted|].
  simpl. split; [reflexivity|].
  rewrite Hz, couponExpiry_fixedZone. reflexivity.
Qed.
End Reward.

Section RewardOnExamples.
Import Spec.

Lemma visit_at_limit_accepted :
  Accepted refMath utcZone (instant noon) (bareVisit 7 5%float)
           storeAtRedemptionLimit cafe.
Proof.
  split; [|repeat split].
  unfold PassesGuards.
  split; [reflexivity|]. split; [reflexivity|].
  split; [apply Nat.ltb_lt; vm_compute; reflexivity|].
  split; vm_compute; reflexivity.
Defined.

(** The store with the stale reward holds a coupon with the code about
    to be drawn. *)
Lemma visit_with_same_code_accepted :
  Accepted refMath utcZone (instant noon) (bareVisit 7 5%float)
           storeWithStaleReward cafe.
Proof.
  split; [|repeat split].
  unfold PassesGuards.
  split; [reflexivity|]. split; [reflexivity|].
  split; [apply Nat.ltb_lt; vm_compute; reflexivity|].
  split; vm_compute; reflexivity.
Defined.

(** With two redeemed reward coupons against a limit of two, the review
    is answered with 201 and no coupon is created; in the empty store
    the review earns the default coupon, 10 % without a cap; and when
    the drawn code is that of a stored coupon the handler ends in the
    duplicate-key error with the review stored and no coupon created. *)
Lemma reward_after_review_witness :
  (minted (snd (createReview refMath utcZone (instant noon) "HASH-ABC123"
                             (bareVisit 7 5%float) storeAtRedemptionLimit))
   = None /\
   coupons (fst (createReview refMath utcZone (instant noon) "HASH-ABC123"
                              (bareVisit 7 5%float) storeAtRedemptionLimit))
   = coupons storeAtRedemptionLimit) /\
  (exists coupon,
     minted (snd (createReview refMath utcZone (instant noon) "HASH-ABC123"
                               (bareVisit 7 5%float) emptyStore))
     = Some coupon /\
     Coupon.status coupon = Coupon.active /\
     Coupon.rewardType coupon = Coupon.percentage /\
     Coupon.rewardValue coupon = 10%Q /\
     Coupon.maxDiscountAmount coupon = None) /\
  (snd (createReview refMath utcZone (instant noon) "HASH-XYZ789"
                     (bareVisit 7 5%float) storeWithStaleReward)
   = Failed CouponDuplicateKeyError /\
   coupons (fst (createReview refMath utcZone (instant noon) "HASH-XYZ789"
                              (bareVisit 7 5%float) storeWithStaleReward))
   = coupons storeWithStaleReward /\
   exists r,
     In r (reviews (fst (createReview refMath utcZone (instant noon)
                           "HASH-XYZ789" (bareVisit 7 5%float)
                           storeWithStaleReward))) /\
     persistedFor (bareVisit 7 5%float) r).
Proof.
  split; [|split].
  - destruct (reward_after_review "HASH-ABC123" visit_at_limit_accepted)
      as (_ & _ & H & _).
    destruct (H (bareVisit_persists 7) eq_refl eq_refl) as (_ & H1 & H2).
    split; [exact H1 | exact H2].
  - destruct (reward_after_review "HASH-ABC123" bareVisit_accepted)
      as (_ & _ & _ & H & _).
    destruct (H (bareVisit_persists 7) (bareVisit_aggregates 7) eq_refl
                (bareVisit_mints 7))
      as (coupon & Hminted & _ & _ & Hstatus & _ & Htype & Hvalue & _ & Hcap).
    exists coupon. auto.
  - destruct (reward_after_review "HASH-XYZ789" visit_with_same_code_accepted)
      as (_ & _ & _ & _ & H & _).
    assert (Hnot : ~ Mints (bareVisit 7 5%float) storeWithStaleReward
                     "HASH-XYZ789").
    { intros (_ & _ & Hfree). apply (Hfree staleReward).
      - left. reflexivity.
      - reflexivity. }
    destruct (H (bareVisit_persists 7) eq_refl eq_refl Hnot)
      as (_ & Hdup & Hcoupons & Hin).
    split; [|split; [exact Hcoupons | exact Hin]].
    apply Hdup; [discriminate|].
    apply Nat.leb_le. reflexivity.
Defined.

(** C5, as stated, fails: a template whose reward value is 0 yields a
    coupon whose reward value is the default 10. *)
Lemma zero_reward_value_replaced :
  let result := createReview refMath utcZone (instant noon) "HASH-ABC123"
                             (bareVisit 7 5%float) storeWithBuyOneGetOne in
  templateOf (bareVisit 7 5%float) storeWithBuyOneGetOne = Some buyOneGetOne /\
  limitReached (bareVisit 7 5%float) storeWithBuyOneGetOne = false /\
  exists coupon,
    minted (snd result) = Some coupon /\
    Coupon.rewardType coupon = Coupon.buy1get1 /\
    Coupon.rewardValue coupon = 10%Q /\
    ~ (Coupon.rewardValue coupon == Coupon.rewardValue buyOneGetOne)%Q.
Proof.
  cbv zeta. split; [reflexivity|]. split; [reflexivity|].
  eexists. split; [vm_compute; reflexivity|].
  split; [reflexivity|]. split; [reflexivity|].
  intros H. vm_compute in H. discriminate H.
Qed.

(** C6.  On a host in America/New_York, a review accepted at 01:30 on
    8 March 2026 earns a coupon whose [validUntil] is one hour, not two,
    after its [validFrom]: [setHours(getHours() + 2)] moves the wall
    clock from 01:30 to 03:30, across the hour the zone skips. *)
Theorem coupon_window_when_clocks_go_forward :
  let result := createReview refMath newYorkSpring2026 (instant beforeSwitch)
                             "HASH-ABC123" (cleanVisit 7 5%float) emptyStore in
  exists coupon,
    minted (snd result) = Some coupon /\
    Coupon.validFrom coupon = Some beforeSwitch /\
    Coupon.validUntil coupon = date (beforeSwitch + 1 * msPerHour)%Z /\
    CouponUtils.calculateCouponExpiry beforeSwitch 2
    = (beforeSwitch + 2 * msPerHour)%Z.
Proof.
  cbv zeta. eexists.
  split; [vm_compute; reflexivity|].
  split; [reflexivity|]. split; vm_compute; reflexivity.
Qed.

(** The same review on a host in Asia/Kolkata. *)
Example coupon_window_kolkata :
  exists coupon,
    minted (snd (createReview refMath kolkataZone (instant beforeSwitch)
                              "HASH-ABC123" (cleanVisit 7 5%float) emptyStore))
    = Some coupon /\
    Coupon.validFrom coupon = Some beforeSwitch /\
    Coupon.validUntil coupon = date (beforeSwitch + 2 * msPerHour)%Z.
Proof.
  eexists. split; [vm_compute; reflexivity|]. split; vm_compute; reflexivity.
Qed.
End RewardOnExamples.

(* ================================================================== *)
(** * The suspicious-activity log                                      *)
(* ================================================================== *)

Section ActivityLog.
Import Spec Laws MoreExamples.

Lemma lastN_all (A : Type) (n : nat) (l : list A) :
  List.length l <= n -> lastN n l = l.
Proof.
  intros H. unfold lastN. replace (List.length l - n) with 0 by lia.
  reflexivity.
Qed.

Lemma lastN_length (A : Type) (n : nat) (l : list A) :
  List.length (lastN n l) = Nat.min n (List.length l).
Proof. unfold lastN. rewrite length_skipn. lia. Qed.

Lemma lastN_app (A : Type) (n : nat) (l l' : list A) :
  lastN n (lastN n l ++ l') = lastN n (l ++ l').
Proof.
  unfold lastN. rewrite !length_app, length_skipn.
  rewrite !skipn_app, skipn_skipn, length_skipn.
  destruct (Nat.le_gt_cases (List.length l) n) as [Hle|Hgt].
  - replace (List.length l - n) with 0 by lia. simpl.
    rewrite !Nat.sub_0_r, Nat.add_0_r. reflexivity.
  - f_equal; [f_equal; lia | f_equal; lia].
Qed.

Lemma pushEntry_lastN (e : LogEntry) (log : list LogEntry) :
  List.length log <= 1000 -> pushEntry e log = lastN 1000 (log ++ [e]).
Proof.
  intros Hlen. unfold pushEntry. cbv zeta.
  destruct (Nat.ltb_spec 1000 (List.length (log ++ [e]))) as [Hlt|Hle].
  - rewrite length_app in Hlt. simpl in Hlt.
    unfold lastN. rewrite length_app. simpl.
    replace (List.length log + 1 - 1000) with 1 by lia.
    destruct (log ++ [e]); reflexivity.
  - symmetry. apply lastN_all. exact Hle.
Qed.

Lemma record_lastN (es : list LogEntry) (s : State) :
  List.length (suspiciousActivityLog s) <= 1000 ->
  suspiciousActivityLog (record es s)
  = lastN 1000 (suspiciousActivityLog s ++ es).
Proof.
  unfold record. simpl. generalize (suspiciousActivityLog s) as log.
  induction es as [|e es IH]; intros log Hlen; simpl.
  - rewrite app_nil_r. symmetry. apply lastN_all. exact Hlen.
  - rewrite IH.
    + rewrite (pushEntry_lastN e log Hlen), lastN_app, <- app_assoc.
      reflexivity.
    + rewrite (pushEntry_lastN e log Hlen), lastN_length. lia.
Qed.

Lemma record_bounded (es : list LogEntry) (s : State) :
  List.length (suspiciousActivityLog s) <= 1000 ->
  List.length (suspiciousActivityLog (record es s)) <= 1000.
Proof. intros H. rewrite (record_lastN es s H), lastN_length. lia. Qed.

Lemma createReview_log (M : MathEngine) (tz : TimeZone) (clock : Clock)
    (couponCode : string) (req : Request.t) (s : State) :
  exists es,
    suspiciousActivityLog (fst (createReview M tz clock couponCode req s))
    = suspiciousActivityLog (record es s).
Proof.
  rewrite createReview_result, guardChecks_result.
  destruct (find _ (businesses s)) as [b|]; [|exists []; reflexivity].
  destruct (negb _); [exists []; reflexivity|].
  match goal with |- context [if ?c then _ else _] => destruct c end;
    [eexists; reflexivity|].
  destruct (find _ (reviews s)); [exists []; reflexivity|].
  match goal with |- context [if ?c then _ else _] => destruct c end;
    [|eexists; reflexivity].
  rewrite securityValidation_result.
  destruct (poorAccuracy req); [eexists; reflexivity|].
  destruct (mockLocation req); [eexists; reflexivity|].
  destruct (manyAnomalies req); [eexists; reflexivity|].
  exists (advisoryEntries tz clock req s).
  accept_cases; reflexivity.
Qed.

(** X1.  The log keeps the latest thousand entries: after a batch of
    entries went through [logSuspiciousBehavior], the log is the last
    1000 elements of the old log followed by the batch, in order, so
    the oldest entries are dropped first and the newest entry is last;
    nothing else in the store changes. *)
Theorem log_keeps_latest_thousand (R : Type) (entries : list LogEntry)
    (s : State) :
  List.length (suspiciousActivityLog s) <= 1000 ->
  let s' :=
    fst (forEach entries
           (fun e => logSuspiciousBehavior (Response := R)
                       (userId e) (eventType e) (metadata e)) s) in
  suspiciousActivityLog s'
  = lastN 1000 (suspiciousActivityLog s ++ entries) /\
  List.length (suspiciousActivityLog s') <= 1000 /\
  reviews s' = reviews s /\ businesses s' = businesses s /\
  coupons s' = coupons s /\ pushed s' = pushed s.
Proof.
  intros Hlen. cbv zeta.
  assert (Hrec : forall (es : list LogEntry) (s0 : State),
             fst (forEach es
                    (fun e => logSuspiciousBehavior (Response := R)
                                (userId e) (eventType e) (metadata e)) s0)
             = record es s0).
  { induction es as [|e es IH]; intros s0; simpl.
    - rewrite record_nil. reflexivity.
    - unfold bind at 1. unfold logSuspiciousBehavior at 1, modify.
      rewrite IH.
      change (set_log (pushEntry (mkEntry (userId e) (eventType e)
                                          (metadata e))) s0)
        with (record [mkEntry (userId e) (eventType e) (metadata e)] s0).
      rewrite record_app. destruct e; reflexivity. }
  rewrite Hrec.
  split; [apply record_lastN; exact Hlen|].
  split; [apply record_bounded; exact Hlen|].
  repeat split.
Qed.

Lemma log_keeps_latest_thousand_witness :
  let s' :=
    fst (forEach [rateLimitEntry 8; rateLimitEntry 9]
           (fun e => logSuspiciousBehavior (Response := unit)
                       (userId e) (eventType e) (metadata e))
           storeWithFullLog) in
  suspiciousActivityLog s'
  = repeat (rateLimitEntry 7) 998 ++ [rateLimitEntry 8; rateLimitEntry 9] /\
  List.length (suspiciousActivityLog s') = 1000.
Proof.
  assert (Hlen : List.length (suspiciousActivityLog storeWithFullLog) <= 1000)
    by (apply Nat.leb_le; vm_compute; reflexivity).
  pose proof (@log_keeps_latest_thousand unit
                [rateLimitEntry 8; rateLimitEntry 9] storeWithFullLog Hlen)
    as H.
  cbv zeta in *. destruct H as (Hlog & _).
  split; [rewrite Hlog|rewrite Hlog]; vm_compute; reflexivity.
Defined.

(** X2.  Whatever requests [createReview] serves and whenever an
    administrator clears the log, the log never holds more than 1000
    entries; clearing reports the number of entries it held and leaves
    it empty. *)
Theorem log_never_exceeds_thousand (ops : list LogOperation) (s : State) :
  List.length (suspiciousActivityLog s) <= 1000 ->
  List.length (suspiciousActivityLog (fold_left (fun s op => logStep op s) ops s))
  <= 1000 /\
  snd (clearSuspiciousActivities s) = List.length (suspiciousActivityLog s) /\
  suspiciousActivityLog (fst (clearSuspiciousActivities s)) = [].
Proof.
  intros Hlen. split; [|split; reflexivity].
  revert s Hlen. induction ops as [|op ops IH]; intros s Hlen; simpl.
  - exact Hlen.
  - apply IH. destruct op as [M tz clock couponCode req|]; simpl.
    + destruct (createReview_log M tz clock couponCode req s) as [es ->].
      apply record_bounded. exact Hlen.
    + lia.
Qed.

Lemma log_never_exceeds_thousand_witness :
  List.length
    (suspiciousActivityLog
       (fold_left (fun s op => logStep op s)
          [Submit refMath utcZone (instant noon) "HASH-ABC123" flaggedVisit]
          storeWithFullLog)) <= 1000.
Proof.
  apply (@log_never_exceeds_thousand
           [Submit refMath utcZone (instant noon) "HASH-ABC123" flaggedVisit]
           storeWithFullLog).
  apply Nat.leb_le. vm_compute. reflexivity.
Defined.

End ActivityLog.

(* ================================================================== *)
(** * Coupon codes                                                     *)
(* ================================================================== *)

Section CouponCodes.
Import Laws CouponCode.
Local Open Scope string_scope.

Lemma string_app_assoc (a b c : string) : (a ++ b) ++ c = a ++ (b ++ c).
Proof. induction a as [|x a IH]; simpl; [reflexivity | rewrite IH; reflexivity]. Qed.

Lemma string_app_nil_r (a : string) : a ++ "" = a.
Proof. induction a as [|x a IH]; simpl; [reflexivity | rewrite IH; reflexivity]. Qed.

Lemma appendDraws_drawn (draw : nat -> nat) (count i : nat) (code : string) :
  appendDraws draw i count code = code ++ drawn draw i count.
Proof.
  revert i code. induction count as [|count IH]; intros i code; simpl.
  - symmetry. apply string_app_nil_r.
  - rewrite IH, string_app_assoc. reflexivity.
Qed.

Lemma charAt_characters (k : nat) :
  k < 36 ->
  exists c, charAt characters k = String c "" /\
            isCodeChar c = true /\ indexIn c characters = Some k.
Proof.
  intros Hk.
  do 36 (destruct k as [|k];
         [eexists; split; [reflexivity | split; reflexivity]|]).
  lia.
Qed.

Lemma drawn_format (draw : nat -> nat) (count i : nat) :
  (forall k, i <= k < i + count -> draw k < 36) ->
  String.length (drawn draw i count) = count /\
  forallb isCodeChar (list_ascii_of_string (drawn draw i count)) = true.
Proof.
  revert i. induction count as [|count IH]; intros i Hrange; simpl.
  - split; reflexivity.
  - destruct (charAt_characters (Hrange i ltac:(lia))) as (c & -> & Hc & _).
    destruct (IH (S i)) as (Hlen & Hall); [intros k Hk; apply Hrange; lia|].
    simpl. rewrite Hlen, Hc, Hall. split; reflexivity.
Qed.

Lemma drawn_injective (draw1 draw2 : nat -> nat) (count i : nat) :
  (forall k, i <= k < i + count -> draw1 k < 36 /\ draw2 k < 36) ->
  drawn draw1 i count = drawn draw2 i count ->
  forall k, i <= k < i + count -> draw1 k = draw2 k.
Proof.
  revert i. induction count as [|count IH]; intros i Hrange Heq k Hk;
    [lia|].
  simpl in Heq.
  destruct (Hrange i ltac:(lia)) as (H1 & H2).
  destruct (charAt_characters H1) as (c1 & E1 & _ & I1).
  destruct (charAt_characters H2) as (c2 & E2 & _ & I2).
  rewrite E1, E2 in Heq. simpl in Heq. injection Heq as Hc Hrest.
  destruct (Nat.eq_dec k i) as [->|Hne].
  - rewrite Hc in I1. congruence.
  - apply (IH (S i)); [intros j Hj; apply Hrange; lia | exact Hrest | lia].
Qed.

(** X3.  A generated coupon code has the form [HASH-] followed by
    [length] characters, each an upper-case letter or a digit (the
    pattern [/^HASH-[A-Z0-9]{length}$/] of the unit tests), whenever
    every draw is an index into the 36-character alphabet. *)
Theorem generateCouponCode_format (draw : nat -> nat) (length : nat) :
  (forall i, i < length -> draw i < 36) ->
  matchesFormat length (generateCouponCode draw length) = true /\
  String.length (generateCouponCode draw length) = 5 + length.
Proof.
  intros Hrange. unfold generateCouponCode.
  rewrite appendDraws_drawn. simpl.
  destruct (@drawn_format draw length 0) as (Hlen & Hall);
    [intros k Hk; apply Hrange; lia|].
  rewrite Hlen, Hall, Nat.eqb_refl. split; reflexivity.
Qed.

Lemma generateCouponCode_format_witness :
  matchesFormat 6 (generateCouponCode (fun i => 5 * i + 9) 6) = true /\
  String.length (generateCouponCode (fun i => 5 * i + 9) 6) = 11.
Proof.
  apply (@generateCouponCode_format (fun i => 5 * i + 9) 6).
  intros i Hi. lia.
Defined.

(** X4.  Codes determine their draws: two runs of the generator that
    return the same code of the same length drew the same index in
    every iteration, so two runs that differ in one draw give different
    codes. *)
Theorem generateCouponCode_injective (draw1 draw2 : nat -> nat)
    (length : nat) :
  (forall i, i < length -> draw1 i < 36 /\ draw2 i < 36) ->
  generateCouponCode draw1 length = generateCouponCode draw2 length ->
  forall i, i < length -> draw1 i = draw2 i.
Proof.
  intros Hrange Heq i Hi. unfold generateCouponCode in Heq.
  rewrite !appendDraws_drawn in Heq. simpl in Heq.
  injection Heq as Heq.
  apply (@drawn_injective draw1 draw2 length 0);
    [intros k Hk; apply Hrange; lia | exact Heq | lia].
Qed.

Lemma generateCouponCode_injective_witness :
  generateCouponCode (fun i => 5 * i + 9) 6 = "HASH-JOTY38" /\
  forall i, i < 6 -> 5 * i + 9 = 34 - 5 * (5 - i).
Proof.
  split; [vm_compute; reflexivity|].
  apply (@generateCouponCode_injective (fun i => 5 * i + 9)
           (fun i => 34 - 5 * (5 - i)) 6).
  - intros i Hi. split; lia.
  - vm_compute. reflexivity.
Defined.

End CouponCodes.

(* ================================================================== *)
(** * Discounts and the two validity checks                            *)
(* ================================================================== *)

Section DiscountBounds.
Import Spec MoreExamples.
Local Open Scope Q_scope.

Lemma share_nonneg (p v : Q) : 0 <= p -> 0 <= v -> 0 <= p * v / 100.
Proof.
  intros Hp Hv. apply Qle_shift_div_l; [reflexivity|].
  rewrite Qmult_0_l. apply Qmult_le_0_compat; assumption.
Qed.

Lemma capped_cases (cap share : Q) :
  (truthyQ cap && Qgtb share cap = true /\ cap < share) \/
  (truthyQ cap && Qgtb share cap = false /\ (cap == 0 \/ share <= cap)).
Proof.
  destruct (truthyQ cap) eqn:Ht; simpl.
  - destruct (Qgtb share cap) eqn:Hg.
    + left. split; [reflexivity|]. apply Qltb_lt. exact Hg.
    + right. split; [reflexivity|]. right. apply Qltb_ge. exact Hg.
  - right. split; [reflexivity|]. left.
    unfold truthyQ in Ht. apply negb_false_iff in Ht.
    apply Qeq_bool_iff. exact Ht.
Qed.

(** X5.  Bounds of [calculateDiscount] for a purchase amount, reward
    value and cap that are not negative: the discount is not negative;
    for fixed, free-drink and free-item coupons it exceeds neither the
    purchase nor the reward value; and a percentage coupon with a cap
    other than zero never gives more than the cap.  (A percentage or
    buy-one-get-one discount is the rounded quotient of a rounded
    product, and no bound by the purchase amount is stated for it.) *)
Theorem calculateDiscount_bounds (c : Coupon.t) (purchaseAmount : Q) :
  0 <= purchaseAmount ->
  0 <= Coupon.rewardValue c ->
  (forall cap, Coupon.maxDiscountAmount c = Some cap -> 0 <= cap) ->
  let discount := CouponUtils.calculateDiscount c purchaseAmount in
  0 <= discount /\
  (Coupon.rewardType c = Coupon.fixed \/
   Coupon.rewardType c = Coupon.free_drink \/
   Coupon.rewardType c = Coupon.free_item ->
   discount <= purchaseAmount /\ discount <= Coupon.rewardValue c) /\
  (forall cap, Coupon.rewardType c = Coupon.percentage ->
               Coupon.maxDiscountAmount c = Some cap -> ~ cap == 0 ->
               discount <= cap).
Proof.
  intros Hp Hv Hcap. cbv zeta. unfold CouponUtils.calculateDiscount.
  pose proof (share_nonneg Hp Hv) as Hshare.
  destruct (Coupon.rewardType c) eqn:Ht.
  - (* percentage *)
    destruct (Coupon.maxDiscountAmount c) as [cap|] eqn:Hm.
    + specialize (Hcap cap eq_refl).
      destruct (capped_cases cap (purchaseAmount * Coupon.rewardValue c / 100))
        as [(-> & Hlt)|(-> & Hle)].
      * split; [exact Hcap|].
        split; [intros [H|[H|H]]; discriminate|].
        intros cap' _ Hsome _. injection Hsome as <-. apply Qle_refl.
      * split; [exact Hshare|].
        split; [intros [H|[H|H]]; discriminate|].
        intros cap' _ Hsome Hnz. injection Hsome as <-.
        destruct Hle as [Hz|Hle]; [contradiction | exact Hle].
    + split; [exact Hshare|].
      split; [intros [H|[H|H]]; discriminate|].
      intros cap' _ Hsome. discriminate.
  - (* fixed *)
    split; [apply Q.min_glb; assumption|].
    split; [intros _; split; [apply Q.le_min_r | apply Q.le_min_l]|].
    intros cap' H; discriminate.
  - (* buy1get1 *)
    split; [exact Hshare|].
    split; [intros [H|[H|H]]; discriminate|].
    intros cap' H; discriminate.
  - (* free_drink *)
    split; [apply Q.min_glb; assumption|].
    split; [intros _; split; [apply Q.le_min_r | apply Q.le_min_l]|].
    intros cap' H; discriminate.
  - (* free_item *)
    split; [apply Q.min_glb; assumption|].
    split; [intros _; split; [apply Q.le_min_r | apply Q.le_min_l]|].
    intros cap' H; discriminate.
Qed.

Lemma calculateDiscount_bounds_witness :
  0 <= CouponUtils.calculateDiscount tenPercentCapFive 100 /\
  CouponUtils.calculateDiscount tenPercentCapFive 100 <= 5.
Proof.
  assert (Hp : 0 <= 100) by (vm_compute; discriminate).
  assert (Hv : 0 <= Coupon.rewardValue tenPercentCapFive)
    by (vm_compute; discriminate).
  assert (Hcap : forall cap,
             Coupon.maxDiscountAmount tenPercentCapFive = Some cap -> 0 <= cap)
    by (intros cap H; injection H as <-; vm_compute; discriminate).
  destruct (@calculateDiscount_bounds tenPercentCapFive 100 Hp Hv Hcap)
    as (H0 & _ & Hcapped).
  split; [exact H0|].
  apply (Hcapped 5); [reflexivity | reflexivity | vm_compute; discriminate].
Defined.

Lemma isCouponValid_iff (c : Coupon.t) (now : Z) :
  CouponUtils.isCouponValid c now = true <->
  Coupon.status c = Coupon.active /\
  (forall until, Coupon.validUntil c = date until -> (now <= until)%Z) /\
  (Coupon.validUntil c = null -> (now <= 0)%Z).
Proof.
  unfold CouponUtils.isCouponValid.
  destruct (Coupon.status_is (Coupon.status c) Coupon.active) eqn:Hs; simpl.
  - apply status_is_true in Hs.
    destruct (Coupon.validUntil c) as [| |until]; simpl.
    + split; [intros _|reflexivity].
      split; [exact Hs|]. split; [intros u H|intros H]; discriminate.
    + destruct (Z.gtb_spec now 0) as [Hgt|Hle].
      * split; [discriminate|]. intros (_ & _ & H). specialize (H eq_refl). lia.
      * split; [intros _|reflexivity].
        split; [exact Hs|]. split; [intros u H; discriminate|intros _; exact Hle].
    + destruct (Z.gtb_spec now until) as [Hgt|Hle].
      * split; [discriminate|]. intros (_ & H & _). specialize (H until eq_refl). lia.
      * split; [intros _|reflexivity].
        split; [exact Hs|].
        split; [intros u H; injection H as <-; exact Hle|intros H; discriminate].
  - apply status_is_false in Hs.
    split; [discriminate|]. intros (H & _). contradiction.
Qed.

(** X6.  [calculateCouponDiscount] answers with a discount exactly when
    the coupon exists, belongs to the requester, has status active, is
    not past its end date, and the purchase reaches the coupon's minimum
    purchase amount; the discount it then reports is that of
    [calculateDiscount] and the final amount is the purchase less the
    discount. *)
Theorem calculateCouponDiscount_quote (now : Z) (user couponId : ObjectId)
    (purchaseAmount discount finalAmount : Q) (c : Coupon.t) (s : State) :
  CouponController.calculateCouponDiscount now user couponId purchaseAmount s
  = CouponController.Discount discount finalAmount c
  <->
  couponById couponId s = Some c /\
  Coupon.user c = Some user /\
  Coupon.status c = Coupon.active /\
  (forall until, Coupon.validUntil c = date until -> (now <= until)%Z) /\
  (Coupon.validUntil c = null -> (now <= 0)%Z) /\
  Coupon.minPurchaseAmount c <= purchaseAmount /\
  discount = CouponUtils.calculateDiscount c purchaseAmount /\
  finalAmount = purchaseAmount - discount.
Proof.
  unfold CouponController.calculateCouponDiscount, couponById.
  destruct (find _ (coupons s)) as [c0|];
    [|split; [discriminate | intros (H & _); discriminate]].
  destruct (Coupon.user c0) as [u|] eqn:Hu;
    [|split; [discriminate
             | intros (H & Hu' & _); injection H as <-; congruence]].
  destruct (Nat.eqb_spec u user) as [->|Hne]; simpl.
  - destruct (CouponUtils.isCouponValid c0 now) eqn:Hv; simpl.
    + apply isCouponValid_iff in Hv. destruct Hv as (Hs & Hd & Hn).
      destruct (Qltb purchaseAmount (Coupon.minPurchaseAmount c0)) eqn:Hm.
      * apply Qltb_lt in Hm.
        split; [discriminate|].
        intros (H & _ & _ & _ & _ & Hmin & _). injection H as <-.
        exfalso. exact (Qlt_irrefl _ (Qlt_le_trans _ _ _ Hm Hmin)).
      * apply Qltb_ge in Hm. split.
        -- intros H. injection H as <- <- <-. repeat split; assumption.
        -- intros (H & _ & _ & _ & _ & _ & -> & ->). injection H as <-.
           reflexivity.
    + split; [discriminate|].
      intros (H & _ & Hs & Hd & Hn & _). injection H as <-.
      assert (CouponUtils.isCouponValid c0 now = true)
        by (apply isCouponValid_iff; repeat split; assumption).
      congruence.
  - split; [discriminate|].
    intros (H & Hu' & _). injection H as <-. congruence.
Qed.

Lemma calculateCouponDiscount_quote_witness :
  CouponController.calculateCouponDiscount (noon + 1) 7%nat 2001%nat 100
                                           storeWithReward
  = CouponController.Discount 5 (100 - 5) tenPercentCapFive.
Proof.
  apply (calculateCouponDiscount_quote (noon + 1) 7%nat 2001%nat 100 5
           (100 - 5) tenPercentCapFive storeWithReward).
  split; [reflexivity|]. split; [reflexivity|]. split; [reflexivity|].
  split; [intros u H; injection H as <-; vm_compute; discriminate|].
  split; [intros H; discriminate|].
  split; [vm_compute; discriminate|].
  split; reflexivity.
Defined.

(** X7.  The two validity checks compared.  [isCouponValid] holds
    exactly for a coupon of status active that is not past its end
    date, where an end date stored as [null] counts as the epoch; such
    a coupon also passes the coupon document's [isValid] method when its
    activation flag is set, its start date has passed and, for a
    business coupon, its usage limit is not reached. *)
Theorem isCouponValid_stricter_than_isValid (c : Coupon.t) (now : Z) :
  (CouponUtils.isCouponValid c now = true <->
   Coupon.status c = Coupon.active /\
   (forall until, Coupon.validUntil c = date until -> (now <= until)%Z) /\
   (Coupon.validUntil c = null -> (now <= 0)%Z)) /\
  (CouponUtils.isCouponValid c now = true ->
   Coupon.isActive c = true ->
   (forall from, Coupon.validFrom c = Some from -> (from <= now)%Z) ->
   (Coupon.type c = Coupon.business_ ->
    forall limit, Coupon.usageLimit c = Some limit -> limit <> 0%Z ->
                  (Coupon.usageCount c < limit)%Z) ->
   Coupon.isValid c now = true).
Proof.
  split; [apply isCouponValid_iff|].
  intros Hv Hflag Hfrom Husage.
  apply isCouponValid_iff in Hv. destruct Hv as (Hs & Hd & _).
  rewrite isValid_conjunction.
  apply andb_true_iff. split; [apply andb_true_iff; split;
                               [apply andb_true_iff; split|]|].
  - apply activeByFlag_true. split; [exact Hflag | congruence].
  - apply withinWindow_true. split; assumption.
  - apply usageLimit_respected. exact Husage.
  - apply not_redeemed_reward. intros _. congruence.
Qed.

Lemma isCouponValid_stricter_than_isValid_witness :
  Coupon.isValid tenPercentCapFive (noon + 1) = true.
Proof.
  apply (isCouponValid_stricter_than_isValid tenPercentCapFive (noon + 1)).
  - vm_compute. reflexivity.
  - reflexivity.
  - intros from H. injection H as <-. vm_compute. discriminate.
  - intros H. discriminate.
Defined.

End DiscountBounds.

(* ================================================================== *)
(** * The expiry sweep                                                 *)
(* ================================================================== *)

Section Sweep.
Import Coupon CouponLifecycle Spec Laws MoreExamples.

Lemma expireCoupons_map (now : Z) (s : State) :
  expireCoupons now s
  = set_coupons (map (fun c => if expiredQuery now c
                               then set_status expired c else c)) s.
Proof.
  unfold expireCoupons.
  destruct (List.length (filter (expiredQuery now) (coupons s)) =? 0) eqn:E;
    [|reflexivity].
  apply Nat.eqb_eq, length_zero_iff_nil in E.
  destruct s as [rs bs cs log ps n]. unfold set_coupons. simpl in *.
  f_equal. symmetry. rewrite <- (map_id cs) at 2. apply map_ext_in.
  intros c Hc. destruct (expiredQuery now c) eqn:Hq; [|reflexivity].
  assert (In c (filter (expiredQuery now) cs))
    by (apply filter_In; split; assumption).
  rewrite E in H. contradiction.
Qed.

Lemma expiredQuery_set_expired (now : Z) (c : Coupon.t) :
  expiredQuery now (set_status expired c) = false.
Proof.
  unfold expiredQuery. simpl. apply andb_false_intro1, andb_false_intro2.
  reflexivity.
Qed.

Lemma expiredQuery_monotone (now later : Z) (c : Coupon.t) :
  (now <= later)%Z -> expiredQuery now c = true -> expiredQuery later c = true.
Proof.
  intros Hle Hq. apply expiredQuery_true in Hq.
  destruct Hq as (Ht & Hs & until & Hu & Hlt).
  apply expiredQuery_true. repeat split; try assumption.
  exists until. split; [exact Hu | lia].
Qed.

(** X8.  The expiry sweep is complete, idempotent and cumulative: after
    [expireCoupons] ran at time [now], no coupon in the store matches
    its query any more (no active review-reward coupon has an end date
    before [now]); running it again at the same or an earlier time
    changes nothing; and a sweep followed by a later sweep leaves the
    same store as the later sweep alone.  The sweep neither adds nor
    removes coupons. *)
Theorem expireCoupons_complete_and_idempotent (now : Z) (s : State) :
  (forall c, In c (coupons (expireCoupons now s)) ->
             expiredQuery now c = false) /\
  (forall earlier, (earlier <= now)%Z ->
     expireCoupons earlier (expireCoupons now s) = expireCoupons now s) /\
  (forall later, (now <= later)%Z ->
     expireCoupons later (expireCoupons now s) = expireCoupons later s) /\
  List.length (coupons (expireCoupons now s)) = List.length (coupons s).
Proof.
  split; [|split; [|split]].
  - intros c. rewrite expireCoupons_map. simpl. rewrite in_map_iff.
    intros (c0 & <- & _).
    destruct (expiredQuery now c0) eqn:Hq;
      [apply expiredQuery_set_expired | exact Hq].
  - intros earlier Hle. rewrite !expireCoupons_map.
    unfold set_coupons. simpl. f_equal. rewrite map_map.
    apply map_ext. intros c.
    destruct (expiredQuery now c) eqn:Hq.
    + rewrite expiredQuery_set_expired. reflexivity.
    + destruct (expiredQuery earlier c) eqn:Hq'; [|reflexivity].
      rewrite (expiredQuery_monotone _ Hle Hq') in Hq. discriminate.
  - intros later Hle. rewrite !expireCoupons_map.
    unfold set_coupons. simpl. f_equal. rewrite map_map.
    apply map_ext. intros c.
    destruct (expiredQuery now c) eqn:Hq; [|reflexivity].
    rewrite expiredQuery_set_expired, (expiredQuery_monotone _ Hle Hq).
    reflexivity.
  - rewrite expireCoupons_map. simpl. apply length_map.
Qed.

Lemma expireCoupons_complete_and_idempotent_witness :
  expiredQuery nextNoon staleReward = true /\
  map status (coupons (expireCoupons nextNoon storeWithStaleReward))
  = [expired] /\
  expireCoupons noon (expireCoupons nextNoon storeWithStaleReward)
  = expireCoupons nextNoon storeWithStaleReward.
Proof.
  split; [vm_compute; reflexivity|].
  split; [vm_compute; reflexivity|].
  destruct (expireCoupons_complete_and_idempotent nextNoon
              storeWithStaleReward) as (_ & Hidem & _).
  apply Hidem. vm_compute. discriminate.
Defined.

End Sweep.

(* ================================================================== *)
(** * Redemption                                                       *)
(* ================================================================== *)

Section Redemption.
Import Coupon CouponLifecycle Spec Laws MoreExamples.

Lemma find_updateById_gen (A : Type) (idOf : A -> ObjectId)
    (x y : ObjectId) (f : A -> A) (l : list A) :
  (forall a, idOf (f a) = idOf a) ->
  find (fun a => idOf a =? x) (updateById idOf y f l)
  = option_map (fun a => if y =? x then f a else a)
               (find (fun a => idOf a =? x) l).
Proof.
  intros Hf. induction l as [|d l IH]; simpl; [reflexivity|].
  destruct (Nat.eqb_spec (idOf d) y) as [Hy|Hy]; simpl.
  - rewrite Hf. destruct (Nat.eqb_spec (idOf d) x) as [Hx|Hx]; simpl.
    + rewrite <- Hy, Hx, Nat.eqb_refl. reflexivity.
    + destruct (Nat.eqb_spec y x) as [Hyx|_]; [congruence|].
      destruct (find _ l); reflexivity.
  - destruct (Nat.eqb_spec (idOf d) x) as [Hx|Hx]; simpl.
    + destruct (Nat.eqb_spec y x) as [Hyx|_]; [congruence | reflexivity].
    + exact IH.
Qed.

(** The outcome of a scan, case by case. *)
Lemma scan_result (clock : ScanClock) (requester : Requester) (ty : string)
    (couponId : ObjectId) (s : State) :
  scanAndRedeemCoupon clock requester (QrParsed ty (Some couponId)) s =
  if negb (ty =? "coupon")%string then (s, QrInvalidCoupon) else
  match couponById couponId s with
  | None => (s, ScanCouponNotFound)
  | Some c =>
    match businessById (business c) s with
    | None => (s, ScanError)
    | Some b =>
      if negb (Business.owner b =? id requester) &&
         negb (is_admin (role requester))
      then (s, ScanNotAuthorized)
      else if status_is (status c) redeemed then (s, AlreadyRedeemed c)
      else if status_is (status c) expired ||
              match validUntil c with
              | date until => (at_expiryCheck clock >? until)%Z
              | _ => false
              end
      then
        if negb (status_is (status c) expired)
        then (set_coupons (updateById _id (_id c) (set_status expired)) s,
              CouponExpired (set_status expired c))
        else (s, CouponExpired c)
      else if negb (isValid c (at_isValid clock)) then (s, CouponNotValid c)
      else (afterScan clock requester c s,
            ScanRedeemed (set_redeemed (at_redeemedAt clock) (id requester) c))
    end
  end.
Proof.
  unfold scanAndRedeemCoupon, run, scanAndRedeemHandler, couponById,
    businessById.
  destruct (negb (ty =? "coupon")%string); [reflexivity|].
  unfold bind, findCoupon, findBusiness, gets, respond, saveCoupon, modify,
    ret.
  destruct (find (fun c => _id c =? couponId) (coupons s)) as [c|];
    [|reflexivity].
  destruct (find (fun b => Business._id b =? business c) (businesses s))
    as [b|] eqn:Hb; [|reflexivity].
  apply find_some_id in Hb.
  destruct (negb (Business.owner b =? id requester) &&
            negb (is_admin (role requester))); [reflexivity|].
  destruct (status_is (status c) redeemed); [reflexivity|].
  destruct (status_is (status c) expired ||
            match validUntil c with
            | date until => (at_expiryCheck clock >? until)%Z
            | _ => false end).
  { destruct (negb (status_is (status c) expired)); reflexivity. }
  destruct (negb (isValid c (at_isValid clock))); [reflexivity|].
  unfold afterScan. cbv zeta. rewrite Hb.
  destruct (type_is (type c) review_reward).
  - match goal with
    | |- context [find ?p (coupons ?st)] =>
        destruct (find p (coupons st)) as [template|]
    end; destruct (user c); reflexivity.
  - destruct (user c); reflexivity.
Qed.

Lemma not_authorized_check (requester : Requester) (b : Business.t) :
  negb (Business.owner b =? id requester) && negb (is_admin (role requester))
  = false -> authorized requester b.
Proof.
  intros H. apply andb_false_iff in H. destruct H as [H|H].
  - left. apply negb_false_iff, Nat.eqb_eq in H. exact H.
  - right. apply negb_false_iff in H. destruct (role requester);
      try discriminate. reflexivity.
Qed.

Lemma Redeemable_checks (clock : ScanClock) (c : Coupon.t) :
  Redeemable clock c <->
  status_is (status c) redeemed = false /\
  status_is (status c) expired ||
    match validUntil c with
    | date until => (at_expiryCheck clock >? until)%Z
    | _ => false
    end = false /\
  negb (isValid c (at_isValid clock)) = false.
Proof.
  unfold Redeemable.
  rewrite !status_is_false, orb_false_iff, status_is_false, negb_false_iff.
  split.
  - intros (Hr & He & Hu & Hv). repeat split; try assumption.
    destruct (validUntil c) as [| |until]; try reflexivity.
    specialize (Hu until eq_refl). rewrite Z.gtb_ltb. apply Z.ltb_ge.
    exact Hu.
  - intros (Hr & (He & Hu) & Hv). repeat split; try assumption.
    intros u Hd. rewrite Hd in Hu.
    rewrite Z.gtb_ltb in Hu. apply Z.ltb_ge in Hu. exact Hu.
Qed.

(** X9.  A scan redeems exactly when the QR payload is of type
    [coupon] and names a stored coupon whose business exists, the
    requester owns that business or is an administrator, the coupon is
    neither redeemed nor expired, is not past its end date and passes
    [isValid]; the response then carries the coupon with status
    redeemed, the time and the requester, and the store is the one in
    which that coupon is redeemed, the business's active template (for a
    review reward) counts one more redemption and the coupon's user is
    notified. *)
Theorem scan_redeems_iff (clock : ScanClock) (requester : Requester)
    (qr : QrInput) (s s' : State) (c' : Coupon.t) :
  scanAndRedeemCoupon clock requester qr s = (s', ScanRedeemed c') <->
  exists couponId c b,
    qr = QrParsed "coupon" (Some couponId) /\
    couponById couponId s = Some c /\
    businessById (business c) s = Some b /\
    authorized requester b /\
    Redeemable clock c /\
    c' = set_redeemed (at_redeemedAt clock) (id requester) c /\
    s' = afterScan clock requester c s.
Proof.
  split.
  - destruct qr as [ | |ty [couponId|]]; try discriminate.
    rewrite scan_result.
    destruct (String.eqb_spec ty "coupon") as [->|Hne]; simpl;
      [|discriminate].
    destruct (couponById couponId s) as [c|] eqn:Hc; [|discriminate].
    destruct (businessById (business c) s) as [b|] eqn:Hb; [|discriminate].
    destruct (negb (Business.owner b =? id requester) &&
              negb (is_admin (role requester))) eqn:Hauth; [discriminate|].
    destruct (status_is (status c) redeemed) eqn:Hr; [discriminate|].
    destruct (status_is (status c) expired ||
              match validUntil c with
              | date until => (at_expiryCheck clock >? until)%Z
              | _ => false end) eqn:He.
    { destruct (negb (status_is (status c) expired)); discriminate. }
    destruct (negb (isValid c (at_isValid clock))) eqn:Hv; [discriminate|].
    intros H. injection H as <- <-.
    exists couponId, c, b. split; [reflexivity|].
    split; [exact Hc|]. split; [exact Hb|].
    split; [apply not_authorized_check; exact Hauth|].
    split; [apply Redeemable_checks; auto|]. split; reflexivity.
  - intros (couponId & c & b & -> & Hc & Hb & Hauth & Hred & -> & ->).
    rewrite scan_result, Hc, Hb, (authorized_check Hauth). simpl.
    apply Redeemable_checks in Hred. destruct Hred as (-> & -> & ->).
    reflexivity.
Qed.

Lemma scan_redeems_iff_witness :
  scanAndRedeemCoupon (mkScanClock noon noon noon) cafeOwner
    (QrParsed "coupon" (Some 500)) storeWithHouseCoupon
  = (afterScan (mkScanClock noon noon noon) cafeOwner houseCoupon
               storeWithHouseCoupon,
     ScanRedeemed (set_redeemed noon 100 houseCoupon)).
Proof.
  apply (scan_redeems_iff (mkScanClock noon noon noon) cafeOwner
           (QrParsed "coupon" (Some 500)) storeWithHouseCoupon).
  exists 500, houseCoupon, cafe.
  split; [reflexivity|]. split; [reflexivity|]. split; [reflexivity|].
  split; [left; reflexivity|].
  split; [|split; reflexivity].
  split; [discriminate|]. split; [discriminate|].
  split; [intros u H; discriminate | vm_compute; reflexivity].
Defined.

Lemma redeem_result (clock : RedeemClock) (requester : Requester)
    (couponId : ObjectId) (s : State) :
  redeemCoupon clock requester couponId s =
  match couponById couponId s with
  | None => (s, RedeemCouponNotFound)
  | Some c =>
    match businessById (business c) s with
    | None => (s, RedeemError)
    | Some b =>
      if negb (Business.owner b =? id requester) &&
         negb (is_admin (role requester))
      then (s, RedeemNotAuthorized)
      else if negb (CouponUtils.isCouponValid c (at_isCouponValid clock))
      then (s, ExpiredOrAlreadyRedeemed)
      else (set_coupons
              (updateById _id (_id c)
                 (set_redeemed (at_redeemed clock) (id requester))) s,
            RedeemRedeemed (set_redeemed (at_redeemed clock) (id requester) c))
    end
  end.
Proof.
  unfold redeemCoupon, run, redeemHandler, couponById, businessById, bind,
    findCoupon, findBusiness, gets, respond, saveCoupon, modify, ret.
  destruct (find (fun c => _id c =? couponId) (coupons s)) as [c|];
    [|reflexivity].
  destruct (find (fun b => Business._id b =? business c) (businesses s))
    as [b|]; [|reflexivity].
  destruct (negb (Business.owner b =? id requester) &&
            negb (is_admin (role requester))); [reflexivity|].
  destruct (negb (CouponUtils.isCouponValid c (at_isCouponValid clock)));
    reflexivity.
Qed.

(** X10.  [redeemCoupon] redeems exactly when the coupon exists, its
    business exists, the requester owns that business or is an
    administrator, and the coupon has status active and is not past its
    end date (an end date stored as [null] counting as the epoch).  On
    success only that coupon document changes: unlike a scan, no
    template's redemption count moves and nobody is notified. *)
Theorem redeemCoupon_redeems_iff (clock : RedeemClock) (requester : Requester)
    (couponId : ObjectId) (s s' : State) (c' : Coupon.t) :
  (redeemCoupon clock requester couponId s = (s', RedeemRedeemed c') <->
   exists c b,
     couponById couponId s = Some c /\
     businessById (business c) s = Some b /\
     authorized requester b /\
     status c = active /\
     (forall u, validUntil c = date u -> (at_isCouponValid clock <= u)%Z) /\
     (validUntil c = null -> (at_isCouponValid clock <= 0)%Z) /\
     c' = set_redeemed (at_redeemed clock) (id requester) c /\
     s' = set_coupons
            (updateById _id (_id c)
               (set_redeemed (at_redeemed clock) (id requester))) s) /\
  (redeemCoupon clock requester couponId s = (s', RedeemRedeemed c') ->
   pushed s' = pushed s /\
   map redemptionCount (coupons s') = map redemptionCount (coupons s) /\
   map usageCount (coupons s') = map usageCount (coupons s) /\
   reviews s' = reviews s /\ businesses s' = businesses s).
Proof.
  rewrite redeem_result. split; [split|].
  - destruct (couponById couponId s) as [c|] eqn:Hc; [|discriminate].
    destruct (businessById (business c) s) as [b|] eqn:Hb; [|discriminate].
    destruct (negb (Business.owner b =? id requester) &&
              negb (is_admin (role requester))) eqn:Hauth; [discriminate|].
    destruct (CouponUtils.isCouponValid c (at_isCouponValid clock)) eqn:Hv;
      simpl; [|discriminate].
    intros H. injection H as <- <-.
    apply isCouponValid_iff in Hv. destruct Hv as (Hs & Hd & Hn).
    exists c, b. split; [reflexivity|]. split; [exact Hb|].
    split; [apply not_authorized_check; exact Hauth|].
    repeat split; assumption.
  - intros (c & b & -> & -> & Hauth & Hs & Hd & Hn & -> & ->).
    rewrite (authorized_check Hauth).
    assert (Hv : CouponUtils.isCouponValid c (at_isCouponValid clock) = true)
      by (apply isCouponValid_iff; repeat split; assumption).
    rewrite Hv. reflexivity.
  - destruct (couponById couponId s) as [c|]; [|discriminate].
    destruct (businessById (business c) s) as [b|]; [|discriminate].
    destruct (negb (Business.owner b =? id requester) &&
              negb (is_admin (role requester))); [discriminate|].
    destruct (negb (CouponUtils.isCouponValid c (at_isCouponValid clock)));
      [discriminate|].
    intros H. injection H as <- _. simpl.
    split; [reflexivity|].
    split; [apply map_updateById; reflexivity|].
    split; [apply map_updateById; reflexivity|]. split; reflexivity.
Qed.

Lemma redeemCoupon_redeems_iff_witness :
  redeemCoupon (mkRedeemClock (noon + 1) (noon + 1)) cafeOwner 2001
               storeWithReward
  = (set_coupons
       (updateById _id 2001 (set_redeemed (noon + 1) 100)) storeWithReward,
     RedeemRedeemed (set_redeemed (noon + 1) 100 tenPercentCapFive)).
Proof.
  apply (redeemCoupon_redeems_iff (mkRedeemClock (noon + 1) (noon + 1))
           cafeOwner 2001 storeWithReward).
  exists tenPercentCapFive, cafe.
  split; [reflexivity|]. split; [reflexivity|]. split; [left; reflexivity|].
  split; [reflexivity|].
  split; [intros u H; injection H as <-; vm_compute; discriminate|].
  split; [intros H; discriminate|]. split; reflexivity.
Defined.





End Redemption.

(* ================================================================== *)
(** * From the review to the redemption                                *)
(* ================================================================== *)

Section MintAndScan.
Import Coupon CouponLifecycle Spec Laws MoreExamples.

Variable M : MathEngine.
Variable tz : TimeZone.
Variable clock : Clock.
Variable couponCode : string.
Variable req : Request.t.

Lemma find_app_none (A : Type) (p : A -> bool) (l l' : list A) :
  (forall a, In a l -> p a = false) -> find p (l ++ l') = find p l'.
Proof.
  induction l as [|a l IH]; intros H; simpl; [reflexivity|].
  rewrite (H a (or_introl eq_refl)). apply IH.
  intros a' Ha'. apply H. right. exact Ha'.
Qed.

(** The coupon [createReview] mints is stored under its own [_id], with
    the business under the coupon's business. *)
Lemma minted_coupon_stored (s : State) (b : Business.t)
    (minted_ : Coupon.t) :
  Accepted M tz clock req s b ->
  minted (snd (createReview M tz clock couponCode req s)) = Some minted_ ->
  (forall c, In c (coupons s) -> _id c <> S (nextId s)) ->
  let result := createReview M tz clock couponCode req s in
  let cid := S (nextId s) in
  let coupon :=
    set_qrCodeData
      (mkQr "coupon" cid couponCode (Request.business req)
            (Request.user_id req) (nextId s))
      (newCoupon tz clock couponCode req cid
         (newReview clock req (nextId s) b (distanceTo M req b))
         (templateOf req s)) in
  minted_ = coupon /\
  couponById cid (fst result) = Some coupon /\
  exists b', businessById (Request.business req) (fst result) = Some b' /\
             Business.owner b' = Business.owner b.
Proof.
  intros Hacc Hminted Hfresh. cbv zeta. revert Hminted.
  rewrite (createReview_accepted couponCode Hacc).
  set (s1 := record (advisoryEntries tz clock req s) s).
  accept_cases; try discriminate.
  change (templateOf req s1) with (templateOf req s).
  change (coupons s1) with (coupons s).
  change (nextId s1) with (nextId s).
  change (businesses s1) with (businesses s).
  simpl. intros Hminted. injection Hminted as <-.
  split; [reflexivity|]. split.
  - unfold couponById. simpl.
    match goal with
    | |- find ?p (match _ with Some _ => _ | None => ?l ++ [?c] end) = _ =>
        assert (Hfind : find p (l ++ [c]) = Some c)
    end.
    { rewrite find_app_none.
      - simpl. rewrite Nat.eqb_refl. reflexivity.
      - intros a Ha. apply Nat.eqb_neq. apply Hfresh. exact Ha. }
    destruct (templateOf req s) as [template|] eqn:Ht; [|exact Hfind].
    rewrite find_updateById_gen, Hfind by reflexivity. simpl.
    unfold templateOf in Ht. apply find_some in Ht. destruct Ht as [Hin _].
    apply Hfresh in Hin. apply Nat.eqb_neq in Hin. rewrite Hin. reflexivity.
  - destruct Hacc as ((Hb & _) & _).
    unfold businessById. simpl.
    eexists. split; [apply find_updateById; [reflexivity | exact Hb]|].
    reflexivity.
Qed.

(** X12.  From the review to the redemption.  When an accepted review
    earned a coupon (the response carries it), the QR payload stored
    with that coupon, scanned by the owner of the business (or an
    administrator) at any time from the coupon's start to its end date,
    redeems exactly that coupon: the scan answers with the minted
    coupon, now redeemed by the scanner, and leaves the store in which
    it is redeemed. *)
Theorem minted_coupon_redeems (s : State) (b : Business.t)
    (requester : Requester) (sclock : ScanClock) (coupon : Coupon.t) :
  Accepted M tz clock req s b ->
  minted (snd (createReview M tz clock couponCode req s)) = Some coupon ->
  (forall c, In c (coupons s) -> _id c <> S (nextId s)) ->
  authorized requester b ->
  (at_validFrom clock <= at_isValid sclock)%Z ->
  (at_expiryCheck sclock <= couponExpiry tz clock)%Z ->
  (at_isValid sclock <= couponExpiry tz clock)%Z ->
  let result := createReview M tz clock couponCode req s in
  user coupon = Some (Request.user_id req) /\
  scanAndRedeemCoupon sclock requester (presented coupon) (fst result)
  = (afterScan sclock requester coupon (fst result),
     ScanRedeemed
       (set_redeemed (at_redeemedAt sclock) (id requester) coupon)).
Proof.
  intros Hacc Hminted Hfresh Hauth Hfrom Hcheck Hvalid. cbv zeta.
  destruct (minted_coupon_stored Hacc Hminted Hfresh)
    as (-> & Hstored & b' & Hb' & Howner).
  split; [reflexivity|].
  unfold presented. cbn [qrCodeData set_qrCodeData qr_type qr_couponId].
  rewrite scan_result, Hstored.
  cbn [business set_qrCodeData newCoupon].
  rewrite Hb'.
  assert (Hauth' : authorized requester b')
    by (unfold authorized in *; rewrite Howner; exact Hauth).
  rewrite (authorized_check Hauth').
  cbn [status validUntil set_qrCodeData newCoupon negb String.eqb].
  unfold isValid.
  cbn [status validUntil validFrom isActive type usageLimit set_qrCodeData
       newCoupon].
  replace (at_expiryCheck sclock >? couponExpiry tz clock)%Z with false
    by (symmetry; rewrite Z.gtb_ltb; apply Z.ltb_ge; exact Hcheck).
  replace (at_isValid sclock >? couponExpiry tz clock)%Z with false
    by (symmetry; rewrite Z.gtb_ltb; apply Z.ltb_ge; exact Hvalid).
  replace (at_isValid sclock <? at_validFrom clock)%Z with false
    by (symmetry; apply Z.ltb_ge; exact Hfrom).
  reflexivity.
Qed.

Lemma find_map_id (A : Type) (idOf : A -> ObjectId) (x : ObjectId)
    (g : A -> A) (l : list A) :
  (forall a, idOf (g a) = idOf a) ->
  find (fun a => idOf a =? x) (map g l)
  = option_map g (find (fun a => idOf a =? x) l).
Proof.
  intros Hg. induction l as [|a l IH]; simpl; [reflexivity|].
  rewrite Hg. destruct (idOf a =? x); [reflexivity | exact IH].
Qed.

(** X13.  After its end date a minted coupon can no longer be redeemed:
    for the coupon an accepted review earned (the response carries it),
    a scan of its QR payload by the owner answers "expired" and stores
    the coupon with status expired, [redeemCoupon] answers "expired or
    already redeemed" and leaves the store as it is, and the expiry
    sweep stores the coupon with status expired. *)
Theorem minted_coupon_expires (s : State) (b : Business.t)
    (requester : Requester) (coupon : Coupon.t) :
  Accepted M tz clock req s b ->
  minted (snd (createReview M tz clock couponCode req s)) = Some coupon ->
  (forall c, In c (coupons s) -> _id c <> S (nextId s)) ->
  authorized requester b ->
  let result := createReview M tz clock couponCode req s in
  (forall sclock,
     (couponExpiry tz clock < at_expiryCheck sclock)%Z ->
     scanAndRedeemCoupon sclock requester (presented coupon) (fst result)
     = (set_coupons (updateById _id (_id coupon) (set_status expired))
                    (fst result),
        CouponExpired (set_status expired coupon))) /\
  (forall rclock,
     (couponExpiry tz clock < at_isCouponValid rclock)%Z ->
     redeemCoupon rclock requester (_id coupon) (fst result)
     = (fst result, ExpiredOrAlreadyRedeemed)) /\
  (forall now,
     (couponExpiry tz clock < now)%Z ->
     couponById (_id coupon) (expireCoupons now (fst result))
     = Some (set_status expired coupon)).
Proof.
  intros Hacc Hminted Hfresh Hauth. cbv zeta.
  destruct (minted_coupon_stored Hacc Hminted Hfresh)
    as (-> & Hstored & b' & Hb' & Howner).
  assert (Hauth' : authorized requester b')
    by (unfold authorized in *; rewrite Howner; exact Hauth).
  cbn [_id set_qrCodeData newCoupon].
  split; [|split].
  - intros sclock Hlate.
    unfold presented. cbn [qrCodeData set_qrCodeData qr_type qr_couponId].
    rewrite scan_result, Hstored.
    cbn [business set_qrCodeData newCoupon]. rewrite Hb'.
    rewrite (authorized_check Hauth').
    cbn [status validUntil set_qrCodeData newCoupon negb String.eqb].
    replace (at_expiryCheck sclock >? couponExpiry tz clock)%Z with true
      by (symmetry; rewrite Z.gtb_ltb; apply Z.ltb_lt; exact Hlate).
    reflexivity.
  - intros rclock Hlate.
    rewrite redeem_result, Hstored.
    cbn [business set_qrCodeData newCoupon]. rewrite Hb'.
    rewrite (authorized_check Hauth').
    unfold CouponUtils.isCouponValid, CouponUtils.newDate.
    cbn [status validUntil set_qrCodeData newCoupon].
    replace (at_isCouponValid rclock >? couponExpiry tz clock)%Z with true
      by (symmetry; rewrite Z.gtb_ltb; apply Z.ltb_lt; exact Hlate).
    reflexivity.
  - intros now Hlate. rewrite expireCoupons_map.
    unfold couponById in *. cbn [coupons set_coupons].
    rewrite find_map_id, Hstored
      by (intros a; destruct (expiredQuery now a); reflexivity).
    unfold expiredQuery.
    cbn [option_map type status validUntil set_qrCodeData newCoupon].
    replace (couponExpiry tz clock <? now)%Z with true
      by (symmetry; apply Z.ltb_lt; exact Hlate).
    reflexivity.
Qed.

End MintAndScan.

Section MintAndScanOnExamples.
Import Coupon CouponLifecycle Spec Laws MoreExamples.

Lemma bareVisit_accepted_with_template :
  Accepted refMath utcZone (instant noon) (bareVisit 7 5%float)
           storeWithBuyOneGetOne cafe.
Proof.
  split; [|repeat split].
  unfold PassesGuards.
  split; [reflexivity|]. split; [reflexivity|].
  split; [apply Nat.ltb_lt; vm_compute; reflexivity|].
  split; vm_compute; reflexivity.
Defined.

Lemma minted_coupon_redeems_witness :
  let result := createReview refMath utcZone (instant noon) "HASH-ABC123"
                             (bareVisit 7 5%float) storeWithBuyOneGetOne in
  exists coupon,
    minted (snd result) = Some coupon /\
    user coupon = Some 7 /\
    scanAndRedeemCoupon
      (mkScanClock (noon + msPerHour) (noon + msPerHour) (noon + msPerHour))
      cafeOwner (presented coupon) (fst result)
    = (afterScan
         (mkScanClock (noon + msPerHour) (noon + msPerHour) (noon + msPerHour))
         cafeOwner coupon (fst result),
       ScanRedeemed (set_redeemed (noon + msPerHour) 100 coupon)).
Proof.
  cbv zeta.
  assert (Hminted :
            exists coupon,
              minted (snd (createReview refMath utcZone (instant noon)
                             "HASH-ABC123" (bareVisit 7 5%float)
                             storeWithBuyOneGetOne)) = Some coupon).
  { eexists. vm_compute. reflexivity. }
  destruct Hminted as (coupon & Hminted).
  exists coupon. split; [exact Hminted|].
  apply (@minted_coupon_redeems refMath utcZone (instant noon) "HASH-ABC123"
           (bareVisit 7 5%float) storeWithBuyOneGetOne cafe cafeOwner
           (mkScanClock (noon + msPerHour) (noon + msPerHour)
                        (noon + msPerHour)) coupon).
  - exact bareVisit_accepted_with_template.
  - exact Hminted.
  - intros c [<-|[]]. simpl. lia.
  - left. reflexivity.
  - vm_compute. discriminate.
  - vm_compute. discriminate.
  - vm_compute. discriminate.
Defined.

Lemma minted_coupon_expires_witness :
  let result := createReview refMath utcZone (instant noon) "HASH-ABC123"
                             (bareVisit 7 5%float) emptyStore in
  exists coupon,
    minted (snd result) = Some coupon /\
    scanAndRedeemCoupon (mkScanClock nextNoon nextNoon nextNoon) cafeOwner
                        (presented coupon) (fst result)
    = (set_coupons (updateById _id (_id coupon) (set_status expired))
                   (fst result),
       CouponExpired (set_status expired coupon)).
Proof.
  cbv zeta.
  assert (Hminted :
            exists coupon,
              minted (snd (createReview refMath utcZone (instant noon)
                             "HASH-ABC123" (bareVisit 7 5%float)
                             emptyStore)) = Some coupon).
  { eexists. vm_compute. reflexivity. }
  destruct Hminted as (coupon & Hminted).
  destruct (@minted_coupon_expires refMath utcZone (instant noon)
              "HASH-ABC123" (bareVisit 7 5%float) emptyStore cafe cafeOwner
              coupon)
    as (Hscan & _).
  - exact bareVisit_accepted.
  - exact Hminted.
  - intros c H. destruct H.
  - left. reflexivity.
  - exists coupon. split; [exact Hminted|].
    apply Hscan. vm_compute. reflexivity.
Defined.

End MintAndScanOnExamples.

(* ================================================================== *)
(** * The owner's coupons                                              *)
(* ================================================================== *)

Section OwnersCoupons.
Import Coupon CouponLifecycle BusinessCouponController Spec Laws MoreExamples.

Variable toUpperCase : string -> string.

Lemma createCoupon_result (now : Z) (requester : Requester)
    (body : CreateBody) (s : State) :
  createCoupon toUpperCase now requester body s =
  match businessById (body_businessId body) s with
  | None => (s, CreateBusinessNotFound)
  | Some b =>
    if negb (Business.owner b =? id requester) then (s, CreateNotAuthorized)
    else
      match find (fun c => (code c =? toUpperCase (body_code body))%string)
                 (coupons s) with
      | Some _ => (s, CodeAlreadyExists)
      | None =>
        if negb (maxlength 100 (body_title body) &&
                 maxlength 500 (body_description body) &&
                 maxlength 100 (body_itemName body) &&
                 maxlength 1000 (body_terms body))
        then (s, CreateError)
        else
          let coupon := newCoupon toUpperCase (nextId s) now body in
          (mkState (reviews s) (businesses s) (coupons s ++ [coupon])
                   (suspiciousActivityLog s) (pushed s) (S (nextId s)),
           CouponCreated coupon)
      end
  end.
Proof.
  unfold createCoupon, run, createCouponHandler, businessById, bind,
    findBusiness, gets, respond, fresh, modify, ret.
  destruct (find _ (businesses s)) as [b|]; [|reflexivity].
  destruct (negb (Business.owner b =? id requester)); [reflexivity|].
  destruct (find _ (coupons s)); [reflexivity|].
  destruct (negb _); reflexivity.
Qed.

(** A created coupon: the store before, the checks passed. *)
Lemma createCoupon_created (now : Z) (requester : Requester)
    (body : CreateBody) (s s' : State) (c : Coupon.t) :
  createCoupon toUpperCase now requester body s = (s', CouponCreated c) ->
  c = newCoupon toUpperCase (nextId s) now body /\
  coupons s' = coupons s ++ [c] /\
  reviews s' = reviews s /\ businesses s' = businesses s /\
  find (fun c => (code c =? toUpperCase (body_code body))%string) (coupons s)
  = None /\
  exists b, businessById (body_businessId body) s = Some b /\
            Business.owner b = id requester.
Proof.
  rewrite createCoupon_result.
  destruct (businessById (body_businessId body) s) as [b|]; [|discriminate].
  destruct (Nat.eqb_spec (Business.owner b) (id requester)) as [Ho|Ho];
    simpl; [|discriminate].
  destruct (find _ (coupons s)) eqn:Hf; [discriminate|].
  destruct (negb _); [discriminate|].
  cbv zeta. intros H. injection H as <- <-. simpl.
  repeat split. exists b. split; [reflexivity | exact Ho].
Qed.

(** X14.  [createCoupon] keeps coupon codes unique: whatever the
    request and its outcome, a store whose coupons have pairwise
    different codes is left with pairwise different codes; a coupon is
    created only under a code no stored coupon has. *)
Theorem createCoupon_keeps_codes_unique (now : Z) (requester : Requester)
    (body : CreateBody) (s : State) :
  NoDup (map code (coupons s)) ->
  let result := createCoupon toUpperCase now requester body s in
  NoDup (map code (coupons (fst result))) /\
  (forall c, snd result = CouponCreated c ->
             code c = toUpperCase (body_code body) /\
             ~ In (code c) (map code (coupons s)) /\
             coupons (fst result) = coupons s ++ [c]).
Proof.
  intros Hnodup. cbv zeta.
  destruct (createCoupon toUpperCase now requester body s) as [s' r] eqn:E.
  simpl.
  assert (Hother : (forall c, r <> CouponCreated c) \/
                   exists c, r = CouponCreated c)
    by (destruct r; try (left; intros c0; discriminate); right; eexists;
        reflexivity).
  destruct Hother as [Hother|[c ->]].
  - split; [|intros c Hc; destruct (Hother c Hc)].
    rewrite createCoupon_result in E.
    destruct (businessById (body_businessId body) s) as [b|];
      [|injection E as <- _; exact Hnodup].
    destruct (negb (Business.owner b =? id requester));
      [injection E as <- _; exact Hnodup|].
    destruct (find _ (coupons s)); [injection E as <- _; exact Hnodup|].
    destruct (negb _); [injection E as <- _; exact Hnodup|].
    cbv zeta in E. injection E as _ <-. destruct (Hother _ eq_refl).
  - apply createCoupon_created in E.
    destruct E as (-> & Hs' & _ & _ & Hfind & _).
    assert (Hnew : ~ In (toUpperCase (body_code body)) (map code (coupons s))).
    { intros Hin. apply in_map_iff in Hin. destruct Hin as (c0 & Hc0 & Hin).
      apply (find_none _ _ Hfind) in Hin.
      rewrite Hc0, String.eqb_refl in Hin. discriminate. }
    split.
    + rewrite Hs', map_app. simpl. apply NoDup_snoc; assumption.
    + intros c Hc. injection Hc as <-. simpl. repeat split; assumption.
Qed.

Lemma find_app_some (A : Type) (p : A -> bool) (l l' : list A) (a : A) :
  find p l = Some a -> find p (l ++ l') = Some a.
Proof.
  induction l as [|d l IH]; simpl; [discriminate|].
  destruct (p d); [auto | exact IH].
Qed.

Lemma find_none_intro (A : Type) (p : A -> bool) (l : list A) :
  (forall a, In a l -> p a = false) -> find p l = None.
Proof.
  induction l as [|d l IH]; intros H; simpl; [reflexivity|].
  rewrite (H d (or_introl eq_refl)). apply IH.
  intros a Ha. apply H. right. exact Ha.
Qed.

Lemma newCoupon_isValid (now : Z) (id : ObjectId) (body : CreateBody)
    (now' : Z) :
  isValid (newCoupon toUpperCase id now body) now' = true <->
  (match body_validFrom body with Some from => from | None => now end
   <= now')%Z /\
  (forall u, body_validUntil body = Some u -> (now' <= u)%Z) /\
  (forall limit, body_usageLimit body = Some limit -> limit <> 0%Z ->
                 (0 < limit)%Z).
Proof.
  unfold isValid, newCoupon. simpl.
  destruct (Z.ltb_spec now'
              (match body_validFrom body with
               | Some from => from | None => now end)) as [Hlt|Hge].
  { split; [discriminate|]. intros (H & _). lia. }
  assert (Huntil :
            match match body_validUntil body with
                  | Some until => date until | None => null end with
            | date until => (now' >? until)%Z
            | _ => false
            end = false <->
            forall u, body_validUntil body = Some u -> (now' <= u)%Z).
  { destruct (body_validUntil body) as [u|].
    - rewrite Z.gtb_ltb, Z.ltb_ge. split.
      + intros H u' Hu'. injection Hu' as <-. exact H.
      + intros H. apply H. reflexivity.
    - split; [intros _ u H; discriminate | reflexivity]. }
  destruct (match match body_validUntil body with
                  | Some until => date until | None => null end with
            | date until => (now' >? until)%Z
            | _ => false
            end).
  { split; [discriminate|]. intros (_ & H & _).
    apply Huntil in H. discriminate. }
  assert (Hu : forall u, body_validUntil body = Some u -> (now' <= u)%Z)
    by (apply Huntil; reflexivity).
  unfold orNullZ. destruct (body_usageLimit body) as [limit|].
  + unfold truthyZ. destruct (Z.eqb_spec limit 0) as [->|Hnz]; simpl.
    * split; [intros _|reflexivity].
      split; [exact Hge|]. split; [exact Hu|].
      intros l Hl Hl0. injection Hl as <-. contradiction.
    * rewrite (proj2 (Z.eqb_neq limit 0) Hnz). simpl.
      rewrite Z.geb_leb. destruct (Z.leb_spec limit 0) as [Hle|Hgt].
      -- split; [discriminate|]. intros (_ & _ & H).
         specialize (H limit eq_refl Hnz). lia.
      -- split; [intros _|reflexivity].
         split; [exact Hge|]. split; [exact Hu|].
         intros l Hl _. injection Hl as <-. exact Hgt.
  + split; [intros _|reflexivity].
    split; [exact Hge|]. split; [exact Hu|]. intros l Hl. discriminate.
Qed.

(** X15.  A coupon the owner created is found by [verifyCouponCode]
    under its code, however the customer types the letters' case, and is
    reported valid exactly inside its window: from [validFrom] (the time
    of creation when none was given) to [validUntil] (without end when
    none was given), provided a usage limit given as other than zero is
    positive. *)
Theorem created_coupon_verifies (now : Z) (requester : Requester)
    (body : CreateBody) (s s' : State) (c : Coupon.t)
    (now' : Z) (typed : string) :
  createCoupon toUpperCase now requester body s = (s', CouponCreated c) ->
  toUpperCase typed = toUpperCase (body_code body) ->
  verifyCouponCode toUpperCase now' typed (body_businessId body) s'
  = (if isValid c now' then CouponIsValid c else NotValidOrExpired) /\
  (isValid c now' = true <->
   (match body_validFrom body with Some from => from | None => now end
    <= now')%Z /\
   (forall u, body_validUntil body = Some u -> (now' <= u)%Z) /\
   (forall limit, body_usageLimit body = Some limit -> limit <> 0%Z ->
                  (0 < limit)%Z)).
Proof.
  intros Hcreated Htyped.
  apply createCoupon_created in Hcreated.
  destruct Hcreated as (-> & Hs' & _ & _ & Hfind & _).
  split.
  - unfold verifyCouponCode. rewrite Hs', Htyped, find_app_none.
    + simpl. rewrite String.eqb_refl, Nat.eqb_refl. simpl.
      destruct (isValid _ now'); reflexivity.
    + intros a Ha. apply (find_none _ _ Hfind) in Ha. rewrite Ha. reflexivity.
  - apply newCoupon_isValid.
Qed.

(** X16.  The first active template wins.  [createCoupon] leaves older
    coupons as they are, so a business that already has an active
    template keeps being rewarded from it; a business without one is
    rewarded from the new coupon, and then [createReview] withholds the
    reward exactly when the redemption limit given at creation is not
    zero and the number of redeemed review rewards has reached it: a
    limit given as 0, or none, never withholds a reward. *)
Theorem first_active_template_wins (now : Z) (requester : Requester)
    (body : CreateBody) (s s' : State) (c : Coupon.t) (req : Request.t) :
  createCoupon toUpperCase now requester body s = (s', CouponCreated c) ->
  Request.business req = body_businessId body ->
  (forall t, templateOf req s = Some t -> templateOf req s' = Some t) /\
  (templateOf req s = None ->
   templateOf req s' = Some c /\
   (limitReached req s' = true <->
    exists limit, body_redemptionLimit body = Some limit /\ limit <> 0%Z /\
                  (limit <= Z.of_nat (redeemedRewards req s))%Z)).
Proof.
  intros Hcreated Hbusiness.
  apply createCoupon_created in Hcreated.
  destruct Hcreated as (-> & Hs' & _ & _ & _ & _).
  split.
  - intros t Ht. unfold templateOf in *. rewrite Hs'.
    apply find_app_some. exact Ht.
  - intros Hnone.
    assert (Htemplate : templateOf req s'
                        = Some (newCoupon toUpperCase (nextId s) now body)).
    { unfold templateOf in *. rewrite Hs', find_app_none.
      - simpl. rewrite Hbusiness, Nat.eqb_refl. reflexivity.
      - intros a Ha. exact (find_none _ _ Hnone a Ha). }
    split; [exact Htemplate|].
    assert (Hcount : redeemedRewards req s' = redeemedRewards req s).
    { unfold redeemedRewards, countDocuments. rewrite Hs', filter_app.
      simpl. rewrite andb_false_r. simpl. rewrite app_nil_r. reflexivity. }
    unfold limitReached. rewrite Htemplate, Hcount. simpl.
    unfold orNullZ. destruct (body_redemptionLimit body) as [limit|].
    + unfold truthyZ. destruct (Z.eqb_spec limit 0) as [->|Hnz]; simpl.
      * split; [discriminate|]. intros (l & Hl & Hl0 & _).
        injection Hl as <-. contradiction.
      * rewrite Z.geb_leb, Z.leb_le. split.
        -- intros H. exists limit. repeat split; assumption.
        -- intros (l & Hl & _ & H). injection Hl as <-. exact H.
    + split; [discriminate|]. intros (l & Hl & _). discriminate.
Qed.

Lemma toggle_result (requester : Requester) (couponId : ObjectId)
    (s : State) :
  toggleCouponStatus requester couponId s =
  match couponById couponId s with
  | None => (s, ToggleCouponNotFound)
  | Some c =>
    match businessById (business c) s with
    | None => (s, ToggleError)
    | Some b =>
      if negb (Business.owner b =? id requester) &&
         negb (is_admin (role requester))
      then (s, ToggleNotAuthorized)
      else (set_coupons
              (updateById _id (_id c) (set_isActive (negb (isActive c)))) s,
            Toggled (set_isActive (negb (isActive c)) c))
    end
  end.
Proof.
  unfold toggleCouponStatus, run, toggleCouponStatusHandler, couponById,
    businessById, bind, findCoupon, findBusiness, gets, respond, saveCoupon,
    modify, ret.
  destruct (find _ (coupons s)) as [c|]; [|reflexivity].
  destruct (find _ (businesses s)) as [b|]; [|reflexivity].
  destruct (negb _ && negb _); reflexivity.
Qed.

Lemma updateById_undo (A : Type) (idOf : A -> ObjectId) (x : ObjectId)
    (f g : A -> A) (l : list A) (a : A) :
  find (fun a => idOf a =? x) l = Some a ->
  idOf (f a) = idOf a -> g (f a) = a ->
  updateById idOf x g (updateById idOf x f l) = l.
Proof.
  intros Hfind Hid Hundo. induction l as [|d l IH]; simpl in *;
    [discriminate|].
  destruct (idOf d =? x) eqn:E.
  - injection Hfind as ->. simpl. rewrite Hid, E, Hundo. reflexivity.
  - simpl. rewrite E, (IH Hfind). reflexivity.
Qed.

(** X17.  [toggleCouponStatus] flips the activation flag of the stored
    coupon and nothing else; while the flag is off the coupon fails
    [isValid] at every time; and toggling a second time gives back the
    store and the coupon as they were. *)
Theorem toggleCouponStatus_involutive (requester : Requester)
    (couponId : ObjectId) (s s1 : State) (c1 : Coupon.t) :
  toggleCouponStatus requester couponId s = (s1, Toggled c1) ->
  exists c,
    couponById couponId s = Some c /\
    c1 = set_isActive (negb (isActive c)) c /\
    couponById couponId s1 = Some c1 /\
    (isActive c = true -> forall now, isValid c1 now = false) /\
    toggleCouponStatus requester couponId s1 = (s, Toggled c).
Proof.
  rewrite toggle_result.
  destruct (couponById couponId s) as [c|] eqn:Hc; [|discriminate].
  destruct (businessById (business c) s) as [b|] eqn:Hb; [|discriminate].
  destruct (negb (Business.owner b =? id requester) &&
            negb (is_admin (role requester))) eqn:Hauth; [discriminate|].
  intros H. injection H as <- <-.
  pose proof (find_some_id _ _ _ Hc) as Hid.
  assert (Hc1 : couponById couponId
                  (set_coupons
                     (updateById _id (_id c)
                        (set_isActive (negb (isActive c)))) s)
                = Some (set_isActive (negb (isActive c)) c)).
  { unfold couponById in *. simpl. rewrite Hid.
    apply find_updateById; [reflexivity | exact Hc]. }
  exists c. split; [reflexivity|]. split; [reflexivity|].
  split; [exact Hc1|]. split.
  - intros Hactive now. unfold isValid. simpl. rewrite Hactive. reflexivity.
  - rewrite toggle_result, Hc1. simpl.
    unfold businessById in *. simpl. rewrite Hb, Hauth.
    f_equal.
    + destruct s as [rs bs cs log ps n]. unfold set_coupons. simpl in *.
      f_equal. unfold couponById in Hc. simpl in Hc.
      apply (@updateById_undo _ _id (_id c) _ _ cs c).
      * rewrite Hid. exact Hc.
      * reflexivity.
      * destruct c. simpl. rewrite negb_involutive. reflexivity.
    + f_equal. destruct c. simpl. rewrite negb_involutive. reflexivity.
Qed.

Lemma toggleCouponStatus_involutive_witness :
  exists c,
    couponById 500 storeWithHouseCoupon = Some c /\
    toggleCouponStatus cafeOwner 500
      (fst (toggleCouponStatus cafeOwner 500 storeWithHouseCoupon))
    = (storeWithHouseCoupon, Toggled c).
Proof.
  destruct (@toggleCouponStatus_involutive cafeOwner 500 storeWithHouseCoupon
              (fst (toggleCouponStatus cafeOwner 500 storeWithHouseCoupon))
              (set_isActive false houseCoupon))
    as (c & Hc & _ & _ & _ & Hback).
  - vm_compute. reflexivity.
  - exists c. split; assumption.
Defined.

Lemma delete_result (requester : Requester) (couponId : ObjectId)
    (s : State) :
  deleteCoupon requester couponId s =
  match couponById couponId s with
  | None => (s, DeleteCouponNotFound)
  | Some c =>
    match businessById (business c) s with
    | None => (s, DeleteError)
    | Some b =>
      if negb (Business.owner b =? id requester) &&
         negb (is_admin (role requester))
      then (s, DeleteNotAuthorized)
      else (set_coupons (deleteById _id (_id c)) s, CouponDeleted)
    end
  end.
Proof.
  unfold deleteCoupon, run, deleteCouponHandler, couponById,
    businessById, bind, findCoupon, findBusiness, gets, respond, modify, ret.
  destruct (find _ (coupons s)) as [c|]; [|reflexivity].
  destruct (find _ (businesses s)) as [b|]; [|reflexivity].
  destruct (negb _ && negb _); reflexivity.
Qed.

Lemma deleteById_gone (A : Type) (idOf : A -> ObjectId) (x : ObjectId)
    (l : list A) :
  NoDup (map idOf l) ->
  find (fun a => idOf a =? x) (deleteById idOf x l) = None.
Proof.
  induction l as [|d l IH]; intros Hnodup; simpl; [reflexivity|].
  inversion Hnodup as [|? ? Hnotin Hrest]; subst.
  destruct (Nat.eqb_spec (idOf d) x) as [Hx|Hx].
  - apply find_none_intro. intros a Ha. apply Nat.eqb_neq. intros Heq.
    apply Hnotin. rewrite Hx, <- Heq. apply in_map. exact Ha.
  - simpl. apply Nat.eqb_neq in Hx. rewrite Hx. apply IH. exact Hrest.
Qed.

Lemma deleteById_length (A : Type) (idOf : A -> ObjectId) (x : ObjectId)
    (l : list A) (a : A) :
  find (fun a => idOf a =? x) l = Some a ->
  S (List.length (deleteById idOf x l)) = List.length l.
Proof.
  induction l as [|d l IH]; simpl; [discriminate|].
  destruct (idOf d =? x); [reflexivity|].
  intros H. simpl. rewrite (IH H). reflexivity.
Qed.

Lemma deleteById_incl (A : Type) (idOf : A -> ObjectId) (x : ObjectId)
    (l : list A) (a : A) :
  In a (deleteById idOf x l) -> In a l.
Proof.
  induction l as [|d l IH]; simpl; [auto|].
  destruct (idOf d =? x); [auto|].
  intros [H|H]; [left; exact H | right; apply IH; exact H].
Qed.

(** X18.  A deleted coupon is gone for every handler: after
    [deleteCoupon] succeeded on a store whose coupons have pairwise
    different ids, the store holds one coupon less, none it did not
    hold before, no coupon under the deleted id, and every scan of the
    deleted coupon's QR payload and every [redeemCoupon] for it answers
    "coupon not found" and changes nothing. *)
Theorem deleted_coupon_is_gone (requester : Requester) (couponId : ObjectId)
    (s s' : State) :
  NoDup (map _id (coupons s)) ->
  deleteCoupon requester couponId s = (s', CouponDeleted) ->
  couponById couponId s' = None /\
  S (List.length (coupons s')) = List.length (coupons s) /\
  (forall c, In c (coupons s') -> In c (coupons s)) /\
  (forall clock requester',
     scanAndRedeemCoupon clock requester' (QrParsed "coupon" (Some couponId)) s'
     = (s', ScanCouponNotFound)) /\
  (forall clock requester',
     redeemCoupon clock requester' couponId s' = (s', RedeemCouponNotFound)).
Proof.
  intros Hnodup. rewrite delete_result.
  destruct (couponById couponId s) as [c|] eqn:Hc; [|discriminate].
  destruct (businessById (business c) s) as [b|]; [|discriminate].
  destruct (negb _ && negb _); [discriminate|].
  intros H. injection H as <-.
  pose proof (find_some_id _ _ _ Hc) as Hid. rewrite Hid.
  assert (Hgone : couponById couponId
                    (set_coupons (deleteById _id couponId) s) = None)
    by (apply deleteById_gone; exact Hnodup).
  split; [exact Hgone|].
  split; [simpl; apply (deleteById_length _ _ _ Hc)|].
  split; [simpl; intros c0; apply deleteById_incl|].
  split.
  - intros clock requester'. rewrite scan_result, Hgone. reflexivity.
  - intros clock requester'. rewrite redeem_result, Hgone. reflexivity.
Qed.

Lemma deleted_coupon_is_gone_witness :
  couponById 500 (fst (deleteCoupon cafeOwner 500 storeWithHouseCoupon))
  = None /\
  coupons (fst (deleteCoupon cafeOwner 500 storeWithHouseCoupon)) = [].
Proof.
  destruct (@deleted_coupon_is_gone cafeOwner 500 storeWithHouseCoupon
              (fst (deleteCoupon cafeOwner 500 storeWithHouseCoupon)))
    as (Hgone & _).
  - vm_compute. constructor; [intros H; exact H | constructor].
  - vm_compute. reflexivity.
  - split; [exact Hgone | vm_compute; reflexivity].
Defined.

(** X19.  The redemption statistics are consistent with the store and
    with [createReview]: the redeemed, expired and active counts
    together never exceed the number of review rewards issued; the
    redeemed count is the count [createReview] compares with the
    template's redemption limit, so a review of the business is
    refused its reward exactly when the statistics show a template
    with a limit that the redeemed count has reached. *)
Theorem redemption_stats_consistent (now : Z) (requester : Requester)
    (businessId : ObjectId) (s : State) (st : RedemptionStats) :
  getRedemptionStats now requester businessId s = StatsOk st ->
  redeemed st + expired st + active st <= totalIssued st /\
  forall req, Request.business req = businessId ->
    redeemed st = redeemedRewards req s /\
    (limitReached req s = true <->
     exists t limit,
       template st = Some t /\ stats_redemptionLimit t = Some limit /\
       (limit <= Z.of_nat (redeemed st))%Z).
Proof.
  unfold getRedemptionStats.
  destruct (find _ (businesses s)) as [b|]; [|discriminate].
  destruct (negb _ && negb _); [discriminate|].
  cbv zeta. intros H. injection H as <-. simpl. split.
  - unfold countDocuments. induction (coupons s) as [|c l IH]; simpl; [lia|].
    destruct ((business c =? businessId) &&
              type_is (type c) review_reward); simpl; [|exact IH].
    destruct (status c); simpl; try lia.
    destruct (match validUntil c with
              | date until => (until >? now)%Z
              | _ => false end); simpl; lia.
  - intros req Hreq. subst businessId. split; [reflexivity|].
    rewrite limitReached_true. fold (templateOf req s).
    change (countDocuments _ (coupons s)) with (redeemedRewards req s).
    destruct (templateOf req s) as [t|]; simpl.
    + split.
      * intros (t' & limit & Ht & Hl & Hle). injection Ht as <-.
        eexists. exists limit. split; [reflexivity|]. split; assumption.
      * intros (t' & limit & Ht & Hl & Hle). injection Ht as <-.
        exists t, limit. split; [reflexivity|]. split; assumption.
    + split; intros (t' & limit & Ht & _); discriminate.
Qed.

Lemma redemption_stats_consistent_witness :
  getRedemptionStats noon cafeOwner 1 storeAtRedemptionLimit
  = StatsOk (mkStats (Some (mkTemplateStats (Some 2%Z) 2%Z)) 2 2 0 0) /\
  limitReached (bareVisit 7 5%float) storeAtRedemptionLimit = true.
Proof.
  split; [vm_compute; reflexivity|].
  destruct (@redemption_stats_consistent noon cafeOwner 1
              storeAtRedemptionLimit
              (mkStats (Some (mkTemplateStats (Some 2%Z) 2%Z)) 2 2 0 0))
    as (_ & H).
  - vm_compute. reflexivity.
  - destruct (H (bareVisit 7 5%float) eq_refl) as (_ & Hiff).
    apply Hiff. exists (mkTemplateStats (Some 2%Z) 2%Z), 2%Z.
    split; [reflexivity|]. split; [reflexivity|]. vm_compute. discriminate.
Defined.

(** X25.  The two redemption paths disagree on a coupon without an end
    date.  [createCoupon] stores a missing [validUntil] as [null]; for
    such a coupon [redeemCoupon] never redeems at any time after the
    epoch, because [isCouponValid] reads the [null] as the epoch, while
    a scan by the owner redeems it at any time from its start date on
    (a usage limit other than zero being positive). *)
Theorem open_ended_coupon_paths_differ (now : Z) (requester : Requester)
    (body : CreateBody) (s s' : State) (c : Coupon.t) :
  createCoupon toUpperCase now requester body s = (s', CouponCreated c) ->
  body_validUntil body = None ->
  (forall c0, In c0 (coupons s) -> _id c0 <> nextId s) ->
  (forall rclock requester',
     (0 < at_isCouponValid rclock)%Z ->
     redeemCoupon rclock requester' (_id c) s'
     = (s', ExpiredOrAlreadyRedeemed) \/
     redeemCoupon rclock requester' (_id c) s' = (s', RedeemNotAuthorized)) /\
  (forall sclock,
     (match body_validFrom body with Some from => from | None => now end
      <= at_isValid sclock)%Z ->
     (forall limit, body_usageLimit body = Some limit -> limit <> 0%Z ->
                    (0 < limit)%Z) ->
     scanAndRedeemCoupon sclock requester (QrParsed "coupon" (Some (_id c))) s'
     = (afterScan sclock requester c s',
        ScanRedeemed
          (set_redeemed (at_redeemedAt sclock) (id requester) c))).
Proof.
  intros Hcreated Hopen Hfresh.
  apply createCoupon_created in Hcreated.
  destruct Hcreated as (-> & Hs' & _ & Hbs & _ & b & Hb & Howner).
  set (c := newCoupon toUpperCase (nextId s) now body) in *.
  assert (Hc : couponById (_id c) s' = Some c).
  { unfold couponById. rewrite Hs', find_app_none.
    - simpl. rewrite Nat.eqb_refl. reflexivity.
    - intros a Ha. apply Nat.eqb_neq. apply Hfresh. exact Ha. }
  assert (Hb' : businessById (business c) s' = Some b)
    by (unfold businessById in *; rewrite Hbs; exact Hb).
  assert (Huntil : validUntil c = null)
    by (unfold c, newCoupon; simpl; rewrite Hopen; reflexivity).
  split.
  - intros rclock requester' Hlate. rewrite redeem_result, Hc, Hb'.
    destruct (negb _ && negb _); [right; reflexivity|]. left.
    unfold CouponUtils.isCouponValid, CouponUtils.newDate.
    rewrite Huntil. cbn [status c newCoupon Coupon.status_is].
    replace (at_isCouponValid rclock >? 0)%Z with true
      by (symmetry; rewrite Z.gtb_ltb; apply Z.ltb_lt; exact Hlate).
    reflexivity.
  - intros sclock Hfrom Hlimit. rewrite scan_result, Hc, Hb'.
    rewrite Howner, Nat.eqb_refl. rewrite Huntil.
    assert (Hvalid : isValid c (at_isValid sclock) = true).
    { apply newCoupon_isValid. split; [exact Hfrom|].
      split; [intros u Hu; congruence | exact Hlimit]. }
    rewrite Hvalid. reflexivity.
Qed.

End OwnersCoupons.

Section OwnersCouponsOnExamples.
Import Coupon CouponLifecycle BusinessCouponController Spec Laws MoreExamples.

Lemma createCoupon_keeps_codes_unique_witness :
  map code (coupons (fst (createCoupon asciiUpper noon cafeOwner welcomeBody
                                       storeWithBuyOneGetOne)))
  = ["BOGO"; "WELCOME10"] /\
  NoDup (map code (coupons (fst (createCoupon asciiUpper noon cafeOwner
                                              welcomeBody
                                              storeWithBuyOneGetOne)))).
Proof.
  split; [vm_compute; reflexivity|].
  apply (@createCoupon_keeps_codes_unique asciiUpper noon cafeOwner
           welcomeBody storeWithBuyOneGetOne).
  vm_compute. constructor; [intros H; exact H | constructor].
Defined.

Lemma created_coupon_verifies_witness :
  let result := createCoupon asciiUpper noon cafeOwner welcomeBody emptyStore in
  verifyCouponCode asciiUpper nextNoon "Welcome10" 1 (fst result)
  = CouponIsValid (newCoupon asciiUpper 1000 noon welcomeBody).
Proof.
  cbv zeta.
  destruct (@created_coupon_verifies asciiUpper noon cafeOwner welcomeBody
              emptyStore
              (fst (createCoupon asciiUpper noon cafeOwner welcomeBody
                                 emptyStore))
              (newCoupon asciiUpper 1000 noon welcomeBody)
              nextNoon "Welcome10") as (Hverify & _).
  - vm_compute. reflexivity.
  - vm_compute. reflexivity.
  - etransitivity; [exact Hverify|]. vm_compute. reflexivity.
Defined.

Lemma first_active_template_wins_witness :
  let result := createCoupon asciiUpper noon cafeOwner welcomeBody emptyStore in
  templateOf (bareVisit 7 5%float) (fst result)
  = Some (newCoupon asciiUpper 1000 noon welcomeBody) /\
  limitReached (bareVisit 7 5%float) (fst result) = false.
Proof.
  cbv zeta.
  destruct (@first_active_template_wins asciiUpper noon cafeOwner welcomeBody
              emptyStore
              (fst (createCoupon asciiUpper noon cafeOwner welcomeBody
                                 emptyStore))
              (newCoupon asciiUpper 1000 noon welcomeBody)
              (bareVisit 7 5%float)) as (_ & Hnew).
  - vm_compute. reflexivity.
  - reflexivity.
  - destruct Hnew as (Ht & Hlimit); [reflexivity|].
    split; [exact Ht|].
    apply not_true_is_false. intros E.
    apply Hlimit in E. destruct E as (limit & Hl & Hnz & _).
    injection Hl as <-. contradiction.
Defined.

Lemma open_ended_coupon_paths_differ_witness :
  let s' := fst (createCoupon asciiUpper noon cafeOwner welcomeBody emptyStore) in
  redeemCoupon (mkRedeemClock nextNoon nextNoon) cafeOwner 1000 s'
  = (s', ExpiredOrAlreadyRedeemed) /\
  snd (scanAndRedeemCoupon (mkScanClock nextNoon nextNoon nextNoon) cafeOwner
                           (QrParsed "coupon" (Some 1000)) s')
  = ScanRedeemed
      (set_redeemed nextNoon 100 (newCoupon asciiUpper 1000 noon welcomeBody)).
Proof.
  cbv zeta.
  destruct (@open_ended_coupon_paths_differ asciiUpper noon cafeOwner
              welcomeBody emptyStore
              (fst (createCoupon asciiUpper noon cafeOwner welcomeBody
                                 emptyStore))
              (newCoupon asciiUpper 1000 noon welcomeBody))
    as (Hredeem & Hscan).
  - vm_compute. reflexivity.
  - reflexivity.
  - intros c0 H. destruct H.
  - split; [vm_compute; reflexivity|].
    assert (H : scanAndRedeemCoupon (mkScanClock nextNoon nextNoon nextNoon)
                  cafeOwner (QrParsed "coupon" (Some 1000))
                  (fst (createCoupon asciiUpper noon cafeOwner welcomeBody
                                     emptyStore))
                = (afterScan (mkScanClock nextNoon nextNoon nextNoon) cafeOwner
                     (newCoupon asciiUpper 1000 noon welcomeBody)
                     (fst (createCoupon asciiUpper noon cafeOwner welcomeBody
                                        emptyStore)),
                   ScanRedeemed
                     (set_redeemed nextNoon 100
                        (newCoupon asciiUpper 1000 noon welcomeBody)))).
    { apply (Hscan (mkScanClock nextNoon nextNoon nextNoon)).
      - vm_compute. discriminate.
      - intros limit H Hnz. injection H as <-. contradiction. }
    rewrite H. reflexivity.
Defined.

End OwnersCouponsOnExamples.

(* ================================================================== *)
(** * Editing, deleting and moderating reviews                         *)
(* ================================================================== *)

Section ReviewMaintenance.
Import CouponLifecycle ReviewEdits Spec Laws MoreExamples.

Lemma updateReview_result (requester : Requester) (reviewId : ObjectId)
    (rating : option float) (comment : option string) (s : State) :
  updateReview requester reviewId rating comment s =
  match find (fun r => Review._id r =? reviewId) (reviews s) with
  | None => (s, UpdateReviewNotFound)
  | Some r =>
    if negb (Review.user r =? id requester) then (s, UpdateNotAuthorized)
    else if negb (validates rating comment r) then (s, UpdateError)
    else (set_reviews
            (updateById Review._id (Review._id r) (edit rating comment)) s,
          ReviewUpdated (edit rating comment r))
  end.
Proof.
  unfold updateReview, run, updateReviewHandler, bind, gets, respond, modify,
    ret.
  destruct (find _ (reviews s)) as [r|]; [|reflexivity].
  destruct (negb (Review.user r =? id requester)); [reflexivity|].
  destruct (negb (validates rating comment r)); reflexivity.
Qed.

Lemma deleteReview_result (requester : Requester) (reviewId : ObjectId)
    (s : State) :
  deleteReview requester reviewId s =
  match find (fun r => Review._id r =? reviewId) (reviews s) with
  | None => (s, DeleteReviewNotFound)
  | Some r =>
    if negb (Review.user r =? id requester) &&
       negb (is_admin (role requester))
    then (s, DeleteNotAuthorized)
    else (set_reviews (deleteById Review._id (Review._id r)) s, ReviewDeleted)
  end.
Proof.
  unfold deleteReview, run, deleteReviewHandler, bind, gets, respond, modify,
    ret.
  destruct (find _ (reviews s)) as [r|]; [|reflexivity].
  destruct (negb _ && negb _); reflexivity.
Qed.

Lemma dayKey_edit (tz : TimeZone) (rating : option float)
    (comment : option string) (r : Review.t) :
  dayKey tz (edit rating comment r) = dayKey tz r.
Proof.
  unfold edit. destruct (assignedRating rating), (assignedComment comment);
    reflexivity.
Qed.

Lemma NoDup_map_deleteById (A B : Type) (idOf : A -> ObjectId) (g : A -> B)
    (x : ObjectId) (l : list A) :
  NoDup (map g l) -> NoDup (map g (deleteById idOf x l)).
Proof.
  induction l as [|d l IH]; intros Hnodup; simpl; [constructor|].
  inversion Hnodup as [|? ? Hnotin Hrest]; subst.
  destruct (idOf d =? x); [exact Hrest|].
  simpl. constructor; [|apply IH; exact Hrest].
  intros Hin. apply Hnotin. apply in_map_iff in Hin.
  destruct Hin as (a & Ha & Hin). rewrite <- Ha. apply in_map.
  apply (deleteById_incl _ _ _ _ Hin).
Qed.

(** X20.  Editing, deleting and moderating reviews keep the invariant
    that a user has at most one review per business and calendar day,
    and none of the three touches the businesses or the coupons: the
    business's stored rating and review count stay as the last accepted
    review left them, and a coupon earned by a deleted review stays. *)
Theorem review_edits_keep_one_review_per_day (tz : TimeZone) (s : State) :
  OneReviewPerDay tz (reviews s) ->
  (forall requester reviewId rating comment,
     let s' := fst (updateReview requester reviewId rating comment s) in
     OneReviewPerDay tz (reviews s') /\
     businesses s' = businesses s /\ coupons s' = coupons s) /\
  (forall requester reviewId,
     let s' := fst (deleteReview requester reviewId s) in
     OneReviewPerDay tz (reviews s') /\
     businesses s' = businesses s /\ coupons s' = coupons s) /\
  (forall reviewId status,
     let s' := updateReviewStatus reviewId status s in
     OneReviewPerDay tz (reviews s') /\
     businesses s' = businesses s /\ coupons s' = coupons s).
Proof.
  intros Hinv. unfold OneReviewPerDay in *. split; [|split].
  - intros requester reviewId rating comment. cbv zeta.
    rewrite updateReview_result.
    destruct (find _ (reviews s)) as [r|]; [|auto].
    destruct (negb (Review.user r =? id requester)); [auto|].
    destruct (negb (validates rating comment r)); [auto|].
    simpl. split; [|auto].
    rewrite map_updateById; [exact Hinv|]. intros a. apply dayKey_edit.
  - intros requester reviewId. cbv zeta. rewrite deleteReview_result.
    destruct (find _ (reviews s)) as [r|]; [|auto].
    destruct (negb _ && negb _); [auto|].
    simpl. split; [|auto]. apply NoDup_map_deleteById. exact Hinv.
  - intros reviewId status. cbv zeta. unfold updateReviewStatus. simpl.
    split; [|auto].
    rewrite map_updateById; [exact Hinv | reflexivity].
Qed.

Lemma review_edits_keep_one_review_per_day_witness :
  OneReviewPerDay utcZone
    (reviews (fst (updateReview (mkRequester 7 role_customer) 1000
                                (Some 1%float) None storeAfterFirstReview))) /\
  map Review.rating
    (reviews (fst (updateReview (mkRequester 7 role_customer) 1000
                                (Some 1%float) None storeAfterFirstReview)))
  = [1%float] /\
  map Business.rating_average
    (businesses (fst (updateReview (mkRequester 7 role_customer) 1000
                                   (Some 1%float) None storeAfterFirstReview)))
  = map Business.rating_average (businesses storeAfterFirstReview).
Proof.
  assert (Hinv : OneReviewPerDay utcZone (reviews storeAfterFirstReview)).
  { unfold OneReviewPerDay.
    replace (reviews storeAfterFirstReview)
      with [Review.set_coupon 1001
              (newReview (instant noon) (bareVisit 7 5%float) 1000 cafe
                 (distanceTo refMath (bareVisit 7 5%float) cafe))]
      by (vm_compute; reflexivity).
    simpl. constructor; [intros H; exact H | constructor]. }
  destruct (@review_edits_keep_one_review_per_day utcZone
              storeAfterFirstReview Hinv) as (Hupdate & _).
  destruct (Hupdate (mkRequester 7 role_customer) 1000 (Some 1%float) None)
    as (H1 & H2 & _).
  split; [exact H1|]. split; [vm_compute; reflexivity|].
  cbv zeta in H2. rewrite H2. reflexivity.
Defined.

Lemma deleteById_key_gone (A B : Type) (idOf : A -> ObjectId) (g : A -> B)
    (x : ObjectId) (l : list A) (a : A) :
  NoDup (map g l) ->
  find (fun a => idOf a =? x) l = Some a ->
  ~ In (g a) (map g (deleteById idOf x l)).
Proof.
  induction l as [|d l IH]; intros Hnodup Hfind; simpl in *; [discriminate|].
  inversion Hnodup as [|? ? Hnotin Hrest]; subst.
  destruct (idOf d =? x).
  - injection Hfind as <-. exact Hnotin.
  - simpl. intros [Heq|Hin].
    + apply Hnotin. rewrite Heq. apply in_map.
      apply find_some in Hfind. apply Hfind.
    + exact (IH Hrest Hfind Hin).
Qed.

Lemma deleteById_count (A : Type) (idOf : A -> ObjectId) (p : A -> bool)
    (x : ObjectId) (l : list A) (a : A) :
  find (fun a => idOf a =? x) l = Some a -> p a = true ->
  S (countDocuments p (deleteById idOf x l)) = countDocuments p l.
Proof.
  unfold countDocuments.
  induction l as [|d l IH]; intros Hfind Hp; simpl in *; [discriminate|].
  destruct (idOf d =? x).
  - injection Hfind as ->. rewrite Hp. reflexivity.
  - simpl. destruct (p d); simpl; rewrite (IH Hfind Hp); reflexivity.
Qed.

(** X21.  Deleting a review reopens the day.  In a store with at most
    one review per user, business and calendar day and no review dated
    after the request, once a user's review of today for a business is
    deleted, the duplicate check of [createReview] finds no review of
    that user for that business today, and the count the daily limit
    compares with 5 has dropped by one; the coupons, among them the one
    the deleted review earned, are still in the store. *)
Theorem deleteReview_reopens_the_day (offset : Z) (clock : Clock)
    (req : Request.t) (requester : Requester) (reviewId : ObjectId)
    (s s' : State) (r : Review.t) :
  OneReviewPerDay (fixedZone offset) (reviews s) ->
  (forall r', In r' (reviews s) ->
              (Review.createdAt r' <= at_today clock)%Z) ->
  find (fun r => Review._id r =? reviewId) (reviews s) = Some r ->
  reviewedToday (fixedZone offset) clock req r = true ->
  deleteReview requester reviewId s = (s', ReviewDeleted) ->
  find (reviewedToday (fixedZone offset) clock req) (reviews s') = None /\
  S (reviewsToday (fixedZone offset) clock req s')
  = reviewsToday (fixedZone offset) clock req s /\
  coupons s' = coupons s /\ businesses s' = businesses s.
Proof.
  intros Hinv Hpast Hfind Htoday. rewrite deleteReview_result, Hfind.
  destruct (negb _ && negb _); [discriminate|].
  intros H. injection H as <-. simpl.
  pose proof (find_some_id _ _ _ Hfind) as Hid. rewrite Hid.
  split; [|split; [|split; reflexivity]].
  - apply find_none_intro. intros r' Hin.
    apply not_true_is_false. intros Htoday'.
    apply (@deleteById_key_gone _ _ Review._id (dayKey (fixedZone offset))
             reviewId (reviews s) r Hinv Hfind).
    apply in_map_iff. exists r'. split; [|exact Hin].
    unfold reviewedToday in Htoday, Htoday'.
    apply andb_true_iff in Htoday. destruct Htoday as (Hub & Hday).
    apply andb_true_iff in Hub. destruct Hub as (Hu & Hb).
    apply andb_true_iff in Htoday'. destruct Htoday' as (Hub' & Hday').
    apply andb_true_iff in Hub'. destruct Hub' as (Hu' & Hb').
    apply Nat.eqb_eq in Hu, Hb, Hu', Hb'.
    rewrite Z.geb_leb in Hday, Hday'. apply Z.leb_le in Hday, Hday'.
    unfold dayKey, reviewDay. f_equal; [f_equal; congruence|].
    assert (Hr : (Review.createdAt r <= at_today clock)%Z)
      by (apply Hpast; apply find_some in Hfind; apply Hfind).
    assert (Hr' : (Review.createdAt r' <= at_today clock)%Z)
      by (apply Hpast; apply (deleteById_incl _ _ _ _ Hin)).
    apply (since_today_same_day offset clock Hr) in Hday.
    apply (since_today_same_day offset clock Hr') in Hday'.
    congruence.
  - unfold reviewsToday. simpl. apply (deleteById_count _ _ _ _ Hfind).
    unfold reviewedToday in Htoday.
    apply andb_true_iff in Htoday. destruct Htoday as (Hub & Hday).
    apply andb_true_iff in Hub. destruct Hub as (Hu & _).
    rewrite Hu, Hday. reflexivity.
Qed.

Lemma deleteReview_reopens_the_day_witness :
  let s' := fst (deleteReview (mkRequester 7 role_customer) 1000
                              storeAfterFirstReview) in
  find (reviewedToday utcZone (instant (noon + msPerHour)) secondThoughts)
       (reviews s') = None /\
  List.length (coupons s') = 1.
Proof.
  cbv zeta.
  destruct (@deleteReview_reopens_the_day 0 (instant (noon + msPerHour))
              secondThoughts (mkRequester 7 role_customer) 1000
              storeAfterFirstReview
              (fst (deleteReview (mkRequester 7 role_customer) 1000
                                 storeAfterFirstReview))
              (Review.set_coupon 1001
                 (newReview (instant noon) (bareVisit 7 5%float) 1000 cafe
                    (distanceTo refMath (bareVisit 7 5%float) cafe))))
    as (Hnone & _ & Hcoupons & _).
  - unfold OneReviewPerDay.
    replace (reviews storeAfterFirstReview)
      with [Review.set_coupon 1001
              (newReview (instant noon) (bareVisit 7 5%float) 1000 cafe
                 (distanceTo refMath (bareVisit 7 5%float) cafe))]
      by (vm_compute; reflexivity).
    simpl. constructor; [intros H; exact H | constructor].
  - replace (reviews storeAfterFirstReview)
      with [Review.set_coupon 1001
              (newReview (instant noon) (bareVisit 7 5%float) 1000 cafe
                 (distanceTo refMath (bareVisit 7 5%float) cafe))]
      by (vm_compute; reflexivity).
    intros r' [<-|[]]. vm_compute. discriminate.
  - vm_compute. reflexivity.
  - vm_compute. reflexivity.
  - vm_compute. reflexivity.
  - split; [exact Hnone|]. rewrite Hcoupons. vm_compute. reflexivity.
Defined.

End ReviewMaintenance.

(* ================================================================== *)
(** * What [createReview] stores and whom it notifies                  *)
(* ================================================================== *)

Section StoredReviews.
Import Spec Laws MoreExamples.

Variable M : MathEngine.
Variable tz : TimeZone.
Variable clock : Clock.
Variable couponCode : string.
Variable req : Request.t.

Lemma Forall_updateById (A : Type) (P : A -> Prop) (idOf : A -> ObjectId)
    (x : ObjectId) (f : A -> A) (l : list A) :
  (forall a, P a -> P (f a)) -> Forall P l -> Forall P (updateById idOf x f l).
Proof.
  intros Hf Hall. induction Hall as [|d l Hd Hl IH]; simpl; [constructor|].
  destruct (idOf d =? x); constructor; auto.
Qed.

Lemma accepted_newReview_clean (s : State) (b : Business.t) (id : ObjectId) :
  Accepted M tz clock req s b ->
  NoHardSignal (newReview clock req id b (distanceTo M req b)).
Proof.
  intros ((_ & _ & _ & _ & Hgeo) & Hacc & Hmock & Hmany).
  unfold NoHardSignal. cbv zeta. simpl.
  split; [reflexivity|]. split; [|split; [|split]].
  - intros a Ha. unfold poorAccuracy in Hacc. rewrite Ha in Hacc.
    destruct (Qgtb a 50) eqn:Hg; [discriminate|].
    unfold Qgtb in Hg. apply Qltb_ge in Hg. exact Hg.
  - unfold mockLocation in Hmock.
    destruct (Request.isMockLocation req) as [[|]|]; congruence.
  - unfold manyAnomalies, anomalies in Hmany. apply Nat.leb_gt in Hmany.
    destruct (Request.suspiciousActivities req); simpl in *; lia.
  - exact Hgeo.
Qed.

(** X22.  Every review [createReview] stores is free of hard fraud
    signals: if the stored reviews are verified, with a recorded GPS
    accuracy of at most 50 m, no mock-location flag, fewer than three
    reported anomalies and a recorded distance within the recorded
    radius, then so are the stored reviews after any request, accepted
    or refused. *)
Theorem stored_reviews_carry_no_hard_signal (s : State) :
  Forall NoHardSignal (reviews s) ->
  Forall NoHardSignal
         (reviews (fst (createReview M tz clock couponCode req s))).
Proof.
  intros Hall. rewrite createReview_result.
  destruct (guardChecks M tz clock req s) as [s1 [checked|r]] eqn:Hg.
  - apply guardChecks_continue in Hg. destruct Hg as (-> & Hpass & Hd).
    rewrite securityValidation_result.
    destruct (poorAccuracy req) eqn:Hacc; [exact Hall|].
    destruct (mockLocation req) eqn:Hmock; [exact Hall|].
    destruct (manyAnomalies req) eqn:Hmany; [exact Hall|].
    rewrite Hd.
    set (s2 := record (advisoryEntries tz clock req s) s).
    assert (Hnew : Forall NoHardSignal
                     (reviews s2 ++
                      [newReview clock req (nextId s2) (fst checked)
                                 (distanceTo M req (fst checked))])).
    { apply Forall_app. split; [exact Hall|]. constructor; [|constructor].
      apply (@accepted_newReview_clean s).
      split; [exact Hpass|]. split; [exact Hacc|].
      split; [exact Hmock | exact Hmany]. }
    accept_cases; simpl; try exact Hall; try exact Hnew.
    apply Forall_updateById; [|exact Hnew].
    intros a Ha. exact Ha.
  - apply guardChecks_respond in Hg. destruct Hg as (Hr & _).
    simpl. rewrite Hr. exact Hall.
Qed.

(** X23.  Whom [createReview] notifies.  A request that mints a coupon
    sends exactly two notifications, "Coupon Earned! 🎉" to the reviewer
    and then "New Review" to the owner of the business; every other
    request sends none, so when the redemption limit withholds the
    reward the review is stored but neither the reviewer nor the owner
    hears of it. *)
Theorem createReview_notifications (s : State) :
  let result := createReview M tz clock couponCode req s in
  match minted (snd result) with
  | Some _ =>
      exists b,
        businessById (Request.business req) s = Some b /\
        pushed (fst result)
        = pushed s ++ [mkNotification (Request.user_id req) "Coupon Earned! 🎉";
                       mkNotification (Business.owner b) "New Review"]
  | None => pushed (fst result) = pushed s
  end.
Proof.
  cbv zeta. rewrite createReview_result.
  destruct (guardChecks M tz clock req s) as [s1 [checked|r]] eqn:Hg.
  - apply guardChecks_continue in Hg.
    destruct Hg as (-> & (Hb & _) & _).
    rewrite securityValidation_result.
    destruct (poorAccuracy req); [reflexivity|].
    destruct (mockLocation req); [reflexivity|].
    destruct (manyAnomalies req); [reflexivity|].
    accept_cases; simpl; try reflexivity.
    exists (fst checked). split; [exact Hb | reflexivity].
  - rewrite guardChecks_result in Hg.
    destruct (find _ (businesses s)) as [b|];
      [|injection Hg as <- <-; reflexivity].
    destruct (negb _); [injection Hg as <- <-; reflexivity|].
    destruct (5 <=? _); [injection Hg as <- <-; reflexivity|].
    destruct (find _ (reviews s)); [injection Hg as <- <-; reflexivity|].
    destruct (isWithinGeofence _ _ _ _ _ _); [discriminate|].
    injection Hg as <- <-. reflexivity.
Qed.

(** X24.  The daily limit.  [createReview] answers "review limit
    reached" exactly when the business exists and is active and the
    user already has five or more reviews dated today; the request then
    leaves one RATE_LIMIT_EXCEEDED entry in the log and changes nothing
    else, whatever its location and security metadata and whether or
    not the user reviewed this business today. *)
Theorem daily_limit_refusal (s : State) :
  let result := createReview M tz clock couponCode req s in
  (snd result = ReviewLimitReached <->
   exists b, businessById (Request.business req) s = Some b /\
             Business.status b = Business.active /\
             5 <= reviewsToday tz clock req s) /\
  (snd result = ReviewLimitReached ->
   fst result
   = record [mkEntry (Request.user_id req) RATE_LIMIT_EXCEEDED
               (RateLimitMeta (reviewsToday tz clock req s)
                              (Request.business req))] s).
Proof.
  cbv zeta. rewrite createReview_result, guardChecks_result.
  unfold businessById.
  destruct (find _ (businesses s)) as [b|].
  2:{ split; [split; [discriminate|]|discriminate].
      intros (b & H & _). discriminate. }
  destruct (Business.status_is (Business.status b) Business.active) eqn:Ha;
    cbn [negb].
  2:{ split; [split; [discriminate|]|discriminate].
      intros (b' & H & Hs & _). injection H as <-.
      apply business_status_is_true in Hs. congruence. }
  apply business_status_is_true in Ha.
  destruct (Nat.leb_spec 5 (reviewsToday tz clock req s)) as [Hle|Hlt].
  { split; [split; [intros _; exists b; auto | reflexivity] | reflexivity]. }
  assert (Hno : ~ exists b0, Some b = Some b0 /\
                             Business.status b0 = Business.active /\
                             5 <= reviewsToday tz clock req s)
    by (intros (b0 & _ & _ & H); lia).
  destruct (find _ (reviews s)).
  { split; [split; [discriminate | intros H; destruct (Hno H)]
           | discriminate]. }
  destruct (isWithinGeofence _ _ _ _ _ _).
  2:{ split; [split; [discriminate | intros H; destruct (Hno H)]
             | discriminate]. }
  rewrite securityValidation_result.
  destruct (poorAccuracy req);
    [split; [split; [discriminate | intros H; destruct (Hno H)]
            | discriminate]|].
  destruct (mockLocation req);
    [split; [split; [discriminate | intros H; destruct (Hno H)]
            | discriminate]|].
  destruct (manyAnomalies req);
    [split; [split; [discriminate | intros H; destruct (Hno H)]
            | discriminate]|].
  accept_cases; simpl;
    (split; [split; [discriminate | intros H; destruct (Hno H)]
            | discriminate]).
Qed.

End StoredReviews.

Section StoredReviewsOnExamples.
Import Spec Laws MoreExamples.

Lemma stored_reviews_carry_no_hard_signal_witness :
  Forall NoHardSignal
    (reviews (fst (createReview refMath utcZone (instant noon) "HASH-ABC123"
                                (cleanVisit 7 5%float) emptyStore))).
Proof.
  apply (@stored_reviews_carry_no_hard_signal refMath utcZone (instant noon)
           "HASH-ABC123" (cleanVisit 7 5%float) emptyStore).
  simpl. constructor.
Defined.

Lemma daily_limit_refusal_witness :
  snd (createReview refMath utcZone (instant (noon + msPerHour))
                    "HASH-DEF456" secondThoughts storeAfterFiveReviews)
  = ReviewLimitReached.
Proof.
  apply (daily_limit_refusal refMath utcZone (instant (noon + msPerHour))
           "HASH-DEF456" secondThoughts storeAfterFiveReviews).
  eexists. split; [vm_compute; reflexivity|].
  split; [reflexivity|]. apply Nat.leb_le. vm_compute. reflexivity.
Defined.

End StoredReviewsOnExamples.

(* ================================================================== *)
(** * The day the daily checks count, and the links a reward leaves    *)
(* ================================================================== *)

Section DailyWindow.
Import Spec Laws MoreExamples.
Local Open Scope Z_scope.

(** X26.  "Today" in the daily checks is the server's calendar day.  In
    a zone with a fixed offset, the instant [createReview] compares
    review dates with is the last local midnight: it is at most 24
    hours before the request; and in a store without reviews dated
    after the request, the count the daily limit compares with 5 is the
    number of the user's reviews whose local calendar day is the
    request's. *)
Theorem daily_window_is_the_local_day (offset : Z) (clock : Clock)
    (req : Request.t) (s : State) :
  (forall r, In r (reviews s) -> Review.createdAt r <= at_today clock) ->
  today (fixedZone offset) clock <= at_today clock
  < today (fixedZone offset) clock + msPerDay /\
  LocalTime (fixedZone offset) (today (fixedZone offset) clock) mod msPerDay
  = 0 /\
  reviewsToday (fixedZone offset) clock req s
  = countDocuments
      (fun r => (Review.user r =? Request.user_id req)%nat &&
                (reviewDay (fixedZone offset) r
                 =? Day (LocalTime (fixedZone offset) (at_today clock))))
      (reviews s).
Proof.
  intros Hpast. split; [|split].
  - rewrite today_fixedZone. unfold Day, msPerDay.
    Z.to_euclidean_division_equations. lia.
  - rewrite today_fixedZone. unfold LocalTime, Day, msPerDay. simpl.
    Z.to_euclidean_division_equations. lia.
  - unfold reviewsToday, countDocuments. f_equal.
    apply filter_ext_in. intros r Hr. f_equal.
    apply eq_true_iff_eq. rewrite Z.geb_leb, Z.leb_le, Z.eqb_eq.
    apply (since_today_same_day offset clock (Hpast r Hr)).
Qed.

Lemma daily_window_is_the_local_day_witness :
  today utcZone (instant (noon + msPerHour)) = noon - 12 * msPerHour /\
  reviewsToday utcZone (instant (noon + msPerHour)) secondThoughts
               storeAfterFirstReview
  = countDocuments
      (fun r => (Review.user r =? 7)%nat &&
                (reviewDay utcZone r
                 =? Day (LocalTime utcZone (noon + msPerHour))))
      (reviews storeAfterFirstReview).
Proof.
  split; [vm_compute; reflexivity|].
  apply (@daily_window_is_the_local_day 0 (instant (noon + msPerHour))
           secondThoughts storeAfterFirstReview).
  replace (reviews storeAfterFirstReview)
    with [Review.set_coupon 1001%nat
            (newReview (instant noon) (bareVisit 7%nat 5%float) 1000%nat cafe
               (distanceTo refMath (bareVisit 7%nat 5%float) cafe))]
    by (vm_compute; reflexivity).
  intros r [<-|[]]. vm_compute. discriminate.
Defined.

End DailyWindow.

Section RewardLinks.
Import Spec Laws MoreExamples.

Variable M : MathEngine.
Variable tz : TimeZone.
Variable clock : Clock.
Variable couponCode : string.
Variable req : Request.t.

(** X27.  The links a reward leaves.  Whenever [createReview] answers
    with a review and a coupon, the two point at each other: the review
    is marked as rewarded and names the coupon, the coupon names the
    review, the reviewer and the business and carries the drawn code,
    and the QR payload stored with the coupon repeats the coupon's id,
    code, business, user and review; the review is stored as answered,
    and the coupon is in the store. *)
Theorem reward_links_review_and_coupon (s : State) (review : Review.t)
    (coupon : Coupon.t) :
  let result := createReview M tz clock couponCode req s in
  snd result = ReviewPosted review coupon ->
  Review.couponAwarded review = true /\
  Review.coupon review = Some (Coupon._id coupon) /\
  Coupon.review coupon = Some (Review._id review) /\
  Coupon.user coupon = Some (Review.user review) /\
  Coupon.business coupon = Review.business review /\
  Coupon.code coupon = couponCode /\
  Coupon.qrCodeData coupon
  = Some (Coupon.mkQr "coupon" (Coupon._id coupon) (Coupon.code coupon)
                      (Coupon.business coupon) (Review.user review)
                      (Review._id review)) /\
  Review._id review <> Coupon._id coupon /\
  In coupon (coupons (fst result)).
Proof.
  cbv zeta. rewrite createReview_result.
  destruct (guardChecks M tz clock req s) as [s1 [checked|r]] eqn:Hg.
  - apply guardChecks_continue in Hg. destruct Hg as (-> & _ & _).
    rewrite securityValidation_result.
    destruct (poorAccuracy req); [simpl; discriminate|].
    destruct (mockLocation req); [simpl; discriminate|].
    destruct (manyAnomalies req); [simpl; discriminate|].
    accept_cases; try (simpl; discriminate).
    simpl. intros H. injection H as <- <-. simpl.
    repeat (split; [reflexivity|]).
    split; [apply Nat.neq_succ_diag_r|].
    destruct (templateOf req _) as [template|] eqn:Ht.
    + unfold templateOf in Ht. apply find_some in Ht. destruct Ht as [Hin _].
      rewrite (@updateById_app_l _ Coupon._id (Coupon._id template)
                 Coupon.inc_usageCount _ _ template Hin eq_refl).
      apply in_or_app. right. left. reflexivity.
    + apply in_or_app. right. left. reflexivity.
  - apply guardChecks_respond in Hg. destruct Hg as (_ & _ & _ & Hp).
    simpl. intros ->. discriminate.
Qed.

End RewardLinks.

Section RewardLinksOnExamples.
Import Spec Laws MoreExamples.

Lemma reward_links_review_and_coupon_witness :
  exists review coupon,
    snd (createReview refMath utcZone (instant noon) "HASH-ABC123"
                      (bareVisit 7 5%float) emptyStore)
    = ReviewPosted review coupon /\
    Review.coupon review = Some (Coupon._id coupon) /\
    Coupon.review coupon = Some (Review._id review).
Proof.
  set (review :=
         Review.set_coupon 1001
           (newReview (instant noon) (bareVisit 7 5%float) 1000 cafe
              (distanceTo refMath (bareVisit 7 5%float) cafe))).
  set (coupon :=
         Coupon.set_qrCodeData
           (Coupon.mkQr "coupon" 1001 "HASH-ABC123" 1 7 1000)
           (newCoupon utcZone (instant noon) "HASH-ABC123" (bareVisit 7 5%float)
              1001
              (newReview (instant noon) (bareVisit 7 5%float) 1000 cafe
                 (distanceTo refMath (bareVisit 7 5%float) cafe))
              None)).
  assert (H : snd (createReview refMath utcZone (instant noon) "HASH-ABC123"
                                (bareVisit 7 5%float) emptyStore)
              = ReviewPosted review coupon) by (vm_compute; reflexivity).
  destruct (@reward_links_review_and_coupon refMath utcZone (instant noon)
              "HASH-ABC123" (bareVisit 7 5%float) emptyStore review coupon H)
    as (_ & H1 & H2 & _).
  exists review, coupon. split; [exact H|]. split; assumption.
Defined.

End RewardLinksOnExamples.

(* ================================================================== *)
(** * Helpful marks                                                    *)
(* ================================================================== *)

Section HelpfulMarks.
Import Helpful MoreExamples.

Lemma includes_In (user : ObjectId) (helpful : list ObjectId) :
  includes user helpful = true <-> In user helpful.
Proof.
  unfold includes. rewrite existsb_exists. split.
  - intros (x & Hin & Hx). apply Nat.eqb_eq in Hx. subst. exact Hin.
  - intros Hin. exists user. split; [exact Hin | apply Nat.eqb_refl].
Qed.

Lemma toggled_In (user other : ObjectId) (helpful : list ObjectId) :
  In other (toggled user helpful) <->
  (other = user /\ ~ In user helpful) \/ (other <> user /\ In other helpful).
Proof.
  unfold toggled. destruct (includes user helpful) eqn:E.
  - apply includes_In in E. rewrite filter_In, negb_true_iff, Nat.eqb_neq.
    split.
    + intros (Hin & Hne). right. split; assumption.
    + intros [(-> & Hnot)|(Hne & Hin)]; [contradiction | split; assumption].
  - assert (Hnot : ~ In user helpful)
      by (rewrite <- includes_In, E; discriminate).
    rewrite in_app_iff. simpl. split.
    + intros [Hin|[<-|[]]].
      * right. split; [intros ->; contradiction | exact Hin].
      * left. split; [reflexivity | exact Hnot].
    + intros [(-> & _)|(_ & Hin)]; [right; left; reflexivity | left; exact Hin].
Qed.

Lemma toggled_length (user : ObjectId) (helpful : list ObjectId) :
  List.length (toggled user helpful)
  = if includes user helpful
    then List.length helpful - count_occ Nat.eq_dec helpful user
    else S (List.length helpful).
Proof.
  unfold toggled. destruct (includes user helpful).
  - induction helpful as [|x l IH]; simpl; [reflexivity|].
    destruct (Nat.eq_dec x user) as [->|Hne].
    + rewrite Nat.eqb_refl. simpl. exact IH.
    + apply Nat.eqb_neq in Hne. rewrite Hne. simpl. rewrite IH.
      pose proof (count_occ_bound Nat.eq_dec user l).
      unfold ObjectId in *.
      destruct (count_occ Nat.eq_dec l user); lia.
  - rewrite length_app. simpl. lia.
Qed.

(** X28.  [markHelpful] is a toggle on the user's own mark.  For a
    stored review the request leaves the user in the [helpful] array
    exactly when the user was not in it before, keeps every other
    user's marks, answers with the new length of the array (one more
    when the mark was added), and a second request by the same user
    gives back an array with the same members as at the start. *)
Theorem markHelpful_toggles (user reviewId : ObjectId) (docs : list Doc)
    (d : Doc) :
  find (fun d => docId d =? reviewId) docs = Some d ->
  let result := markHelpful user reviewId docs in
  exists d1,
    find (fun d => docId d =? reviewId) (fst result) = Some d1 /\
    review d1 = review d /\
    (In user (helpful d1) <-> ~ In user (helpful d)) /\
    (forall other, other <> user ->
                   (In other (helpful d1) <-> In other (helpful d))) /\
    snd result = HelpfulCount (List.length (helpful d1)) /\
    (~ In user (helpful d) ->
     List.length (helpful d1) = S (List.length (helpful d))) /\
    exists d2,
      find (fun d => docId d =? reviewId)
           (fst (markHelpful user reviewId (fst result))) = Some d2 /\
      forall u, In u (helpful d2) <-> In u (helpful d).
Proof.
  intros Hfind. cbv zeta.
  pose proof (find_some_id _ _ _ Hfind) as Hid.
  set (d1 := mkDoc (review d) (toggled user (helpful d))).
  assert (Hfind1 : find (fun d => docId d =? reviewId)
                     (fst (markHelpful user reviewId docs)) = Some d1).
  { unfold markHelpful. rewrite Hfind. simpl. rewrite Hid.
    apply (find_updateById docId reviewId
             (fun d0 => mkDoc (review d0) (toggled user (helpful d)))
             docs); [reflexivity | exact Hfind]. }
  exists d1. split; [exact Hfind1|]. split; [reflexivity|].
  split; [|split; [|split; [|split]]].
  - simpl. rewrite toggled_In. split.
    + intros [(_ & H)|(H & _)]; [exact H | contradiction].
    + intros H. left. split; [reflexivity | exact H].
  - intros other Hne. simpl. rewrite toggled_In. split.
    + intros [(H & _)|(_ & H)]; [contradiction | exact H].
    + intros H. right. split; assumption.
  - unfold markHelpful. rewrite Hfind. reflexivity.
  - intros Hnot. simpl. rewrite toggled_length.
    destruct (includes user (helpful d)) eqn:E; [|reflexivity].
    apply includes_In in E. contradiction.
  - assert (Hid1 : docId d1 = reviewId) by exact Hid.
    exists (mkDoc (review d1) (toggled user (helpful d1))). split.
    + unfold markHelpful at 1. rewrite Hfind1. cbv zeta. cbn [fst].
      rewrite Hid1.
      apply (find_updateById docId reviewId
               (fun d0 => mkDoc (review d0) (toggled user (helpful d1))));
        [reflexivity | exact Hfind1].
    + intros u. simpl. rewrite !toggled_In.
      destruct (Nat.eq_dec u user) as [->|Hne].
      * split.
        -- intros [(_ & H)|(H & _)]; [|contradiction].
           destruct (in_dec Nat.eq_dec user (helpful d)) as [Hin|Hnin];
             [exact Hin|].
           exfalso. apply H. left. split; [reflexivity | exact Hnin].
        -- intros Hin. left. split; [reflexivity|].
           intros [(_ & H)|(H & _)]; contradiction.
      * split.
        -- intros [(H & _)|(_ & [(H & _)|(_ & H)])];
             [contradiction | contradiction | exact H].
        -- intros Hin. right. split; [exact Hne|].
           right. split; assumption.
Qed.

Lemma markHelpful_toggles_witness :
  exists d1,
    find (fun d => docId d =? 1000) (fst (markHelpful 7 1000 helpfulDocs))
    = Some d1 /\
    snd (markHelpful 7 1000 helpfulDocs)
    = HelpfulCount (List.length (helpful d1)) /\
    List.length (helpful d1) = 3.
Proof.
  destruct (@markHelpful_toggles 7 1000 helpfulDocs
              (mkDoc (Review.set_coupon 1001
                        (newReview (instant noon) (bareVisit 7 5%float) 1000 cafe
                           (Spec.distanceTo refMath (bareVisit 7 5%float) cafe)))
                     [8; 9]))
    as (d1 & H1 & _ & _ & _ & H5 & H6 & _).
  - vm_compute. reflexivity.
  - exists d1. split; [exact H1|]. split; [exact H5|].
    apply H6. simpl. intros [H|[H|[]]]; discriminate.
Defined.

End HelpfulMarks.

(* ================================================================== *)
(** * The report on the suspicious-activity log                        *)
(* ================================================================== *)

Section ActivityReports.
Import ActivityReport MoreExamples.

Lemma sameType_true (a b : EventType) : sameType a b = true <-> a = b.
Proof.
  unfold sameType. destruct (EventType_eq_dec a b); split; congruence.
Qed.

Lemma sameType_refl (a : EventType) : sameType a a = true.
Proof. apply sameType_true. reflexivity. Qed.

Lemma lookup_increment (t t' : EventType) (byType : list (EventType * nat)) :
  lookup t (increment t' byType)
  = lookup t byType + (if sameType t' t then 1 else 0).
Proof.
  unfold lookup. induction byType as [|[k n] rest IH]; simpl.
  - destruct (sameType t' t); reflexivity.
  - destruct (sameType k t') eqn:Ek; simpl.
    + apply sameType_true in Ek. subst k.
      destruct (sameType t' t); simpl; lia.
    + destruct (sameType k t) eqn:Et; simpl.
      * apply sameType_true in Et. subst k.
        destruct (sameType t' t) eqn:E; [|lia].
        apply sameType_true in E. subst t'.
        rewrite sameType_refl in Ek. discriminate.
      * exact IH.
Qed.

Lemma sum_increment (t : EventType) (byType : list (EventType * nat)) :
  list_sum (map snd (increment t byType)) = S (list_sum (map snd byType)).
Proof.
  induction byType as [|[k n] rest IH]; simpl; [reflexivity|].
  destruct (sameType k t); simpl; [lia | rewrite IH; lia].
Qed.

Lemma keys_increment (t : EventType) (byType : list (EventType * nat)) :
  NoDup (map fst byType) ->
  NoDup (map fst (increment t byType)) /\
  forall k, In k (map fst (increment t byType)) <->
            k = t \/ In k (map fst byType).
Proof.
  induction byType as [|[k n] rest IH]; intros Hnodup; simpl.
  - split; [constructor; [intros []|constructor]|].
    intros k. split; [intros [H|[]]; left; congruence|].
    intros [H|[]]. left. congruence.
  - inversion Hnodup as [|? ? Hnotin Hrest]; subst.
    destruct (sameType k t) eqn:Ek; simpl.
    + apply sameType_true in Ek. subst k.
      split; [exact Hnodup|]. intros k. intuition congruence.
    + destruct (IH Hrest) as (Hnd & Hkeys).
      assert (Hkt : k <> t)
        by (intros ->; rewrite sameType_refl in Ek; discriminate).
      split.
      * constructor; [|exact Hnd]. rewrite Hkeys.
        intros [H|H]; [exact (Hkt H) | exact (Hnotin H)].
      * intros k'. rewrite Hkeys. tauto.
Qed.

Lemma tally (log : list LogEntry) (acc : list (EventType * nat)) :
  let byType :=
    fold_left (fun byType activity => increment (eventType activity) byType)
              log acc in
  (forall t, lookup t byType
             = lookup t acc
               + countDocuments (fun a => sameType (eventType a) t) log) /\
  list_sum (map snd byType) = list_sum (map snd acc) + List.length log /\
  (NoDup (map fst acc) -> NoDup (map fst byType)).
Proof.
  cbv zeta. revert acc. unfold countDocuments.
  induction log as [|a log IH]; intros acc; simpl.
  - split; [intros t; lia|]. split; [lia | auto].
  - destruct (IH (increment (eventType a) acc)) as (Hl & Hs & Hn).
    split; [|split].
    + intros t. rewrite Hl, lookup_increment.
      destruct (sameType (eventType a) t); simpl; lia.
    + rewrite Hs, sum_increment. lia.
    + intros Hacc. apply Hn. apply keys_increment. exact Hacc.
Qed.

(** X29.  The report on the suspicious-activity log is consistent:
    [stats.total] is the number of entries held; [stats.byType] has one
    key per event type that occurs, its count the number of entries of
    that type, and the counts add up to the total; the number of
    activities returned never exceeds the total, and for a limit that
    is not negative it is the smaller of the limit and the number of
    entries held (of the wanted type, when the query names one). *)
Theorem activity_report_is_consistent (limit : option Z)
    (wanted : option EventType) (s : State) :
  let report := getSuspiciousActivities limit wanted s in
  let log := suspiciousActivityLog s in
  total (stats report) = List.length log /\
  (forall t, lookup t (byType (stats report))
             = countDocuments (fun a => sameType (eventType a) t) log) /\
  list_sum (map snd (byType (stats report))) = total (stats report) /\
  NoDup (map fst (byType (stats report))) /\
  count report <= total (stats report) /\
  (forall n, limit = Some n -> (0 <= n)%Z ->
     count report
     = Nat.min (Z.to_nat n)
               (match wanted with
                | Some t => lookup t (byType (stats report))
                | None => total (stats report)
                end)).
Proof.
  cbv zeta. unfold getSuspiciousActivities. simpl.
  destruct (tally (suspiciousActivityLog s) []) as (Hl & Hs & Hn).
  cbv zeta in Hl, Hs, Hn. simpl in Hl, Hs.
  split; [reflexivity|]. split; [exact Hl|]. split; [exact Hs|].
  split; [apply Hn; constructor|].
  assert (Hfiltered :
            List.length
              (match wanted with
               | Some t => filter (fun a => sameType (eventType a) t)
                                  (suspiciousActivityLog s)
               | None => suspiciousActivityLog s
               end) <= List.length (suspiciousActivityLog s))
    by (destruct wanted; [apply filter_length_le | lia]).
  split.
  - unfold slice0. destruct limit as [n|]; simpl; [|lia].
    destruct (n <? 0)%Z; rewrite length_firstn; lia.
  - intros n -> Hn0. unfold slice0.
    replace (n <? 0)%Z with false by (symmetry; apply Z.ltb_ge; exact Hn0).
    rewrite length_firstn. destruct wanted as [t|]; [|reflexivity].
    rewrite Hl. reflexivity.
Qed.

Lemma activity_report_is_consistent_witness :
  count (getSuspiciousActivities (Some 100%Z) (Some RATE_LIMIT_EXCEEDED)
                                 storeWithFullLog) = 100 /\
  byType (stats (getSuspiciousActivities (Some 100%Z)
                                         (Some RATE_LIMIT_EXCEEDED)
                                         storeWithFullLog))
  = [(RATE_LIMIT_EXCEEDED, 1000)].
Proof.
  destruct (activity_report_is_consistent (Some 100%Z)
              (Some RATE_LIMIT_EXCEEDED) storeWithFullLog)
    as (_ & _ & _ & _ & _ & Hcount).
  split.
  - rewrite (Hcount 100%Z eq_refl); [|vm_compute; discriminate].
    vm_compute. reflexivity.
  - vm_compute. reflexivity.
Defined.

End ActivityReports.
